(** * Enveloped XML signature of NFS-e documents: [signer.py]

    A shallow embedding of [assinar_xml] (signer.py) and the properties of
    the signature it produces.

    The function is a straight-line composition of calls into three
    libraries ([lxml.etree], [cryptography], [hashlib]) and [base64], with
    optional logging and with exceptions that abort the call.  The
    embedding keeps that shape:

    - the element tree is a concrete data type, and the ElementTree
      operations that only rearrange the tree ([find], [get], [SubElement],
      [addnext]) are functions on it;
    - parsing, serialisation, canonicalisation, hashing, PKCS#12 decoding and
      RSA signing are the libraries' business, and the PFX file is the file
      system's: they are the methods of four interfaces, and every theorem
      holds for every implementation of them;
    - [base64.b64encode] is written out;
    - logging and exceptions are a small monad: a run yields the records it
      logged and either the exception raised or the value returned. *)

From Stdlib Require Import Strings.Byte NArith.
From stdpp Require Import base option list strings pretty.

Set Default Proof Using "Type".
Set Warnings "-register-all".

(** ** Python values *)

(** [bytes] are byte lists; [str] is a [string] holding its UTF-8 encoding,
    so [s.encode("utf-8")] and [b.decode("utf-8")] copy the bytes. *)
Definition bytes : Type := list byte.

Definition encode (s : string) : bytes := String.list_byte_of_string s.
Definition decode (b : bytes) : string := String.string_of_list_byte b.

(** [len(s)] of a [str] counts code points: the bytes of the encoding that
    are not continuation bytes [10xxxxxx]. *)
Definition is_continuation (b : byte) : bool :=
  N.eqb (N.land (Byte.to_N b) 192) 128.

Definition len (s : string) : nat :=
  length (filter (λ b, is_continuation b = false) (encode s)).

(** [s[:n]] on a [str] of ASCII characters. *)
Definition str_prefix (n : nat) (s : string) : string :=
  decode (take n (encode s)).

(** ** [base64.b64encode] *)

Definition b64_alphabet : bytes :=
  encode "ABCDEFGHIJKLMNOPQRSTUVWXYZabcdefghijklmnopqrstuvwxyz0123456789+/".

Definition b64_pad : byte := "="%byte.

Definition b64_char (n : N) : byte :=
  nth (N.to_nat n) b64_alphabet b64_pad.

Fixpoint b64encode (s : bytes) : bytes :=
  match s with
  | [] => []
  | [a] =>
      let x := Byte.to_N a in
      [b64_char (N.shiftr x 2); b64_char (N.shiftl (N.land x 3) 4);
       b64_pad; b64_pad]
  | [a; b] =>
      let x := Byte.to_N a in
      let y := Byte.to_N b in
      [b64_char (N.shiftr x 2);
       b64_char (N.lor (N.shiftl (N.land x 3) 4) (N.shiftr y 4));
       b64_char (N.shiftl (N.land y 15) 2);
       b64_pad]
  | a :: b :: c :: rest =>
      let x := Byte.to_N a in
      let y := Byte.to_N b in
      let z := Byte.to_N c in
      b64_char (N.shiftr x 2)
      :: b64_char (N.lor (N.shiftl (N.land x 3) 4) (N.shiftr y 4))
      :: b64_char (N.lor (N.shiftl (N.land y 15) 2) (N.shiftr z 6))
      :: b64_char (N.land z 63)
      :: b64encode rest
  end.

(** ** Exceptions, logging and the monad of a call *)

Inductive exn : Type :=
  | FileNotFoundError (filename : string)
  | ValueError (msg : string)
  | TypeError (msg : string)
  | XMLSyntaxError (msg : string)
  | C14NError (msg : string).

Inductive level : Type := INFO | ERROR.

Definition log_record : Type := level * string.

(** A run: what was logged, and how the call ended. *)
Record M (A : Type) : Type := Run {
  trace : list log_record;
  outcome : exn + A
}.
Arguments Run {A} _ _.
Arguments trace {A} _.
Arguments outcome {A} _.

Definition M_bind {A B : Type} (f : A → M B) (m : M A) : M B :=
  match outcome m with
  | inl e => Run (trace m) (inl e)
  | inr a => let r := f a in Run (trace m ++ trace r) (outcome r)
  end.

#[global] Instance M_ret : MRet M := λ A a, Run [] (inr a).
#[global] Instance M_mbind : MBind M := λ A B f m, M_bind f m.

Definition raise {A : Type} (e : exn) : M A := Run [] (inl e).

(** A library call: it logs nothing and may raise. *)
Definition call {A : Type} (r : exn + A) : M A := Run [] r.

(** [if logger: logger.info(msg)] and [if logger: logger.error(msg)]; the
    argument [logger] tells whether the caller supplied one. *)
Definition log (logger : bool) (lvl : level) (msg : string) : M unit :=
  Run (if logger then [(lvl, msg)] else []) (inr tt).

Definition log_info (logger : bool) (msg : string) : M unit := log logger INFO msg.
Definition log_error (logger : bool) (msg : string) : M unit := log logger ERROR msg.

(** ** The element tree of [lxml.etree] *)

(** Tags are in the notation the source uses, [{namespace}local]. An
    element carries its attributes in document order, the namespace
    declarations made on it ([nsmap], prefix [None] for the default
    namespace), its [text], its children and its [tail]. Comments and
    processing instructions are nodes of the tree too; they have no tag that
    a name can match. The prefix that an element was written with is not
    kept, nor the quotes of its attributes: where the bytes of an element
    matter, the theorems speak of the bytes that the library returns for
    it. *)
Inductive node : Type :=
  | Element (tag : string) (attrib : list (string * string))
      (nsmap : list (option string * string)) (text : option string)
      (children : list node) (tail : option string)
  | Comment (text : string) (tail : option string)
  | ProcessingInstruction (target : string) (text : option string)
      (tail : option string).

Definition node_tag (n : node) : option string :=
  match n with
  | Element tag _ _ _ _ _ => Some tag
  | _ => None
  end.

Definition node_attrib (n : node) : list (string * string) :=
  match n with
  | Element _ attrib _ _ _ _ => attrib
  | _ => []
  end.

Definition node_nsmap (n : node) : list (option string * string) :=
  match n with
  | Element _ _ nsmap _ _ _ => nsmap
  | _ => []
  end.

Definition node_text (n : node) : option string :=
  match n with
  | Element _ _ _ text _ _ => text
  | Comment text _ => Some text
  | ProcessingInstruction _ text _ => text
  end.

Definition node_children (n : node) : list node :=
  match n with
  | Element _ _ _ _ children _ => children
  | _ => []
  end.

Definition node_tail (n : node) : option string :=
  match n with
  | Element _ _ _ _ _ tail => tail
  | Comment _ tail => tail
  | ProcessingInstruction _ _ tail => tail
  end.

(** [element.get(key)]: the value of the attribute, [None] when absent. *)
Definition get (n : node) (key : string) : option string :=
  snd <$> List.find (λ kv, String.eqb (fst kv) key) (node_attrib n).

(** ["{%s}name" % ns] *)
Definition clark (ns name : string) : string := "{" +:+ ns +:+ "}" +:+ name.

(** [element.find(path)] for a path that is one qualified name: the first
    child of [element], in document order, whose tag is that name, together
    with its position among the children ([findall]: all of them).  Only the
    children are searched, neither [element] itself nor deeper
    descendants. *)
Definition find (tag : string) (n : node) : option (nat * node) :=
  list_find (λ c, node_tag c = Some tag) (node_children n).

Definition findall (tag : string) (n : node) : list node :=
  filter (λ c, node_tag c = Some tag) (node_children n).

(** [ET.Element(tag, nsmap=nsmap)] and [ET.SubElement(parent, tag, **attrib)]
    create an element without text, children or tail; the children are
    appended to [parent] in the order of the [SubElement] calls. *)
Definition new_element (tag : string) (attrib : list (string * string))
    (nsmap : list (option string * string)) (text : option string)
    (children : list node) : node :=
  Element tag attrib nsmap text children None.

(** [target.addnext(element)] where [target] is child [i] of [parent]:
    [element] becomes the sibling that follows [target] (after the tail text
    of [target], which stays with it); every other child keeps its place. *)
Definition addnext (parent : node) (i : nat) (element : node) : node :=
  match parent with
  | Element tag attrib nsmap text children tail =>
      Element tag attrib nsmap text
        (take (S i) children ++ element :: drop (S i) children) tail
  | _ => parent
  end.

(** ** The libraries behind the function *)

(** [lxml.etree].
    - [fromstring data]: the root element of the parsed document, or
      [XMLSyntaxError].
    - [tostring xml_declaration inherited element]: the serialisation
      [ET.tostring(element, encoding="utf-8", xml_declaration=..)] without
      pretty-printing; [inherited] are the namespace declarations in scope
      at the parent of [element], which lxml writes on the element it
      serialises; the tail of [element] is part of the output.
    - [tostring_c14n exclusive with_comments element]:
      [ET.tostring(element, method="c14n", exclusive=.., with_comments=..)],
      Canonical XML 1.0 of the document whose root is [element]. *)
Class Etree : Type := {
  fromstring : bytes → exn + node;
  tostring : bool → list (option string * string) → node → bytes;
  tostring_c14n : bool → bool → node → exn + bytes
}.

(** [hashlib]: [sha1 data] is [hashlib.sha1(data).digest()]. *)
Class Hashlib : Type := {
  sha1 : bytes → bytes
}.

(** [cryptography]. The private key of a PKCS#12 bundle is of one of five
    types; a certificate is known by its DER encoding,
    [certificate.public_bytes(Encoding.DER)]. *)
Inductive private_key : Type :=
  | RSAPrivateKey (key : bytes)
  | DSAPrivateKey (key : bytes)
  | EllipticCurvePrivateKey (key : bytes)
  | Ed25519PrivateKey (key : bytes)
  | Ed448PrivateKey (key : bytes).

Record certificate : Type := Certificate {
  public_bytes_DER : bytes
}.

Inductive padding : Type := PKCS1v15 | PSS.
Inductive hash_algorithm : Type := SHA1 | SHA256.

(** - [load_key_and_certificates data password]:
      [pkcs12.load_key_and_certificates], which raises when the container
      cannot be decoded or the password does not open it, and otherwise
      returns the key, the certificate (either may be [None]) and the
      additional certificates.
    - [rsa_sign key pad alg data]: [RSAPrivateKey.sign(data, pad, alg)]. *)
Class Cryptography : Type := {
  load_key_and_certificates :
    bytes → option bytes →
    exn + (option private_key * option certificate * list certificate);
  rsa_sign : bytes → padding → hash_algorithm → bytes → exn + bytes
}.

(** [private_key.sign(data, pad, alg)]: only an RSA key has a [sign] of
    these three arguments. The [sign] of a DSA or elliptic-curve key takes
    [(data, algorithm)], that of an Ed25519 or Ed448 key takes [(data)]; the
    interpreter rejects the call with [TypeError] (the wording of its message
    varies with the version and plays no part below). *)
Definition sign `{Cryptography} (k : private_key) (data : bytes)
    (pad : padding) (alg : hash_algorithm) : exn + bytes :=
  match k with
  | RSAPrivateKey key => rsa_sign key pad alg data
  | DSAPrivateKey _ | EllipticCurvePrivateKey _ =>
      inl (TypeError "sign() takes 3 positional arguments but 4 were given")
  | Ed25519PrivateKey _ | Ed448PrivateKey _ =>
      inl (TypeError "sign() takes 2 positional arguments but 4 were given")
  end.

(** The files the call can read: [open(path, "rb").read()]. *)
Class FileSystem : Type := {
  open_rb : string → exn + bytes
}.

(** ** [signer.py] *)

Definition NS_NFSE : string := "http://www.sped.fazenda.gov.br/nfse".
Definition NS_DS : string := "http://www.w3.org/2000/09/xmldsig#".

Definition ALG_C14N : string := "http://www.w3.org/TR/2001/REC-xml-c14n-20010315".
Definition ALG_RSA_SHA1 : string := "http://www.w3.org/2000/09/xmldsig#rsa-sha1".
Definition ALG_ENVELOPED : string := "http://www.w3.org/2000/09/xmldsig#enveloped-signature".
Definition ALG_SHA1 : string := "http://www.w3.org/2000/09/xmldsig#sha1".

(** [xml_input: Union[str, bytes]] *)
Inductive xml_input : Type :=
  | Str (s : string)
  | Bytes (b : bytes).

(** Step 2: [xml_input] if it is [bytes], [xml_input.encode("utf-8")]
    otherwise. *)
Definition input_bytes (x : xml_input) : bytes :=
  match x with
  | Bytes b => b
  | Str s => encode s
  end.

(** Step 1: [pfx_password.encode() if pfx_password else None]; [None] and
    the empty string are both false. *)
Definition password_bytes (pfx_password : option string) : option bytes :=
  match pfx_password with
  | Some s => if decide (s = EmptyString) then None else Some (encode s)
  | None => None
  end.

(** Step 3: [if not inf_id] holds for [None] and for the empty string. *)
Definition nonempty (v : option string) : option string :=
  match v with
  | Some s => if decide (s = EmptyString) then None else Some s
  | None => None
  end.

Definition msg_pfx_invalido : string :=
  "PFX inválido: sem chave privada ou certificado.".
Definition msg_nao_encontrado (tag_to_sign : string) : string :=
  "Elemento <" +:+ tag_to_sign +:+ "> não encontrado.".
Definition msg_id_ausente (tag_to_sign : string) : string :=
  "Atributo Id ausente em <" +:+ tag_to_sign +:+ ">.".

(** Step 5: the [SignedInfo] element, as the [SubElement] calls of lines
    113 to 142 leave it. *)
Definition SignedInfo (inf_id digest_b64 : string) : node :=
  new_element (clark NS_DS "SignedInfo") [] [] None
    [ new_element (clark NS_DS "CanonicalizationMethod")
        [("Algorithm", ALG_C14N)] [] None [];
      new_element (clark NS_DS "SignatureMethod")
        [("Algorithm", ALG_RSA_SHA1)] [] None [];
      new_element (clark NS_DS "Reference") [("URI", "#" +:+ inf_id)] [] None
        [ new_element (clark NS_DS "Transforms") [] [] None
            [ new_element (clark NS_DS "Transform")
                [("Algorithm", ALG_ENVELOPED)] [] None [];
              new_element (clark NS_DS "Transform")
                [("Algorithm", ALG_C14N)] [] None [] ];
          new_element (clark NS_DS "DigestMethod")
            [("Algorithm", ALG_SHA1)] [] None [];
          new_element (clark NS_DS "DigestValue") [] [] (Some digest_b64) [] ] ].

(** Steps 5 and 7: the [Signature] element when it is attached, with
    [nsmap = {None: NS_DS}] and the children [SignedInfo], [SignatureValue]
    and [KeyInfo] in the order they were appended. *)
Definition Signature (signed_info : node) (signature_b64 cert_b64 : string) : node :=
  new_element (clark NS_DS "Signature") [] [(None, NS_DS)] None
    [ signed_info;
      new_element (clark NS_DS "SignatureValue") [] [] (Some signature_b64) [];
      new_element (clark NS_DS "KeyInfo") [] [] None
        [ new_element (clark NS_DS "X509Data") [] [] None
            [ new_element (clark NS_DS "X509Certificate") [] []
                (Some cert_b64) [] ] ] ].

(** The tags the function is called with are XML names ([infDPS],
    [infPedReg]). For a name, the path [f"ns:{tag_to_sign}"] of line 74 is an
    ElementPath of one step, the qualified name [{NS_NFSE}tag_to_sign].
    ElementPath reads other texts in its own way ([*] is any name, [/]
    begins a further step, the empty text is no name at all), and [locate]
    below does not follow it there: what is stated of a call is stated for
    names. A name here is made of ASCII letters, digits, [_], [-] and [.],
    and begins with a letter or [_]. *)
Definition name_start (b : byte) : bool :=
  let n := Byte.to_N b in
  ((65 <=? n) && (n <=? 90) || (97 <=? n) && (n <=? 122) || (n =? 95))%N.

Definition name_char (b : byte) : bool :=
  let n := Byte.to_N b in
  name_start b || ((48 <=? n) && (n <=? 57) || (n =? 45) || (n =? 46))%N.

Definition xml_name (s : string) : bool :=
  match encode s with
  | [] => false
  | b :: r => name_start b && forallb name_char r
  end.

Section signer.
Context `{FileSystem} `{Cryptography} `{Etree} `{Hashlib}.

(** Step 1: key and certificate out of the PFX file. *)
Definition load_pfx (logger : bool) (pfx_path : string)
    (pfx_password : option string) : M (private_key * certificate) :=
  log_info logger ("[NFSe Nacional] Carregando certificado PFX: " +:+ pfx_path) ;;
  pfx_data ← call (open_rb pfx_path) ;
  loaded ← call (load_key_and_certificates pfx_data (password_bytes pfx_password)) ;
  match loaded with
  | (Some key, Some certificate, additional_certs) =>
      log_info logger "[NFSe Nacional] Certificado carregado com sucesso" ;;
      mret (key, certificate)
  | _ =>
      log_error logger ("[NFSe Nacional] " +:+ msg_pfx_invalido) ;;
      raise (ValueError msg_pfx_invalido)
  end.

(** Step 3: the signed element is looked up among the children of the
    root, and must carry a non-empty [Id]. This is [root.find] for a
    [tag_to_sign] that is a name, see [xml_name]. *)
Definition locate (logger : bool) (tag_to_sign : string) (root : node)
    : M (nat * node * string) :=
  log_info logger
    ("[NFSe Nacional] Localizando elemento para assinatura: " +:+ tag_to_sign) ;;
  match find (clark NS_NFSE tag_to_sign) root with
  | None =>
      log_error logger ("[NFSe Nacional] " +:+ msg_nao_encontrado tag_to_sign) ;;
      raise (ValueError (msg_nao_encontrado tag_to_sign))
  | Some (i, target_element) =>
      match nonempty (get target_element "Id") with
      | None =>
          log_error logger ("[NFSe Nacional] " +:+ msg_id_ausente tag_to_sign) ;;
          raise (ValueError (msg_id_ausente tag_to_sign))
      | Some inf_id => mret (i, target_element, inf_id)
      end
  end.

(** Step 4 for the target and step 6 for [SignedInfo]: the element is
    serialised, parsed again as a document of its own, and that document
    is canonicalised with [exclusive=False, with_comments=False]. *)
Definition canonical_bytes (inherited : list (option string * string))
    (element : node) : exn + bytes :=
  match fromstring (tostring false inherited element) with
  | inl e => inl e
  | inr standalone => tostring_c14n false false standalone
  end.

(** Steps 4 to 8, once the target is located: digest, [SignedInfo],
    signature value, assembly, and the root with [Signature] added after
    the target. *)
Definition sign_target (logger : bool) (key : private_key)
    (cert_b64 : string) (root : node) (i : nat) (target_element : node)
    (inf_id : string) : M node :=
  log_info logger ("[NFSe Nacional] Elemento encontrado com ID: " +:+ inf_id) ;;
  log_info logger "[NFSe Nacional] Canonicalizando e calculando digest" ;;
  target_c14n ← call (canonical_bytes (node_nsmap root) target_element) ;
  let digest := sha1 target_c14n in
  let digest_b64 := decode (b64encode digest) in
  log_info logger
    ("[NFSe Nacional] Digest calculado: " +:+ str_prefix 20 digest_b64 +:+ "...") ;;
  let signed_info := SignedInfo inf_id digest_b64 in
  log_info logger
    "[NFSe Nacional] Canonicalizando SignedInfo e gerando assinatura digital" ;;
  c14n_signed ← call (canonical_bytes [(None, NS_DS)] signed_info) ;
  signature_raw ← call (sign key c14n_signed PKCS1v15 SHA1) ;
  let signature_b64 := decode (b64encode signature_raw) in
  log_info logger
    ("[NFSe Nacional] Assinatura digital gerada: "
       +:+ str_prefix 20 signature_b64 +:+ "...") ;;
  log_info logger "[NFSe Nacional] Inserindo assinatura no XML" ;;
  mret (addnext root i (Signature signed_info signature_b64 cert_b64)).

(** Steps 1 to 8 of [assinar_xml]: the tree that step 9 serialises. *)
Definition assinar_xml_root (xml : xml_input) (pfx_path : string)
    (pfx_password : option string) (tag_to_sign : string) (logger : bool)
    : M node :=
  log_info logger
    ("[NFSe Nacional] Iniciando assinatura de XML - Tag: " +:+ tag_to_sign) ;;
  credential ← load_pfx logger pfx_path pfx_password ;
  let cert_b64 := decode (b64encode (public_bytes_DER credential.2)) in
  root ← call (fromstring (input_bytes xml)) ;
  located ← locate logger tag_to_sign root ;
  sign_target logger credential.1 cert_b64 root located.1.1 located.1.2 located.2.

(** [assinar_xml(xml_input, pfx_path, pfx_password, tag_to_sign, logger)] *)
Definition assinar_xml (xml : xml_input) (pfx_path : string)
    (pfx_password : option string) (tag_to_sign : string) (logger : bool)
    : M string :=
  root ← assinar_xml_root xml pfx_path pfx_password tag_to_sign logger ;
  let xml_signed := tostring true [] root in
  let xml_final := decode xml_signed in
  log_info logger
    ("[NFSe Nacional] XML assinado com sucesso (tamanho final: "
       +:+ pretty (len xml_final) +:+ " caracteres)") ;;
  mret xml_final.

End signer.

(** ** Reading a signature back *)

(** Reading back what was signed:
    [Signature.find("SignedInfo/Reference/DigestValue").text] and the like,
    one [find] per step so that each step takes the first child of that
    name. *)
Definition child (tag : string) (n : node) : option node :=
  snd <$> find tag n.

Definition DigestValue_text (signature : node) : option string :=
  signed_info ← child (clark NS_DS "SignedInfo") signature ;
  reference ← child (clark NS_DS "Reference") signed_info ;
  digest_value ← child (clark NS_DS "DigestValue") reference ;
  node_text digest_value.

Definition SignatureValue_text (signature : node) : option string :=
  signature_value ← child (clark NS_DS "SignatureValue") signature ;
  node_text signature_value.

(** [element.iterdescendants()]: every node below [n], in document order. *)
Fixpoint descendants (n : node) : list node :=
  match n with
  | Element _ _ _ _ children _ =>
      (fix below (l : list node) : list node :=
         match l with
         | [] => []
         | c :: l' => c :: descendants c ++ below l'
         end) children
  | _ => []
  end.

(** ** More of the signature, read back *)

Definition X509Certificate_text (signature : node) : option string :=
  key_info ← child (clark NS_DS "KeyInfo") signature ;
  x509_data ← child (clark NS_DS "X509Data") key_info ;
  x509_certificate ← child (clark NS_DS "X509Certificate") x509_data ;
  node_text x509_certificate.

(** The tag and the [Algorithm] attribute of every child, in order. *)
Definition algorithms (n : node) : list (option string * option string) :=
  (λ c, (node_tag c, get c "Algorithm")) <$> node_children n.

(** A text of base64 symbols, in groups of four. *)
Definition b64_symbol (b : byte) : Prop := b ∈ b64_alphabet ∨ b = b64_pad.

Definition base64_text (t : string) : Prop :=
  Forall b64_symbol (encode t) ∧ length (encode t) `mod` 4 = 0.

(** The characters XML gives a meaning to in text: [<], [>], [&] and the
    two quotes. *)
Definition xml_markup (b : byte) : bool :=
  bool_decide (Byte.to_N b ∈ [60; 62; 38; 34; 39]%N).

(** The log of a call that succeeds with a logger. *)
Definition success_log (pfx_path tag_to_sign inf_id digest_b64 signature_b64
    xml_final : string) : list log_record :=
  [ (INFO, "[NFSe Nacional] Iniciando assinatura de XML - Tag: " +:+ tag_to_sign);
    (INFO, "[NFSe Nacional] Carregando certificado PFX: " +:+ pfx_path);
    (INFO, "[NFSe Nacional] Certificado carregado com sucesso");
    (INFO, "[NFSe Nacional] Localizando elemento para assinatura: " +:+ tag_to_sign);
    (INFO, "[NFSe Nacional] Elemento encontrado com ID: " +:+ inf_id);
    (INFO, "[NFSe Nacional] Canonicalizando e calculando digest");
    (INFO, "[NFSe Nacional] Digest calculado: "
             +:+ str_prefix 20 digest_b64 +:+ "...");
    (INFO, "[NFSe Nacional] Canonicalizando SignedInfo e gerando assinatura digital");
    (INFO, "[NFSe Nacional] Assinatura digital gerada: "
             +:+ str_prefix 20 signature_b64 +:+ "...");
    (INFO, "[NFSe Nacional] Inserindo assinatura no XML");
    (INFO, "[NFSe Nacional] XML assinado com sucesso (tamanho final: "
             +:+ pretty (len xml_final) +:+ " caracteres)") ].

(** ** [utils.py] *)

(** Where the code looks at the characters of a [str], the [str] is the
    list of its code points. [\d] of [re] and [str.strip] follow the Unicode
    database: [isdecimal c] tells whether [c] is a decimal digit (category
    Nd), [isspace c] whether it is white space; what the database says of
    the ASCII characters, and that no digit is white space, is all that the
    proofs below use. *)
Abbreviation codepoints := (list N).

Class Unicode : Type := {
  isdecimal : N → bool;
  isspace : N → bool;
  isdecimal_ascii c :
    (c < 128)%N → isdecimal c = bool_decide (48 ≤ c ≤ 57)%N;
  isspace_ascii c :
    (c < 128)%N →
    isspace c = bool_decide (c ∈ [9; 10; 11; 12; 13; 28; 29; 30; 31; 32]%N);
  isdecimal_not_space c : isdecimal c = true → isspace c = false
}.

(** A literal of ASCII characters. *)
Definition ascii_text (s : string) : codepoints := Byte.to_N <$> encode s.

Definition is_prefix (p s : codepoints) : bool := bool_decide (take (length p) s = p).

(** [sep in s] *)
Fixpoint contains (sep s : codepoints) : bool :=
  is_prefix sep s ||
  match s with
  | [] => false
  | _ :: r => contains sep r
  end.

(** [s.split(sep, 1)[0]]: what comes before the first [sep], all of [s]
    when there is none. *)
Fixpoint before (sep s : codepoints) : codepoints :=
  if is_prefix sep s then []
  else match s with
       | [] => []
       | c :: r => c :: before sep r
       end.

(** [s.zfill(width)]: zeros on the left, after a leading sign. *)
Definition zfill (width : nat) (s : codepoints) : codepoints :=
  if decide (width ≤ length s) then s
  else
    let zeros := replicate (width - length s) 48%N in
    match s with
    | c :: r => if decide (c = 43 ∨ c = 45)%N then c :: zeros ++ r else zeros ++ s
    | [] => zeros
    end.

Section utils.
Context `{Unicode}.

(** [s.strip()] *)
Fixpoint lstrip (s : codepoints) : codepoints :=
  match s with
  | c :: r => if isspace c then lstrip r else s
  | [] => []
  end.

Definition strip (s : codepoints) : codepoints :=
  reverse (lstrip (reverse (lstrip s))).

(** [re.sub(r"\D", "", s)] *)
Definition only_digits (s : codepoints) : codepoints := filter (λ c, isdecimal c = true) s.

(** [sanitize_document(value)]:
    [re.sub(r"\D", "", value) if value else value] *)
Definition sanitize_document (value : option codepoints) : option codepoints :=
  match value with
  | Some s => if decide (s = []) then value else Some (only_digits s)
  | None => value
  end.

(** The pattern [^(\d{1,2})\.(\d{1,2})(?:\.(\d{1,2}))?$] of
    [ctn_to_6digits], piece by piece. Each piece lists the ways it can
    match at the start of the text, in the order the matcher tries them,
    with the text left over. [\d{1,2}] is greedy: two digits before one. *)
Definition digits_1_2 (s : codepoints) : list (codepoints * codepoints) :=
  match s with
  | c1 :: c2 :: r =>
      if isdecimal c1
      then (if isdecimal c2 then [([c1; c2], r)] else []) ++ [([c1], c2 :: r)]
      else []
  | [c1] => if isdecimal c1 then [([c1], [])] else []
  | [] => []
  end.

(** [\.] *)
Definition dot (s : codepoints) : list codepoints :=
  match s with
  | c :: r => if decide (c = 46%N) then [r] else []
  | [] => []
  end.

(** [$]: the end of the text, or a line feed that ends it. *)
Definition at_end (s : codepoints) : bool := bool_decide (s = [] ∨ s = [10%N]).

(** [re.match(pattern, s)]: the groups of the first way to match. *)
Definition match_ctn (s : codepoints) : option (codepoints * codepoints * option codepoints) :=
  head
    (p1 ← digits_1_2 s ;
     s2 ← dot p1.2 ;
     p2 ← digits_1_2 s2 ;
     (s4 ← dot p2.2 ;
      p3 ← digits_1_2 s4 ;
      if at_end p3.2 then [(p1.1, p2.1, Some p3.1)] else [])
     ++ (if at_end p2.2 then [(p1.1, p2.1, None)] else [])).

(** [ctn_to_6digits(cod)] *)
Definition ctn_to_6digits (cod : option codepoints) : option codepoints :=
  match cod with
  | None => None
  | Some cod =>
      if decide (cod = []) then None
      else
        let s := strip cod in
        let s :=
          if contains (ascii_text " - ") s
          then strip (before (ascii_text " - ") s)
          else s in
        match match_ctn s with
        | Some (a, b, Some (c1 :: c)) =>
            Some (zfill 2 a ++ zfill 2 b ++ zfill 2 (c1 :: c))
        | Some (a, b, _) => Some (zfill 2 a ++ zfill 2 b ++ ascii_text "01")
        | None =>
            let digits := only_digits s in
            let digits :=
              if decide (length digits = 4) then digits ++ ascii_text "01"
              else if decide (length digits = 5) then ascii_text "0" ++ digits
              else digits in
            if decide (length digits = 6) then Some digits else None
        end
  end.

(** A decimal digit; one or two digits, which is what a group of the
    pattern holds; a digit or a dot. *)
Definition digit (c : N) : Prop := isdecimal c = true.

Definition group (g : codepoints) : Prop :=
  (length g = 1 ∨ length g = 2) ∧ Forall digit g.

Definition code_char (c : N) : Prop := digit c ∨ c = 46%N.

(** What [ctn_to_6digits] makes of a text without a dotted form, from its
    digits. *)
Definition pad_digits (digits : codepoints) : option codepoints :=
  if decide (length digits = 4) then Some (digits ++ ascii_text "01")
  else if decide (length digits = 5) then Some (ascii_text "0" ++ digits)
  else if decide (length digits = 6) then Some digits
  else None.

End utils.

(** [gzip.compress(data)] writes the time of the call into the header of
    what it returns: [compress now data]. *)
Class Gzip : Type := {
  compress : N → bytes → bytes
}.

(** [gerar_dpsXmlGZipB64(xml_string)], called at time [now]. *)
Definition gerar_dpsXmlGZipB64 `{Gzip} (now : N) (xml_string : string) : string :=
  let xml_bytes := encode xml_string in
  let compressed_data := compress now xml_bytes in
  decode (b64encode compressed_data).

(** ** The portal and the clock: what [transmitter.py] and [client.py] talk to *)

(** The values of JSON as Python holds them, which is what [resp.json()]
    returns. A [float] is known by what the code can see of it: whether it
    is zero, and its [repr]. A [dict] lists its items; a lookup takes the
    first item of the key. *)
Inductive value : Type :=
  | VNone
  | VBool (b : bool)
  | VInt (z : Z)
  | VFloat (nonzero : bool) (repr : string)
  | VStr (s : string)
  | VList (l : list value)
  | VDict (items : list (string * value)).

(** The exceptions of this layer: those of the signer and of [lxml], and
    any other one (of [requests], of [json], of the interpreter), known by
    the name of its class and by [str(e)]. *)
Inductive exception : Type :=
  | Raised (e : exn)
  | Foreign (name : string) (message : string).

(** [repr(s)] of a [str], which Python writes into the message of an
    [OSError]. *)
Class Python : Type := {
  repr_str : string → string
}.

(** [str(e)] *)
Definition str_exn `{Python} (e : exn) : string :=
  match e with
  | FileNotFoundError filename =>
      "[Errno 2] No such file or directory: " +:+ repr_str filename
  | ValueError msg | TypeError msg | XMLSyntaxError msg | C14NError msg => msg
  end.

Definition str_exception `{Python} (e : exception) : string :=
  match e with
  | Raised e => str_exn e
  | Foreign _ message => message
  end.

Inductive http_method : Type := GET | POST.

(** A call of [requests_pkcs12.get] or [requests_pkcs12.post], with the
    keyword arguments the code passes. *)
Record request : Type := Request {
  method : http_method;
  url : string;
  json : option (list (string * string));
  headers : list (string * string);
  pkcs12_filename : string;
  pkcs12_password : string;
  timeout : N;
  verify : bool
}.

(** The [Response]: [resp.status_code], [resp.headers.get("Content-Type")],
    [resp.content], [resp.text] and the outcome of [resp.json()]. *)
Record response : Type := Response {
  status_code : Z;
  content_type : option string;
  content : bytes;
  text : string;
  json_result : exception + value
}.

(** What a run does that can be seen from outside it, in the order it
    happens: a record is logged, a request is sent, the process sleeps. *)
Inductive event : Type :=
  | Logged (r : log_record)
  | Sent (r : request)
  | Slept (seconds : N).

Definition is_logged (e : event) : bool :=
  match e with
  | Logged _ => true
  | _ => false
  end.

(** The part of a history that the outside world takes part in. *)
Definition outside (h : list event) : list event :=
  filter (λ e, is_logged e = false) h.

(** The requests of a history, in order. *)
Definition requests (h : list event) : list request :=
  omap (λ e, match e with Sent r => Some r | _ => None end) h.

(** The seconds slept, in order. *)
Definition sleeps (h : list event) : list N :=
  omap (λ e, match e with Slept s => Some s | _ => None end) h.

(** The records logged, in order. *)
Definition logged (h : list event) : list log_record :=
  omap (λ e, match e with Logged r => Some r | _ => None end) h.

(** The world outside the process: how the portal answers a request, and
    what the clock shows, after the requests and the sleeps so far; which
    paths exist ([os.path.exists]). An answer is a [Response] or an
    exception of [requests]. *)
Class World : Type := {
  respond : list event → request → exception + response;
  time : list event → N;
  os_path_exists : string → bool
}.

(** [lxml] accepts as [element.text] only a string without NUL and without
    control characters, and raises [ValueError] for any other. *)
Class EtreeStrings : Type := {
  xml_compatible : string → bool
}.

Definition msg_xml_compatible : string :=
  "All strings must be XML compatible: Unicode or ASCII, no NULL bytes or control characters".

(** A run that starts after the history [h]: the events it adds, and the
    exception raised or the value returned. *)
Record ran (A : Type) : Type := Ran {
  events : list event;
  returned : exception + A
}.
Arguments Ran {A} _ _.
Arguments events {A} _.
Arguments returned {A} _.

Definition IO (A : Type) : Type := list event → ran A.

Definition IO_bind {A B : Type} (f : A → IO B) (m : IO A) : IO B := λ h,
  let r := m h in
  match returned r with
  | inl e => Ran (events r) (inl e)
  | inr a =>
      let r' := f a (h ++ events r) in
      Ran (events r ++ events r') (returned r')
  end.

#[global] Instance IO_ret : MRet IO := λ A a h, Ran [] (inr a).
#[global] Instance IO_mbind : MBind IO := λ A B f m, IO_bind f m.

Definition io_raise {A : Type} (e : exception) : IO A := λ h, Ran [] (inl e).

(** A call of the signer, or of a library through the signer's monad. *)
Definition lift {A : Type} (m : M A) : IO A := λ h,
  Ran (Logged <$> trace m)
    (match outcome m with
     | inl e => inl (Raised e)
     | inr a => inr a
     end).

Definition io_info (logger : bool) (msg : string) : IO unit :=
  lift (log_info logger msg).
Definition io_error (logger : bool) (msg : string) : IO unit :=
  lift (log_error logger msg).

(** [try: body  except Exception as e: handler(e)] *)
Definition try_except {A : Type} (body : IO A) (handler : exception → IO A)
    : IO A := λ h,
  let r := body h in
  match returned r with
  | inl e =>
      let r' := handler e (h ++ events r) in
      Ran (events r ++ events r') (returned r')
  | inr a => r
  end.

Definition send `{World} (r : request) : IO response := λ h,
  Ran [Sent r] (respond (outside h) r).

(** [time.sleep(seconds)] *)
Definition sleep (seconds : N) : IO unit := λ h, Ran [Slept seconds] (inr tt).

(** The clock, as [gzip.compress] reads it. *)
Definition now `{World} : IO N := λ h, Ran [] (inr (time (outside h))).

(** [s[:n]] on any [str]: the first [n] code points. *)
Fixpoint take_chars (n : nat) (b : bytes) : bytes :=
  match b with
  | [] => []
  | x :: r =>
      if is_continuation x then x :: take_chars n r
      else match n with
           | 0 => []
           | S n' => x :: take_chars n' r
           end
  end.

Definition str_take (n : nat) (s : string) : string :=
  decode (take_chars n (encode s)).

(** [element.text = s] *)
Definition set_text `{EtreeStrings} (s : string) : IO string :=
  if xml_compatible s then mret s
  else io_raise (Raised (ValueError msg_xml_compatible)).

(** ** [transmitter.py] *)

Definition URL_PRODUCAO : string := "https://sefin.nfse.gov.br/SefinNacional/nfse".
Definition URL_DANFSE : string := "https://adn.nfse.gov.br/danfse".

Definition json_headers : list (string * string) :=
  [("Content-Type", "application/json"); ("Accept", "application/json")].

Section transmitter.
Context `{World} `{Python}.

(** [pkcs12_get(url, pkcs12_filename=.., pkcs12_password=.., timeout=30,
    verify=True)] and [pkcs12_post(url, json=.., headers=.., ..)] *)
Definition pkcs12_get (url pfx_path pfx_password : string) : IO response :=
  send (Request GET url None [] pfx_path pfx_password 30 true).

Definition pkcs12_post (url : string) (payload : list (string * string))
    (pfx_path pfx_password : string) : IO response :=
  send (Request POST url (Some payload) json_headers pfx_path pfx_password 30 true).

(** [baixar_danfse_pdf(chave_acesso, pfx_path, pfx_password, logger)] *)
Definition baixar_danfse_pdf (chave_acesso pfx_path pfx_password : string)
    (logger : bool) : IO (option string) :=
  let url := URL_DANFSE +:+ "/" +:+ chave_acesso in
  io_info logger ("[NFSe Nacional] Baixando DANFSe - URL: " +:+ url) ;;
  try_except
    (resp ← pkcs12_get url pfx_path pfx_password ;
     io_info logger
       ("[NFSe Nacional] Resposta do download do DANFSe - Status HTTP: "
          +:+ pretty (status_code resp)) ;;
     if bool_decide (status_code resp = 200%Z)
        && String.prefix "application/pdf" (default EmptyString (content_type resp))
     then
       let pdf_b64 := decode (b64encode (content resp)) in
       io_info logger
         ("[NFSe Nacional] DANFSe baixado com sucesso (tamanho base64: "
            +:+ pretty (len pdf_b64) +:+ " caracteres)") ;;
       mret (Some pdf_b64)
     else
       io_error logger
         ("[NFSe Nacional] DANFSe não disponível - Status: "
            +:+ pretty (status_code resp) +:+ ", Content-Type: "
            +:+ default "N/A" (content_type resp)) ;;
       mret None)
    (λ e,
       io_error logger
         ("[NFSe Nacional] Erro ao baixar DANFSe: " +:+ str_exception e) ;;
       mret None).

(** [enviar_cancelamento_pkcs12(chave_acesso, evento_b64_gzip, pfx_path,
    pfx_password, logger)]. The handler [except RequestException as e:
    raise e] raises what it caught, and an exception of another class
    leaves the function as it is: either way the exception of the request
    is the exception of the call. *)
Definition enviar_cancelamento_pkcs12
    (chave_acesso evento_b64_gzip pfx_path pfx_password : string)
    (logger : bool) : IO response :=
  let url := URL_PRODUCAO +:+ "/" +:+ chave_acesso +:+ "/eventos" in
  io_info logger ("[NFSe Nacional] Enviando cancelamento - URL: " +:+ url) ;;
  io_info logger
    ("[NFSe Nacional] Tamanho do payload (evento_b64_gzip): "
       +:+ pretty (len evento_b64_gzip) +:+ " caracteres") ;;
  let payload := [("pedidoRegistroEventoXmlGZipB64", evento_b64_gzip)] in
  try_except
    (resp ← pkcs12_post url payload pfx_path pfx_password ;
     io_info logger
       ("[NFSe Nacional] Resposta do cancelamento recebida - Status HTTP: "
          +:+ pretty (status_code resp)) ;;
     (if bool_decide (text resp = EmptyString) then mret tt
      else
        io_info logger
          ("[NFSe Nacional] Resposta do cancelamento (primeiros 500 chars): "
             +:+ str_take 500 (text resp))) ;;
     mret resp)
    (λ e, io_raise e).

End transmitter.

(** ** [client.py]: cancelling *)

(** An entry of [cancel_batch]: the dictionary with the keys [xml],
    [nf_fields] and [chave_acesso] that [add_to_cancel] appends. *)
Record cancel_item : Type := CancelItem {
  cancel_xml : string;
  cancel_nf_fields : list (string * string);
  cancel_chave_acesso : string
}.

(** An entry of [rps_batch]: of the dictionary with the keys [xml],
    [rps_fields] and [dados] that [add_rps] appends, [send_batch] reads
    [xml] only. *)
Record rps_item : Type := RpsItem {
  rps_xml : string
}.

(** The object: [self.pfx_file], [self.pfx_passwd] (either may be [None]),
    [self.target], the two batches and whether there is a logger. *)
Record NFSeThema : Type := {
  pfx_file : option string;
  pfx_passwd : option string;
  target : string;
  rps_batch : list rps_item;
  cancel_batch : list cancel_item;
  logger : bool
}.

Definition msg_sem_certificado : string :=
  "Certificado PFX não encontrado ou não especificado".
Definition msg_sem_senha : string :=
  "Senha do certificado não especificada".
Definition msg_lote_vazio : string := "Nenhum cancelamento no lote".

(** [<CancelarNfseResposta><Cancelamento><Confirmacao/></Cancelamento>
    <ListaMensagemRetorno/></CancelarNfseResposta>] *)
Definition CancelarNfseResposta_confirmacao : node :=
  new_element "CancelarNfseResposta" [] [] None
    [ new_element "Cancelamento" [] [] None
        [ new_element "Confirmacao" [] [] None [] ];
      new_element "ListaMensagemRetorno" [] [] None [] ].

(** [<CancelarNfseResposta><ListaMensagemRetorno><MensagemRetorno>
    <Codigo>ERRO</Codigo><Mensagem>..</Mensagem></MensagemRetorno>
    </ListaMensagemRetorno></CancelarNfseResposta>] *)
Definition CancelarNfseResposta_erro (mensagem : string) : node :=
  new_element "CancelarNfseResposta" [] [] None
    [ new_element "ListaMensagemRetorno" [] [] None
        [ new_element "MensagemRetorno" [] [] None
            [ new_element "Codigo" [] [] (Some "ERRO") [];
              new_element "Mensagem" [] [] (Some mensagem) [] ] ] ].

Section client.
Context `{FileSystem} `{Cryptography} `{Etree} `{Hashlib}.
Context `{Gzip} `{World} `{Python} `{EtreeStrings}.

(** [ET.tostring(root, encoding='utf-8', xml_declaration=True).decode('utf-8')] *)
Definition dump (root : node) : string := decode (tostring true [] root).

(** The two checks that open [cancel] and [send_batch]: the path is given
    and exists, the password is given. They return the path and the
    password. *)
Definition check_certificate (self : NFSeThema) : IO (string * string) :=
  match nonempty (pfx_file self) with
  | None => io_raise (Raised (ValueError msg_sem_certificado))
  | Some pfx_path =>
      if os_path_exists pfx_path then
        match nonempty (pfx_passwd self) with
        | None => io_raise (Raised (ValueError msg_sem_senha))
        | Some pfx_password => mret (pfx_path, pfx_password)
        end
      else io_raise (Raised (ValueError msg_sem_certificado))
  end.

(** The [try] block of the loop of [cancel] for one [item]: sign, compress,
    send, and file the answer under [results] or [errors], the two lists as
    they are when the turn begins. *)
Definition cancel_item_try (pfx_path pfx_password : string) (logger : bool)
    (item : cancel_item)
    (lists : list (list (string * string)) * list (list (string * string)))
    : IO (list (list (string * string)) * list (list (string * string))) :=
  let results := lists.1 in
  let errors := lists.2 in
  io_info logger "[NFSe Nacional] Assinando XML de cancelamento" ;;
  xml_signed ←
    lift (assinar_xml (Str (cancel_xml item)) pfx_path (Some pfx_password)
            "infPedReg" logger) ;
  io_info logger
    ("[NFSe Nacional] XML de cancelamento assinado (tamanho: "
       +:+ pretty (len xml_signed) +:+ " caracteres)") ;;
  io_info logger
    "[NFSe Nacional] Compactando e codificando evento de cancelamento em base64" ;;
  instant ← now ;
  let evento_b64 := gerar_dpsXmlGZipB64 instant xml_signed in
  io_info logger "[NFSe Nacional] Enviando cancelamento para Portal Nacional" ;;
  response ←
    enviar_cancelamento_pkcs12 (cancel_chave_acesso item) evento_b64
      pfx_path pfx_password logger ;
  io_info logger
    ("[NFSe Nacional] Resposta do cancelamento recebida - Status HTTP: "
       +:+ pretty (status_code response)) ;;
  if bool_decide (status_code response = 200%Z ∨ status_code response = 201%Z)
  then
    try_except
      (mret
         (results ++ [[("ws.response", dump CancelarNfseResposta_confirmacao)]],
          errors))
      (λ e,
         mret
           (results ++ [[("ws.response", dump CancelarNfseResposta_confirmacao)]],
            errors))
  else
    mensagem ←
      set_text (if bool_decide (text response = EmptyString)
                then "Erro ao cancelar NFSe" else text response) ;
    mret (results, errors ++ [[("error", dump (CancelarNfseResposta_erro mensagem))]]).

(** One turn of the loop of [cancel]. Each path through the [try] block
    ends with the one [append] it makes, so the handler finds the lists as
    they were when the turn began. *)
Definition cancel_item_step (pfx_path pfx_password : string) (logger : bool)
    (item : cancel_item)
    (lists : list (list (string * string)) * list (list (string * string)))
    : IO (list (list (string * string)) * list (list (string * string))) :=
  io_info logger
    ("[NFSe Nacional] Processando cancelamento - Chave de acesso: "
       +:+ cancel_chave_acesso item) ;;
  try_except
    (cancel_item_try pfx_path pfx_password logger item lists)
    (λ e, mret (lists.1, lists.2 ++ [[("error", str_exception e)]])).

(** [for item in self.cancel_batch: ..] *)
Fixpoint cancel_loop (pfx_path pfx_password : string) (logger : bool)
    (batch : list cancel_item)
    (lists : list (list (string * string)) * list (list (string * string)))
    : IO (list (list (string * string)) * list (list (string * string))) :=
  match batch with
  | [] => mret lists
  | item :: batch' =>
      lists' ← cancel_item_step pfx_path pfx_password logger item lists ;
      cancel_loop pfx_path pfx_password logger batch' lists'
  end.

(** [self.cancel(strict, raw_response)]; the two arguments are not used. *)
Definition cancel (self : NFSeThema)
    : IO (list (list (string * string)) * list (list (string * string))) :=
  credential ← check_certificate self ;
  match cancel_batch self with
  | [] =>
      io_error (logger self) ("[NFSe Nacional] " +:+ msg_lote_vazio) ;;
      mret ([], [[("error", msg_lote_vazio)]])
  | _ =>
      io_info (logger self)
        ("[NFSe Nacional] Processando "
           +:+ pretty (length (cancel_batch self)) +:+ " cancelamento(s)") ;;
      cancel_loop credential.1 credential.2 (logger self) (cancel_batch self)
        ([], [])
  end.

End client.

(** ** What a run may return, must return and may send *)

(** The run [r] after the events [evs]. *)
Definition prepend {A : Type} (evs : list event) (r : ran A) : ran A :=
  Ran (evs ++ events r) (returned r).

(** What [try_except] makes of the run [r] of its body. *)
Definition catch {A : Type} (handler : exception → IO A) (h : list event)
    (r : ran A) : ran A :=
  match returned r with
  | inl e => prepend (events r) (handler e (h ++ events r))
  | inr _ => r
  end.

(** Whatever [m] returns satisfies [Q]; [m] returns, and returns something
    that satisfies [Q]: after every history. *)
Definition may_return {A : Type} (m : IO A) (Q : A → Prop) : Prop :=
  ∀ h a, returned (m h) = inr a → Q a.

Definition returns {A : Type} (m : IO A) (Q : A → Prop) : Prop :=
  ∀ h, ∃ a, returned (m h) = inr a ∧ Q a.

(** The method and the address of a request. *)
Definition target_of (r : request) : http_method * string := (method r, url r).

(** The requests of [m] go to addresses of [l], in the order of [l], at
    most one to each. *)
Definition sends_within {A : Type} (l : list (http_method * string)) (m : IO A)
    : Prop :=
  ∀ h, target_of <$> requests (events (m h)) `sublist_of` l.

(** [m] never sleeps for anything but the seconds of [l], in that order. *)
Definition sleeps_within {A : Type} (l : list N) (m : IO A) : Prop :=
  ∀ h, sleeps (events (m h)) `sublist_of` l.

(** [m], run after the history [h], adds outside events and ends in a
    way that [Q] relates. *)
Definition wp {A : Type} (m : IO A) (h : list event)
    (Q : list event → exception + A → Prop) : Prop :=
  Q (outside (events (m h))) (returned (m h)).

(** ** The values of a JSON answer, as the code looks at them *)

(** [bool(v)]: what [if v], [v or ..] and [.. and v] test. *)
Definition truthy (v : value) : bool :=
  match v with
  | VNone => false
  | VBool b => b
  | VInt z => negb (Z.eqb z 0)
  | VFloat nonzero _ => nonzero
  | VStr s => negb (String.eqb s EmptyString)
  | VList l => match l with [] => false | _ => true end
  | VDict items => match items with [] => false | _ => true end
  end.

(** [a or b] *)
Definition value_or (a b : value) : value := if truthy a then a else b.

(** [d.get(key, default)] *)
Definition dict_get (d : list (string * value)) (key : string)
    (default : value) : value :=
  match List.find (λ item, String.eqb item.1 key) d with
  | Some item => item.2
  | None => default
  end.

(** The keys of a [dict], in the order of insertion. *)
Fixpoint dict_keys (d : list (string * value)) : list string :=
  match d with
  | [] => []
  | item :: d' => item.1 :: filter (λ k, k ≠ item.1) (dict_keys d')
  end.

(** The characters of a [str], each a [str] of its own: a byte that is
    not a continuation byte begins a character. *)
Fixpoint chars (b : bytes) : list bytes :=
  match b with
  | [] => []
  | x :: r =>
      match chars r with
      | (y :: c) :: cs =>
          if is_continuation y then (x :: y :: c) :: cs else [x] :: (y :: c) :: cs
      | cs => [x] :: cs
      end
  end.

Definition type_name (v : value) : string :=
  match v with
  | VNone => "NoneType"
  | VBool _ => "bool"
  | VInt _ => "int"
  | VFloat _ _ => "float"
  | VStr _ => "str"
  | VList _ => "list"
  | VDict _ => "dict"
  end.

(** [for x in v]: the elements of a [list], the characters of a [str], the
    keys of a [dict]; nothing else among these values can be iterated. *)
Definition iterate (v : value) : exception + list value :=
  match v with
  | VList l => inr l
  | VStr s => inr ((λ c, VStr (decode c)) <$> chars (encode s))
  | VDict items => inr (VStr <$> dict_keys items)
  | _ => inl (Raised (TypeError ("'" +:+ type_name v +:+ "' object is not iterable")))
  end.

Definition join (sep : string) (l : list string) : string :=
  match l with
  | [] => EmptyString
  | s :: l' => foldl (λ acc t, acc +:+ sep +:+ t) s l'
  end.

(** [repr(v)] and [str(v)], which is what [f"{v}"] and ['%s' % v] write. *)
Fixpoint repr_value `{Python} (v : value) : string :=
  match v with
  | VNone => "None"
  | VBool b => if b then "True" else "False"
  | VInt z => pretty z
  | VFloat _ repr => repr
  | VStr s => repr_str s
  | VList l =>
      "[" +:+ join ", "
                ((fix all (l : list value) : list string :=
                    match l with
                    | [] => []
                    | x :: l' => repr_value x :: all l'
                    end) l) +:+ "]"
  | VDict items =>
      "{" +:+ join ", "
                ((fix all (l : list (string * value)) : list string :=
                    match l with
                    | [] => []
                    | item :: l' =>
                        (repr_str item.1 +:+ ": " +:+ repr_value item.2) :: all l'
                    end) items) +:+ "}"
  end.

Definition str_value `{Python} (v : value) : string :=
  match v with
  | VStr s => s
  | _ => repr_value v
  end.

(** [base64.b64decode], [gzip.decompress] and
    [bytes.decode("utf-8", errors="replace")]. The first two raise on what
    they cannot decode, the first also on what is not a [str]. *)
Class Decoders : Type := {
  b64decode : value → exception + bytes;
  decompress : bytes → exception + bytes;
  decode_replace : bytes → string
}.

(** [s.strip()] of a [str] held as its encoding. *)
Class Strings : Type := {
  str_strip : string → string
}.

(** A library call that may raise, in this layer. *)
Definition io_call {A : Type} (r : exception + A) : IO A := λ h, Ran [] r.

(** [root.find(".//ns:name", {"ns": uri})]: the first element below [root],
    in document order, whose tag is [{uri}name], with the namespace
    declarations in scope at its parent. *)
Fixpoint find_below (inherited : list (option string * string)) (tag : string)
    (n : node) : option (list (option string * string) * node) :=
  match n with
  | Element _ _ nsmap _ children _ =>
      (fix first (l : list node) : option (list (option string * string) * node) :=
         match l with
         | [] => None
         | c :: l' =>
             if decide (node_tag c = Some tag) then Some (inherited ++ nsmap, c)
             else
               match find_below (inherited ++ nsmap) tag c with
               | Some found => Some found
               | None => first l'
               end
         end) children
  | _ => None
  end.

(** The same with the prefix map the code builds: [{"ns": uri}] when the
    root declares a default namespace, [{}] otherwise, and then the prefix
    [ns] is unknown to [lxml], which raises [SyntaxError]. *)
Definition find_ns (root : node) (name : string)
    : exception + option (list (option string * string) * node) :=
  match List.find (λ d, bool_decide (d.1 = None)) (node_nsmap root) with
  | Some d => inr (find_below [] (clark d.2 name) root)
  | None => inl (Foreign "SyntaxError" "prefix 'ns' not found in prefix map")
  end.

(** ** [transmitter.py]: [enviar_nfse_pkcs12] *)

(** The dictionary that [enviar_nfse_pkcs12] returns. The keys [erros] and
    [mensagem_erro] are absent from one of its three forms: [None] is the
    absent key. *)
Record envio : Type := Envio {
  status : Z;
  body : string;
  xml_nfse : option string;
  pdf_base64 : option string;
  id_dps : value;
  chave_acesso : value;
  erros : option value;
  mensagem_erro : option (option string)
}.

Section enviar_nfse.
Context `{World} `{Python} `{Etree} `{Decoders} `{Strings}.

(** What one entry of [erros] adds to [mensagens], if anything. *)
Definition mensagem_de (erro : value) : option string :=
  match erro with
  | VDict items =>
      let codigo := dict_get items "Codigo" (dict_get items "codigo" (VStr EmptyString)) in
      let descricao :=
        dict_get items "Descricao" (dict_get items "descricao" (VStr EmptyString)) in
      let complemento :=
        dict_get items "Complemento" (dict_get items "complemento" (VStr EmptyString)) in
      if truthy codigo && truthy descricao then
        let msg := str_value codigo +:+ ": " +:+ str_value descricao in
        Some (if truthy complemento
              then msg +:+ " - " +:+ str_value complemento else msg)
      else None
  | VStr s => Some s
  | _ => None
  end.

(** Lines 126 to 143: [mensagem_erro] out of [erros], which is [None]
    when nothing is gathered. Iterating over [erros] may raise. *)
Definition mensagem_erro_de (erros : value) : exception + option string :=
  if truthy erros then
    match iterate erros with
    | inl e => inl e
    | inr entries =>
        inr match omap mensagem_de entries with
            | [] => None
            | mensagens => Some (join " | " mensagens)
            end
    end
  else inr None.

(** Line 157:
    [gzip.decompress(base64.b64decode(gz_b64)).decode("utf-8", errors="replace")] *)
Definition descompactar (gz_b64 : value) : exception + string :=
  match b64decode gz_b64 with
  | inl e => inl e
  | inr decoded =>
      match decompress decoded with
      | inl e => inl e
      | inr decompressed => inr (decode_replace decompressed)
      end
  end.

(** Lines 154 to 162: [xml_nfse] out of the answer; an exception leaves
    it [None]. *)
Definition xml_nfse_de (data : list (string * value)) : option string :=
  let gz_b64 :=
    value_or (dict_get data "nfseXmlGZipB64" VNone)
      (dict_get data "nfseXmlGzipB64" VNone) in
  if truthy gz_b64 then
    match descompactar gz_b64 with
    | inl e => None
    | inr xml_nfse => Some xml_nfse
    end
  else None.

(** What [baixar_danfse_pdf] makes of the answer to its request. *)
Definition danfse_de (answer : exception + response) : option string :=
  match answer with
  | inl e => None
  | inr resp =>
      if bool_decide (status_code resp = 200%Z)
         && String.prefix "application/pdf" (default EmptyString (content_type resp))
      then Some (decode (b64encode (content resp)))
      else None
  end.

(** [for i in range(max_retries): ..] of the JSON branch, from the turn
    [i] on; [pdf_base64] is the variable as the turn finds it. *)
Fixpoint tentativas (turns : list nat) (max_retries : nat)
    (chave_acesso pfx_path pfx_password : string) (logger : bool)
    (pdf_base64 : option string) : IO (option string) :=
  match turns with
  | [] => mret pdf_base64
  | i :: turns' =>
      io_info logger
        ("[NFSe Nacional] Tentativa " +:+ pretty (i + 1) +:+ "/"
           +:+ pretty max_retries +:+ " de baixar DANFSe") ;;
      pdf_base64 ← baixar_danfse_pdf chave_acesso pfx_path pfx_password logger ;
      if bool_decide (nonempty pdf_base64 ≠ None) then
        io_info logger
          ("[NFSe Nacional] DANFSe baixado com sucesso na tentativa "
             +:+ pretty (i + 1)) ;;
        mret pdf_base64
      else
        sleep 2 ;;
        tentativas turns' max_retries chave_acesso pfx_path pfx_password logger
          pdf_base64
  end.

(** [for i in range(3): ..] of the XML branch, which does not log. *)
Fixpoint tentativas_xml (turns : list nat)
    (chave_acesso pfx_path pfx_password : string) (logger : bool)
    (pdf_base64 : option string) : IO (option string) :=
  match turns with
  | [] => mret pdf_base64
  | i :: turns' =>
      pdf_base64 ← baixar_danfse_pdf chave_acesso pfx_path pfx_password logger ;
      if bool_decide (nonempty pdf_base64 ≠ None) then mret pdf_base64
      else
        sleep 2 ;;
        tentativas_xml turns' chave_acesso pfx_path pfx_password logger pdf_base64
  end.

(** Lines 120 to 200: the answer is a JSON object. *)
Definition resposta_json (resp : response) (data : list (string * value))
    (pfx_path pfx_password : string) (logger : bool) : IO envio :=
  let xml_resp := text resp in
  let id_dps := value_or (dict_get data "idDps" VNone) (dict_get data "idDPS" VNone) in
  let chave_acesso := dict_get data "chaveAcesso" VNone in
  let erros := value_or (dict_get data "erros" VNone) (VList []) in
  mensagem_erro ← io_call (mensagem_erro_de erros) ;
  match mensagem_erro with
  | Some mensagem_erro =>
      io_error logger
        ("[NFSe Nacional] Erros encontrados na resposta: " +:+ mensagem_erro)
  | None => mret tt
  end ;;
  (if truthy id_dps
   then io_info logger ("[NFSe Nacional] ID DPS recebido: " +:+ str_value id_dps)
   else mret tt) ;;
  (if truthy chave_acesso
   then io_info logger
          ("[NFSe Nacional] Chave de acesso recebida: " +:+ str_value chave_acesso)
   else mret tt) ;;
  let gz_b64 :=
    value_or (dict_get data "nfseXmlGZipB64" VNone)
      (dict_get data "nfseXmlGzipB64" VNone) in
  xml_nfse ←
    (if truthy gz_b64 then
       try_except
         (xml_nfse ← io_call (descompactar gz_b64) ;
          io_info logger
            ("[NFSe Nacional] XML da NFSe extraído do GZIP (tamanho: "
               +:+ pretty (len xml_nfse) +:+ " caracteres)") ;;
          mret (Some xml_nfse))
         (λ e,
            io_error logger
              ("[NFSe Nacional] Erro ao descompactar XML da NFSe: "
                 +:+ str_exception e) ;;
            mret None)
     else mret None) ;
  match nonempty mensagem_erro with
  | Some _ =>
      mret (Envio (status_code resp) xml_resp xml_nfse None id_dps chave_acesso
              (Some erros) (Some mensagem_erro))
  | None =>
      pdf_base64 ←
        (if bool_decide (status_code resp = 200%Z ∨ status_code resp = 201%Z)
            && truthy chave_acesso
         then
           io_info logger "[NFSe Nacional] Tentando baixar DANFSe (até 3 tentativas)" ;;
           tentativas [0; 1; 2] 3 (str_value chave_acesso) pfx_path pfx_password
             logger None
         else mret None) ;
      mret (Envio (status_code resp) xml_resp xml_nfse pdf_base64 id_dps
              chave_acesso None None)
  end.

(** Lines 202 to 238: the answer is not a JSON object. [id_dps] and
    [chave_acesso] are still [None] here. *)
Definition resposta_xml (resp : response) (pfx_path pfx_password : string)
    (logger : bool) : IO envio :=
  let xml_resp := text resp in
  let id_dps := VNone in
  let chave_acesso := VNone in
  found ←
    try_except
      (root ← io_call (match fromstring (encode xml_resp) with
                       | inl e => inl (Raised e)
                       | inr root => inr root
                       end) ;
       pdf_el ← io_call (find_ns root "pdfBase64") ;
       nfse_el ← io_call (find_ns root "NFSe") ;
       let pdf_base64 :=
         match pdf_el with
         | Some el =>
             match nonempty (node_text el.2) with
             | Some pdf_text => Some (str_strip pdf_text)
             | None => None
             end
         | None => None
         end in
       let xml_nfse :=
         match nfse_el with
         | Some el => Some (decode (tostring false el.1 el.2))
         | None => None
         end in
       pdf_base64 ←
         (if truthy chave_acesso && bool_decide (nonempty pdf_base64 = None) then
            io_info logger "[NFSe Nacional] Tentando baixar DANFSe via fallback XML" ;;
            tentativas_xml [0; 1; 2] (str_value chave_acesso) pfx_path
              pfx_password logger pdf_base64
          else mret pdf_base64) ;
       mret (xml_nfse, pdf_base64))
      (λ e,
         io_error logger
           ("[NFSe Nacional] Erro ao parsear resposta XML: " +:+ str_exception e) ;;
         mret (None, None)) ;
  mret (Envio (status_code resp) xml_resp found.1 found.2 id_dps chave_acesso
          (Some (VList [])) (Some None)).

(** [enviar_nfse_pkcs12(dps_b64, pfx_path, pfx_password, logger)] *)
Definition enviar_nfse_pkcs12 (dps_b64 pfx_path pfx_password : string)
    (logger : bool) : IO envio :=
  io_info logger
    ("[NFSe Nacional] Enviando requisição HTTP POST para: " +:+ URL_PRODUCAO) ;;
  io_info logger
    ("[NFSe Nacional] Tamanho do payload (dps_b64): "
       +:+ pretty (len dps_b64) +:+ " caracteres") ;;
  let payload := [("dpsXmlGZipB64", dps_b64)] in
  resp ←
    try_except
      (resp ← pkcs12_post URL_PRODUCAO payload pfx_path pfx_password ;
       io_info logger
         ("[NFSe Nacional] Resposta HTTP recebida - Status: "
            +:+ pretty (status_code resp)) ;;
       mret resp)
      (λ e,
         io_error logger
           ("[NFSe Nacional] Erro na requisição HTTP: " +:+ str_exception e) ;;
         io_raise e) ;
  data ←
    try_except
      (data ← io_call (json_result resp) ;
       io_info logger "[NFSe Nacional] Resposta parseada como JSON" ;;
       mret data)
      (λ e,
         io_info logger
           "[NFSe Nacional] Resposta não é JSON, tentando parsear como XML" ;;
         mret VNone) ;
  match data with
  | VDict data => resposta_json resp data pfx_path pfx_password logger
  | _ => resposta_xml resp pfx_path pfx_password logger
  end.

End enviar_nfse.

(** The two requests of [enviar_nfse_pkcs12], and the trace of [k] downloads
    that gave nothing, each followed by its pause. *)
Definition post_dps (dps_b64 pfx_path pfx_password : string) : request :=
  Request POST URL_PRODUCAO (Some [("dpsXmlGZipB64", dps_b64)]) json_headers
    pfx_path pfx_password 30 true.

Definition get_danfse (chave_acesso pfx_path pfx_password : string) : request :=
  Request GET (URL_DANFSE +:+ "/" +:+ chave_acesso) None [] pfx_path
    pfx_password 30 true.

Definition failed_attempts (get : request) (k : nat) : list event :=
  concat (replicate k [Sent get; Slept 2]).

(** ** [transmitter.py]: [consultar_nfse] *)

Section consultar.
Context `{World} `{Python} `{Etree}.

(** [consultar_nfse(chave_acesso, pfx_path, pfx_password, logger)]: what
    [resp.json()] gave, or [{"xml": ..}], or [{"body": ..}], or [None]. *)
Definition consultar_nfse (chave_acesso pfx_path pfx_password : string)
    (logger : bool) : IO value :=
  let url := URL_PRODUCAO +:+ "/" +:+ chave_acesso in
  io_info logger ("[NFSe Nacional] Consultando NFSe - URL: " +:+ url) ;;
  try_except
    (resp ← pkcs12_get url pfx_path pfx_password ;
     io_info logger
       ("[NFSe Nacional] Resposta da consulta recebida - Status HTTP: "
          +:+ pretty (status_code resp)) ;;
     if bool_decide (status_code resp = 200%Z) then
       try_except
         (data ← io_call (json_result resp) ;
          io_info logger "[NFSe Nacional] Resposta parseada como JSON" ;;
          mret data)
         (λ _,
            try_except
              (root ← io_call (match fromstring (content resp) with
                               | inl e => inl (Raised e)
                               | inr root => inr root
                               end) ;
               let xml_str := decode (tostring false [] root) in
               io_info logger
                 ("[NFSe Nacional] Resposta parseada como XML (tamanho: "
                    +:+ pretty (len xml_str) +:+ " caracteres)") ;;
               mret (VDict [("xml", VStr xml_str)]))
              (λ e,
                 io_error logger
                   ("[NFSe Nacional] Erro ao parsear resposta: "
                      +:+ str_exception e) ;;
                 mret (VDict [("body", VStr (text resp))])))
     else
       io_error logger
         ("[NFSe Nacional] NFSe não encontrada - Status HTTP: "
            +:+ pretty (status_code resp)) ;;
       mret VNone)
    (λ e,
       io_error logger
         ("[NFSe Nacional] Erro ao consultar NFSe: " +:+ str_exception e) ;;
       mret VNone).

(** What [consultar_nfse] makes of the answer to its request. *)
Definition consulta_de (answer : exception + response) : value :=
  match answer with
  | inl _ => VNone
  | inr resp =>
      if bool_decide (status_code resp = 200%Z) then
        match json_result resp with
        | inr data => data
        | inl _ =>
            match fromstring (content resp) with
            | inr root => VDict [("xml", VStr (decode (tostring false [] root)))]
            | inl _ => VDict [("body", VStr (text resp))]
            end
        end
      else VNone
  end.

End consultar.

(** ** [client.py]: sending and consulting *)

(** [sep in s] *)
Fixpoint str_contains (sep s : string) : bool :=
  String.prefix sep s ||
  match s with
  | EmptyString => false
  | String _ r => str_contains sep r
  end.

(** A [str] or [None] as a value. *)
Definition str_or_none (s : option string) : value :=
  match s with
  | Some s => VStr s
  | None => VNone
  end.

(** [v.get]: only a [dict] has it. *)
Definition get_of (v : value) : exception + list (string * value) :=
  match v with
  | VDict items => inr items
  | _ =>
      inl (Foreign "AttributeError"
             ("'" +:+ type_name v +:+ "' object has no attribute 'get'"))
  end.

(** [len(v)] *)
Definition len_value (v : value) : exception + nat :=
  match v with
  | VStr s => inr (len s)
  | VList l => inr (length l)
  | VDict items => inr (length (dict_keys items))
  | _ =>
      inl (Raised (TypeError
             ("object of type '" +:+ type_name v +:+ "' has no len()")))
  end.

Definition msg_lote_rps_vazio : string := "Nenhum RPS no lote".
Definition msg_nao_nacional : string :=
  "XML não está no padrão nacional. Deve conter <DPS> com namespace correto.".
Definition msg_sem_chave : string :=
  "Chave de acesso não fornecida. No novo padrão, é necessário a chave de acesso para consultar.".

(** [<EnviarLoteRpsResposta><Protocolo>ERRO</Protocolo><ListaMensagemRetorno>
    <MensagemRetorno><Codigo>ERRO</Codigo><Mensagem>..</Mensagem>
    </MensagemRetorno></ListaMensagemRetorno></EnviarLoteRpsResposta>] *)
Definition EnviarLoteRpsResposta_erro (mensagem : string) : node :=
  new_element "EnviarLoteRpsResposta" [] [] None
    [ new_element "Protocolo" [] [] (Some "ERRO") [];
      new_element "ListaMensagemRetorno" [] [] None
        [ new_element "MensagemRetorno" [] [] None
            [ new_element "Codigo" [] [] (Some "ERRO") [];
              new_element "Mensagem" [] [] (Some mensagem) [] ] ] ].

(** [<EnviarLoteRpsResposta><Protocolo>..</Protocolo></EnviarLoteRpsResposta>],
    with a child [NumeroNFSe] when one was appended, with the text it was
    given. *)
Definition EnviarLoteRpsResposta (protocolo : string)
    (numero : option (option string)) : node :=
  new_element "EnviarLoteRpsResposta" [] [] None
    (new_element "Protocolo" [] [] (Some protocolo) []
     :: match numero with
        | Some numero_text => [new_element "NumeroNFSe" [] [] numero_text []]
        | None => []
        end).

(** [<ConsultarSituacaoLoteRpsResposta><Situacao>4</Situacao>
    <ListaMensagemRetorno/></ConsultarSituacaoLoteRpsResposta>] *)
Definition ConsultarSituacaoLoteRpsResposta : node :=
  new_element "ConsultarSituacaoLoteRpsResposta" [] [] None
    [ new_element "Situacao" [] [] (Some "4") [];
      new_element "ListaMensagemRetorno" [] [] None [] ].

Section sending.
Context `{FileSystem} `{Cryptography} `{Etree} `{Hashlib}.
Context `{Gzip} `{World} `{Python} `{EtreeStrings} `{Decoders} `{Strings}.

(** Lines 367 to 379: the child [NumeroNFSe] that the XML of the note
    gives, if any. The [except] of line 378 lets nothing out, but a child
    appended before the exception stays. *)
Definition numero_nfse (xml_nfse : option string) : IO (option (option string)) :=
  match nonempty xml_nfse with
  | Some xml_nfse =>
      try_except
        (nfse_root ← io_call (match fromstring (encode xml_nfse) with
                              | inl e => inl (Raised e)
                              | inr root => inr root
                              end) ;
         let numero_nf :=
           match find_below [] (clark NS_NFSE "nNFSe") nfse_root with
           | Some found => Some found
           | None => find_below [] "nNFSe" nfse_root
           end in
         match numero_nf with
         | Some found =>
             match nonempty (node_text found.2) with
             | Some numero_text =>
                 try_except
                   (numero_text ← set_text numero_text ;
                    mret (Some (Some numero_text)))
                   (λ _, mret (Some None))
             | None => mret None
             end
         | None => mret None
         end)
        (λ _, mret None)
  | None => mret None
  end.

(** Lines 306 to 398: what [send_batch] makes of the dictionary that
    [enviar_nfse_pkcs12] returned. It returns [result] and [errors]. The
    [except] of line 400 finds [result] as it is when the exception is
    raised: with four keys from line 352 on, empty before. *)
Definition send_batch_answer (logger : bool) (xml_signed : string)
    (response : envio)
    : IO (list (string * value) * list (string * string)) :=
  io_info logger
    ("[NFSe Nacional] Resposta recebida do Portal Nacional - Status HTTP: "
       +:+ pretty (status response)) ;;
  let chave_acesso := chave_acesso response in
  let id_dps := id_dps response in
  let xml_nfse := xml_nfse response in
  let mensagem_erro := default None (mensagem_erro response) in
  let erros := default (VList []) (erros response) in
  let accepted :=
    bool_decide (status response = 200%Z ∨ status response = 201%Z) in
  if bool_decide (nonempty mensagem_erro ≠ None) || negb accepted then
    let error_msg := default (body response) (nonempty mensagem_erro) in
    io_error logger
      ("[NFSe Nacional] Erro ao enviar DPS - Status HTTP: "
         +:+ pretty (status response)) ;;
    io_error logger
      ("[NFSe Nacional] Mensagem de erro: " +:+ str_take 500 error_msg) ;;
    mensagem ← set_text (str_take 500 error_msg) ;
    mret ([("ws.response", VStr (dump (EnviarLoteRpsResposta_erro mensagem)));
           ("erros", erros);
           ("mensagem_erro", str_or_none mensagem_erro)],
          [("error", error_msg)])
  else if accepted then
    io_info logger
      ("[NFSe Nacional] DPS aceita pelo Portal Nacional - Status: "
         +:+ pretty (status response)) ;;
    (if truthy chave_acesso
     then io_info logger
            ("[NFSe Nacional] Chave de acesso recebida: " +:+ str_value chave_acesso)
     else mret tt) ;;
    (if truthy id_dps
     then io_info logger ("[NFSe Nacional] ID DPS recebido: " +:+ str_value id_dps)
     else mret tt) ;;
    match nonempty xml_nfse with
    | Some xml_nfse =>
        io_info logger
          ("[NFSe Nacional] XML da NFSe recebido (tamanho: "
             +:+ pretty (len xml_nfse) +:+ " caracteres)")
    | None => mret tt
    end ;;
    let result :=
      [("chave_acesso", chave_acesso); ("id_dps", id_dps);
       ("xml_nfse", str_or_none xml_nfse); ("xml_enviado", VStr xml_signed)] in
    try_except
      (protocolo ←
         set_text
           (str_value (value_or chave_acesso (value_or id_dps (VStr "PROCESSADO")))) ;
       numero ← numero_nfse xml_nfse ;
       mret (result
               ++ [("ws.response",
                    VStr (dump (EnviarLoteRpsResposta protocolo numero)))],
             []))
      (λ e,
         io_error logger
           ("[NFSe Nacional] Exceção ao processar envio de DPS: "
              +:+ str_exception e) ;;
         mret (result, [("error", str_exception e)]))
  else
    let error_msg := body response in
    io_error logger
      ("[NFSe Nacional] Erro ao enviar DPS - Status HTTP: "
         +:+ pretty (status response)) ;;
    io_error logger
      ("[NFSe Nacional] Mensagem de erro: " +:+ str_take 500 error_msg) ;;
    mensagem ← set_text (str_take 500 error_msg) ;
    mret ([("ws.response", VStr (dump (EnviarLoteRpsResposta_erro mensagem)))],
          [("error", error_msg)]).

(** Lines 261 to 398: the [try] block of [send_batch] for the first entry
    of the batch. *)
Definition send_batch_try (pfx_path pfx_password : string) (logger : bool)
    (item : rps_item) : IO (list (string * value) * list (string * string)) :=
  io_info logger "[NFSe Nacional] Iniciando envio de DPS para o Portal Nacional" ;;
  io_info logger "[NFSe Nacional] Assinando XML da DPS com certificado" ;;
  xml_signed ←
    lift (assinar_xml (Str (rps_xml item)) pfx_path (Some pfx_password) "infDPS"
            logger) ;
  io_info logger
    ("[NFSe Nacional] XML assinado com sucesso (tamanho: "
       +:+ pretty (len xml_signed) +:+ " caracteres)") ;;
  if negb (str_contains "<DPS" xml_signed)
     || negb (str_contains NS_NFSE xml_signed)
  then
    io_error logger ("[NFSe Nacional] " +:+ msg_nao_nacional) ;;
    io_raise (Raised (ValueError msg_nao_nacional))
  else
    io_info logger "[NFSe Nacional] Compactando e codificando DPS em base64" ;;
    instant ← now ;
    let dps_b64 := gerar_dpsXmlGZipB64 instant xml_signed in
    io_info logger
      ("[NFSe Nacional] DPS compactada e codificada (tamanho base64: "
         +:+ pretty (len dps_b64) +:+ " caracteres)") ;;
    io_info logger
      ("[NFSe Nacional] Enviando DPS para Portal Nacional: " +:+ URL_PRODUCAO) ;;
    response ← enviar_nfse_pkcs12 dps_b64 pfx_path pfx_password logger ;
    send_batch_answer logger xml_signed response.

(** [self.send_batch(batch_fields)]; the argument is not used, and of the
    batch only the first entry is. *)
Definition send_batch (self : NFSeThema)
    : IO (list (string * value) * list (string * string)) :=
  credential ← check_certificate self ;
  match rps_batch self with
  | [] => mret ([], [("error", msg_lote_rps_vazio)])
  | item :: _ =>
      try_except
        (send_batch_try credential.1 credential.2 (logger self) item)
        (λ e,
           io_error (logger self)
             ("[NFSe Nacional] Exceção ao processar envio de DPS: "
                +:+ str_exception e) ;;
           mret ([], [("error", str_exception e)]))
  end.

(** [self.get_batch_status(params)] *)
Definition get_batch_status (self : NFSeThema) (params : list (string * value))
    : IO (list (string * string) * list (string * string)) :=
  let logger := logger self in
  io_info logger "[NFSe Nacional] Iniciando consulta de status da NFSe" ;;
  let protocolo := dict_get params "lote.protocolo" (VStr EmptyString) in
  let chave_acesso := dict_get params "chave_acesso" protocolo in
  if negb (truthy chave_acesso) then
    io_error logger ("[NFSe Nacional] " +:+ msg_sem_chave) ;;
    mret ([], [("error", msg_sem_chave)])
  else
    io_info logger
      ("[NFSe Nacional] Consultando NFSe com chave de acesso: "
         +:+ str_value chave_acesso) ;;
    match nonempty (pfx_file self), nonempty (pfx_passwd self) with
    | Some pfx_path, Some pfx_password =>
        try_except
          (response ←
             consultar_nfse (str_value chave_acesso) pfx_path pfx_password logger ;
           if truthy response then
             (if logger then
                fields ← io_call (get_of response) ;
                io_info logger
                  ("[NFSe Nacional] Resposta recebida da consulta - Status: "
                     +:+ str_value (dict_get fields "status" (VStr "N/A")))
              else mret tt) ;;
             fields ← io_call (get_of response) ;
             let xml_resp :=
               dict_get fields "xml" (dict_get fields "body" (VStr EmptyString)) in
             if truthy xml_resp then
               (if logger then
                  size ← io_call (len_value xml_resp) ;
                  io_info logger
                    ("[NFSe Nacional] XML da consulta recebido (tamanho: "
                       +:+ pretty size +:+ " caracteres)")
                else mret tt) ;;
               let ws_response := dump ConsultarSituacaoLoteRpsResposta in
               io_info logger "[NFSe Nacional] Consulta concluída com sucesso" ;;
               mret ([("ws.response", ws_response)], [])
             else
               io_error logger "[NFSe Nacional] Resposta vazia do Portal Nacional" ;;
               mret ([], [("error", "Resposta vazia do Portal Nacional")])
           else
             io_error logger "[NFSe Nacional] NFSe não encontrada no Portal Nacional" ;;
             mret ([], [("error", "NFSe não encontrada no Portal Nacional")]))
          (λ e,
             let error_msg :=
               "Erro ao consultar Portal Nacional: " +:+ str_exception e in
             io_error logger ("[NFSe Nacional] " +:+ error_msg) ;;
             mret ([], [("error", error_msg)]))
    | _, _ =>
        io_error logger "[NFSe Nacional] Certificado não configurado" ;;
        mret ([], [("error", "Certificado não configurado")])
    end.

End sending.

(** ** A small world to run the function in

    Stand-ins that make the four interfaces computable, for the examples
    after the theorems: a serialiser that writes single-quoted XML for trees
    whose elements live in their default namespace, a parser that knows a
    handful of documents, a checksum in place of SHA-1 and a keyed checksum
    in place of RSA. The theorems do not depend on them. *)
Module Demo.

Definition or_empty (v : option string) : string := default EmptyString v.

Fixpoint after_brace (s : string) : string :=
  match s with
  | EmptyString => EmptyString
  | String c r => if decide (String c EmptyString = "}") then r else after_brace r
  end.

Definition local_name (tag : string) : string :=
  match tag with
  | String c r => if decide (String c EmptyString = "{") then after_brace r else tag
  | EmptyString => tag
  end.

Definition write_nsdecl (d : option string * string) : string :=
  match d.1 with
  | None => " xmlns='" +:+ d.2 +:+ "'"
  | Some prefix => " xmlns:" +:+ prefix +:+ "='" +:+ d.2 +:+ "'"
  end.

Definition write_attr (a : string * string) : string :=
  " " +:+ a.1 +:+ "='" +:+ a.2 +:+ "'".

Definition concat_str (l : list string) : string :=
  foldr String.append EmptyString l.

Fixpoint write_node (with_comments : bool)
    (inherited : list (option string * string)) (n : node) : string :=
  match n with
  | Element tag attrib nsmap text children tail =>
      "<" +:+ local_name tag
        +:+ concat_str (write_nsdecl <$> inherited ++ nsmap)
        +:+ concat_str (write_attr <$> attrib) +:+ ">"
        +:+ or_empty text
        +:+ (fix write_all (l : list node) : string :=
               match l with
               | [] => EmptyString
               | c :: l' => write_node with_comments [] c +:+ write_all l'
               end) children
        +:+ "</" +:+ local_name tag +:+ ">" +:+ or_empty tail
  | Comment text tail =>
      (if with_comments then "<!--" +:+ text +:+ "-->" else EmptyString)
        +:+ or_empty tail
  | ProcessingInstruction target text tail =>
      "<?" +:+ target +:+ " " +:+ or_empty text +:+ "?>" +:+ or_empty tail
  end.

Definition write_document (xml_declaration : bool)
    (inherited : list (option string * string)) (n : node) : bytes :=
  encode ((if xml_declaration
           then "<?xml version='1.0' encoding='utf-8'?>"
           else EmptyString) +:+ write_node true inherited n).

(** What parsing the serialisation of a subtree gives: the element as the
    root of its own document, with the inherited declarations on it. *)
Definition standalone (inherited : list (option string * string))
    (n : node) : node :=
  match n with
  | Element tag attrib nsmap text children tail =>
      Element tag attrib (inherited ++ nsmap) text children None
  | _ => n
  end.

Definition canonical (n : node) : bytes := encode (write_node false [] n).

Definition checksum (data : bytes) : bytes :=
  take 20 (reverse data ++ replicate 20 "000"%byte).

Definition digest_b64_of (inherited : list (option string * string))
    (n : node) : string :=
  decode (b64encode (checksum (canonical (standalone inherited n)))).

Definition nfse (name : string) : string := clark NS_NFSE name.

Definition leaf (tag text : string) : node :=
  Element tag [] [] (Some text) [] None.

(** [<DPS xmlns='..nfse' versao='1.00'><!--lote 7--><infDPS Id='DPS330455a7Z'>
    <serie>900</serie><nDPS>42</nDPS></infDPS><obs>teste</obs></DPS>] *)
Definition infDPS : node :=
  Element (nfse "infDPS") [("Id", "DPS330455a7Z")] [] None
    [leaf (nfse "serie") "900"; leaf (nfse "nDPS") "42"] None.

Definition dps : node :=
  Element (nfse "DPS") [("versao", "1.00")] [(None, NS_NFSE)] None
    [Comment "lote 7" None; infDPS; leaf (nfse "obs") "teste"] None.

Definition dps_xml : string :=
  "<DPS xmlns='http://www.sped.fazenda.gov.br/nfse' versao='1.00'>"
  +:+ "<!--lote 7--><infDPS Id='DPS330455a7Z'><serie>900</serie>"
  +:+ "<nDPS>42</nDPS></infDPS><obs>teste</obs></DPS>".

(** The signed element one level further down:
    [<lote xmlns='..nfse'><DPS><infDPS Id='DPS1'></infDPS></DPS></lote>] *)
Definition lote : node :=
  Element (nfse "lote") [] [(None, NS_NFSE)] None
    [Element (nfse "DPS") [] [] None
       [Element (nfse "infDPS") [("Id", "DPS1")] [] None [] None] None]
    None.

Definition lote_xml : string :=
  "<lote xmlns='http://www.sped.fazenda.gov.br/nfse'><DPS>"
  +:+ "<infDPS Id='DPS1'></infDPS></DPS></lote>".

(** No [infDPS]: [<DPS xmlns='..nfse'><obs>teste</obs></DPS>] *)
Definition dps_sem_inf : node :=
  Element (nfse "DPS") [] [(None, NS_NFSE)] None
    [leaf (nfse "obs") "teste"] None.

Definition dps_sem_inf_xml : string :=
  "<DPS xmlns='http://www.sped.fazenda.gov.br/nfse'><obs>teste</obs></DPS>".

(** [infDPS] without [Id]:
    [<DPS xmlns='..nfse'><infDPS versao='1'></infDPS></DPS>] *)
Definition dps_sem_id : node :=
  Element (nfse "DPS") [] [(None, NS_NFSE)] None
    [Element (nfse "infDPS") [("versao", "1")] [] None [] None] None.

Definition dps_sem_id_xml : string :=
  "<DPS xmlns='http://www.sped.fazenda.gov.br/nfse'>"
  +:+ "<infDPS versao='1'></infDPS></DPS>".

(** The documents the parser knows, each with the declarations it is
    written under: the four inputs, the signed element of [dps] and the
    [SignedInfo] built for it. *)
Definition known : list (list (option string * string) * node) :=
  [ ([], dps); ([], lote); ([], dps_sem_inf); ([], dps_sem_id);
    ([(None, NS_NFSE)], infDPS);
    ([(None, NS_DS)],
     SignedInfo "DPS330455a7Z" (digest_b64_of [(None, NS_NFSE)] infDPS)) ].

Definition parse (data : bytes) : exn + node :=
  match
    List.find
      (λ d, String.eqb (write_node true d.1 d.2) (decode data)) known
  with
  | Some d => inr (standalone d.1 d.2)
  | None => inl (XMLSyntaxError "Document is empty or not known")
  end.

#[export] Instance etree : Etree := {|
  fromstring := parse;
  tostring := write_document;
  tostring_c14n exclusive with_comments n :=
    inr (encode (write_node with_comments [] n))
|}.

#[export] Instance hashlib : Hashlib := {| sha1 := checksum |}.

Definition cert : certificate := Certificate (encode "DER of the leaf certificate").

Definition bundle (data : bytes)
    : option (option private_key * option certificate * list certificate) :=
  if String.eqb (decode data) "PFX rsa" then
    Some (Some (RSAPrivateKey (encode "rsa key")), Some cert, [])
  else if String.eqb (decode data) "PFX ec" then
    Some (Some (EllipticCurvePrivateKey (encode "ec key")), Some cert, [])
  else if String.eqb (decode data) "PFX cert only" then
    Some (None, Some cert, [])
  else None.

(** Every bundle is protected by the password [segredo]. A PKCS#1 v1.5
    signature is a function of key and data; a PSS signature also takes a
    salt from the random source of the library, which is in the state
    [salt] when the call is made. *)
Definition library (salt : bytes) : Cryptography := {|
  load_key_and_certificates data password :=
    match bundle data with
    | None => inl (ValueError "Could not deserialize PKCS12 data")
    | Some b =>
        match password with
        | Some pw =>
            if String.eqb (decode pw) "segredo" then inr b
            else inl (ValueError "Invalid password or PKCS12 data")
        | None => inl (ValueError "Invalid password or PKCS12 data")
        end
    end;
  rsa_sign key pad alg data :=
    match pad with
    | PKCS1v15 => inr (checksum (key ++ data))
    | PSS => inr (checksum (salt ++ key ++ data))
    end
|}.

#[export] Instance cryptography : Cryptography := library (encode "3f9a").

(** The same library at a later call: its random source has moved on. *)
Definition cryptography_later : Cryptography := library (encode "c07e").

#[export] Instance files : FileSystem := {|
  open_rb path :=
    if String.eqb path "rsa.pfx" then inr (encode "PFX rsa")
    else if String.eqb path "copia.pfx" then inr (encode "PFX rsa")
    else if String.eqb path "ec.pfx" then inr (encode "PFX ec")
    else if String.eqb path "cert.pfx" then inr (encode "PFX cert only")
    else if String.eqb path "vazio.pfx" then inr []
    else inl (FileNotFoundError path)
|}.

(** The file system at a later call: the bundle is where it was, the
    other files are gone. *)
Definition other_files : FileSystem := {|
  open_rb path :=
    if String.eqb path "rsa.pfx" then inr (encode "PFX rsa")
    else inl (FileNotFoundError path)
|}.

(** The signed [dps]. *)
Definition signed_xml : string :=
  Eval vm_compute in
    match outcome (assinar_xml (Str dps_xml) "rsa.pfx" (Some "segredo") "infDPS" true) with
    | inr xml_final => xml_final
    | inl _ => EmptyString
    end.

End Demo.

(** ** Stand-ins for the other libraries *)
Module Demo2.

(** The ASCII part of the Unicode database. *)
Definition ascii_isdecimal (c : N) : bool := bool_decide (48 ≤ c ≤ 57)%N.
Definition ascii_isspace (c : N) : bool :=
  bool_decide (c ∈ [9; 10; 11; 12; 13; 28; 29; 30; 31; 32]%N).

Lemma ascii_isdecimal_not_space c :
  ascii_isdecimal c = true → ascii_isspace c = false.
Proof.
  unfold ascii_isdecimal, ascii_isspace. intros Hc%bool_decide_eq_true.
  apply bool_decide_eq_false. rewrite !elem_of_cons, elem_of_nil. lia.
Qed.

#[export] Instance unicode : Unicode := {|
  isdecimal := ascii_isdecimal;
  isspace := ascii_isspace;
  isdecimal_ascii c _ := eq_refl;
  isspace_ascii c _ := eq_refl;
  isdecimal_not_space := ascii_isdecimal_not_space
|}.

(** A stored block: the time, then the data. *)
#[export] Instance gzip : Gzip := {|
  compress now data := encode (pretty now) ++ data
|}.

(** A second document around the same signed element: another attribute on
    the root, no comment before the element and nothing after it:
    [<DPS xmlns='..nfse' versao='2.00'><infDPS Id='DPS330455a7Z'>
    <serie>900</serie><nDPS>42</nDPS></infDPS></DPS>] *)
Definition dps_sozinho : node :=
  Element (Demo.nfse "DPS") [("versao", "2.00")] [(None, NS_NFSE)] None
    [Demo.infDPS] None.

Definition dps_sozinho_xml : string :=
  "<DPS xmlns='http://www.sped.fazenda.gov.br/nfse' versao='2.00'>"
  +:+ "<infDPS Id='DPS330455a7Z'><serie>900</serie>"
  +:+ "<nDPS>42</nDPS></infDPS></DPS>".

(** A parser that knows this document too. *)
Definition parse_more (data : bytes) : exn + node :=
  if String.eqb (Demo.write_node true [] dps_sozinho) (decode data)
  then inr dps_sozinho
  else Demo.parse data.

Definition etree_more : Etree := {|
  fromstring := parse_more;
  tostring := Demo.write_document;
  tostring_c14n exclusive with_comments n :=
    inr (encode (Demo.write_node with_comments [] n))
|}.

End Demo2.

(** ** A portal, a clock and an object to cancel with *)
Module Demo3.

(** [<pedRegEvento xmlns='..nfse' versao='1.00'><infPedReg Id='PRE35'>
    <chNFSe>CHAVE1</chNFSe></infPedReg></pedRegEvento>] *)
Definition infPedReg : node :=
  Element (Demo.nfse "infPedReg") [("Id", "PRE35")] [] None
    [Demo.leaf (Demo.nfse "chNFSe") "CHAVE1"] None.

Definition pedRegEvento : node :=
  Element (Demo.nfse "pedRegEvento") [("versao", "1.00")] [(None, NS_NFSE)] None
    [infPedReg] None.

Definition pedRegEvento_xml : string :=
  "<pedRegEvento xmlns='http://www.sped.fazenda.gov.br/nfse' versao='1.00'>"
  +:+ "<infPedReg Id='PRE35'><chNFSe>CHAVE1</chNFSe></infPedReg></pedRegEvento>".

(** The documents of a cancellation that the parser knows: the request,
    its signed element and the [SignedInfo] built for it. *)
Definition known : list (list (option string * string) * node) :=
  [ ([], pedRegEvento);
    ([(None, NS_NFSE)], infPedReg);
    ([(None, NS_DS)],
     SignedInfo "PRE35" (Demo.digest_b64_of [(None, NS_NFSE)] infPedReg)) ].

Definition parse (data : bytes) : exn + node :=
  match
    List.find
      (λ d, String.eqb (Demo.write_node true d.1 d.2) (decode data)) known
  with
  | Some d => inr (Demo.standalone d.1 d.2)
  | None => Demo.parse data
  end.

Definition etree : Etree := {|
  fromstring := parse;
  tostring := Demo.write_document;
  tostring_c14n exclusive with_comments n :=
    inr (encode (Demo.write_node with_comments [] n))
|}.

(** The signed request. *)
Definition signed_xml : string :=
  Eval vm_compute in
    match
      outcome
        (@assinar_xml Demo.files Demo.cryptography etree Demo.hashlib
           (Str pedRegEvento_xml) "rsa.pfx" (Some "segredo") "infPedReg" false)
    with
    | inr xml_final => xml_final
    | inl _ => EmptyString
    end.

(** The portal registers the event of [CHAVE1], refuses that of [CHAVE2]
    with an answer of its own, has the document of [CHAVE1] as a PDF, and
    is out of reach for anything else. The clock ticks with every request
    and every second of sleep. *)
Definition evento (chave : string) : string :=
  URL_PRODUCAO +:+ "/" +:+ chave +:+ "/eventos".

Definition answer (r : request) : exception + response :=
  if String.eqb (url r) (evento "CHAVE1") then
    inr (Response 201 (Some "application/json") (encode "{}") "{}"
           (inr (VDict [])))
  else if String.eqb (url r) (evento "CHAVE2") then
    inr (Response 400 (Some "application/json") (encode "E0840") "E0840"
           (inl (Foreign "JSONDecodeError" "Expecting value")))
  else if String.eqb (url r) (URL_DANFSE +:+ "/CHAVE1") then
    inr (Response 200 (Some "application/pdf; charset=binary")
           (encode "%PDF-1.4") "%PDF-1.4"
           (inl (Foreign "JSONDecodeError" "Expecting value")))
  else inl (Foreign "ConnectionError" "Connection refused").

Definition world : World := {|
  respond h r := answer r;
  time h := (1762000000 + N.of_nat (length h))%N;
  os_path_exists path :=
    bool_decide (path ∈ ["rsa.pfx"; "copia.pfx"; "ec.pfx"; "cert.pfx"; "vazio.pfx"])
|}.

Definition python : Python := {|
  repr_str s := "'" +:+ s +:+ "'"
|}.

(** No byte below the space, but for the tab, the line feed and the
    carriage return. *)
Definition etree_strings : EtreeStrings := {|
  xml_compatible s :=
    forallb (λ b, (31 <? Byte.to_N b)%N || bool_decide (Byte.to_N b ∈ [9; 10; 13]%N))
      (encode s)
|}.

Definition item (chave : string) : cancel_item :=
  CancelItem pedRegEvento_xml [("nf.chave_acesso", chave)] chave.

(** An object with its certificate, and three cancellations to send. *)
Definition nfse (path : option string) (password : option string)
    (batch : list cancel_item) : NFSeThema := {|
  pfx_file := path;
  pfx_passwd := password;
  target := "production";
  rps_batch := [];
  cancel_batch := batch;
  logger := true
|}.

Definition lote : list cancel_item := [item "CHAVE1"; item "CHAVE2"; item "CHAVE3"].

End Demo3.

(** ** A portal that takes a DPS *)
Module Demo4.

(** The XML of a note, and the block the portal sends for it. *)
Definition nfse_xml : string :=
  "<NFSe xmlns='http://www.sped.fazenda.gov.br/nfse' versao='1.00'/>".

Definition nfse_gz : bytes := @compress Demo2.gzip 1762000000 (encode nfse_xml).

Definition nfse_gz_b64 : string :=
  Eval vm_compute in decode (b64encode nfse_gz).

(** The decoders undo what [b64encode] and the stored block of [Demo2.gzip]
    did to that note, and refuse everything else as the libraries do. *)
Definition decoders : Decoders := {|
  b64decode v :=
    match v with
    | VStr s =>
        if String.eqb s nfse_gz_b64 then inr nfse_gz
        else inl (Foreign "binascii.Error" "Incorrect padding")
    | _ =>
        inl (Raised (TypeError
               ("argument should be a bytes-like object or ASCII string, not '"
                  +:+ type_name v +:+ "'")))
    end;
  decompress data :=
    if String.eqb (decode data) (decode nfse_gz) then inr (encode nfse_xml)
    else inl (Foreign "BadGzipFile" "Not a gzipped file");
  decode_replace := decode
|}.

(** [strip] of an ASCII string. *)
Fixpoint lstrip_bytes (b : bytes) : bytes :=
  match b with
  | [] => []
  | x :: r => if Demo2.ascii_isspace (Byte.to_N x) then lstrip_bytes r else b
  end.

Definition strings : Strings := {|
  str_strip s := decode (reverse (lstrip_bytes (reverse (lstrip_bytes (encode s)))))
|}.

(** The text of a JSON object of strings and numbers. *)
Definition quote : string := String (Ascii.ascii_of_N 34) EmptyString.

Definition member (key written : string) : string :=
  quote +:+ key +:+ quote +:+ ": " +:+ written.

Definition quoted (s : string) : string := quote +:+ s +:+ quote.

Definition json_answer (status : Z) (written : string)
    (data : list (string * value)) : response :=
  Response status (Some "application/json") (encode written) written
    (inr (VDict data)).

Definition not_json : exception + value :=
  inl (Foreign "JSONDecodeError" "Expecting value: line 1 column 1 (char 0)").

(** The answers to the POST of a DPS. *)
Definition aceita : response :=
  json_answer 201
    ("{" +:+ member "idDps" (quoted "DPS1") +:+ ", "
       +:+ member "chaveAcesso" (quoted "CHAVE1") +:+ ", "
       +:+ member "nfseXmlGZipB64" (quoted nfse_gz_b64) +:+ "}")
    [("idDps", VStr "DPS1"); ("chaveAcesso", VStr "CHAVE1");
     ("nfseXmlGZipB64", VStr nfse_gz_b64)].

Definition demorada : response :=
  json_answer 201 ("{" +:+ member "chaveAcesso" (quoted "CHAVE2") +:+ "}")
    [("chaveAcesso", VStr "CHAVE2")].

Definition recusada : response :=
  json_answer 400
    ("{" +:+ member "erros"
               ("[{" +:+ member "Codigo" (quoted "E0014") +:+ ", "
                  +:+ member "Descricao" (quoted "DPS duplicada") +:+ "}]")
       +:+ "}")
    [("erros",
      VList [VDict [("Codigo", VStr "E0014"); ("Descricao", VStr "DPS duplicada")]])].

Definition pendente : response :=
  json_answer 202 ("{" +:+ member "idDps" (quoted "DPS2") +:+ "}")
    [("idDps", VStr "DPS2")].

Definition torta : response :=
  json_answer 200 ("{" +:+ member "erros" "7" +:+ "}") [("erros", VInt 7)].

Definition pagina : response :=
  Response 502 (Some "text/html") (encode "<html>Bad Gateway</html>")
    "<html>Bad Gateway</html>" not_json.

Definition nao_encontrado : response :=
  Response 404 (Some "text/plain") (encode "Not Found") "Not Found" not_json.

Definition danfse : response :=
  Response 200 (Some "application/pdf") (encode "%PDF-1.4") "%PDF-1.4" not_json.

Definition dps_of (r : request) : string :=
  match json r with
  | Some [(_, dps_b64)] => dps_b64
  | _ => EmptyString
  end.

(** The portal answers a DPS by its content. It has the document of
    [CHAVE1], but not yet at the first request for it, and never has that of
    another note. *)
Definition answer (h : list event) (r : request) : exception + response :=
  match method r with
  | POST =>
      if String.eqb (dps_of r) "aceita" then inr aceita
      else if String.eqb (dps_of r) "demorada" then inr demorada
      else if String.eqb (dps_of r) "recusada" then inr recusada
      else if String.eqb (dps_of r) "pendente" then inr pendente
      else if String.eqb (dps_of r) "torta" then inr torta
      else if String.eqb (dps_of r) "pagina" then inr pagina
      else inl (Foreign "ConnectionError" "Connection refused")
  | GET =>
      if String.eqb (url r) (URL_DANFSE +:+ "/CHAVE1")
         && bool_decide (2 ≤ length (requests h))
      then inr danfse
      else inr nao_encontrado
  end.

Definition portal : World := {|
  respond := answer;
  time h := (1762000000 + N.of_nat (length h))%N;
  os_path_exists path := bool_decide (path = "rsa.pfx")
|}.

(** [enviar_nfse_pkcs12] in this world, with a logger. *)
Definition enviar (dps_b64 : string) : ran envio :=
  @enviar_nfse_pkcs12 portal Demo3.python Demo3.etree decoders strings
    dps_b64 "rsa.pfx" "segredo" true [].

(** An object with its certificate and one RPS to send. *)
Definition emissor : NFSeThema := {|
  pfx_file := Some "rsa.pfx";
  pfx_passwd := Some "segredo";
  target := "production";
  rps_batch := [RpsItem Demo.dps_xml];
  cancel_batch := [];
  logger := true
|}.

End Demo4.

(** ** Outcomes of runs *)

Section monad_facts.
Context {A B : Type}.
Implicit Types (m : M A) (f : A → M B).

Lemma outcome_bind m f :
  outcome (m ≫= f) =
    match outcome m with inl e => inl e | inr a => outcome (f a) end.
Proof. unfold mbind, M_mbind, M_bind. by destruct (outcome m). Qed.

Lemma outcome_bind_inr m f b :
  outcome (m ≫= f) = inr b ↔ ∃ a, outcome m = inr a ∧ outcome (f a) = inr b.
Proof.
  rewrite outcome_bind. destruct (outcome m) as [e|a]; split.
  - done.
  - by intros (a & ? & _).
  - eauto.
  - by intros (a' & [= <-] & ?).
Qed.

Lemma outcome_bind_inl m f e :
  outcome (m ≫= f) = inl e ↔
    outcome m = inl e ∨ ∃ a, outcome m = inr a ∧ outcome (f a) = inl e.
Proof.
  rewrite outcome_bind. destruct (outcome m) as [e'|a]; split.
  - intros [= <-]. by left.
  - by intros [[= ->]|(a & ? & _)].
  - eauto.
  - by intros [?|(a' & [= <-] & ?)].
Qed.

End monad_facts.

Lemma outcome_log {B : Type} logger lvl msg (k : M B) :
  outcome (log logger lvl msg ;; k) = outcome k.
Proof. by rewrite outcome_bind. Qed.

Lemma outcome_log_info {B : Type} logger msg (k : M B) :
  outcome (log_info logger msg ;; k) = outcome k.
Proof. apply outcome_log. Qed.

Lemma outcome_log_error {B : Type} logger msg (k : M B) :
  outcome (log_error logger msg ;; k) = outcome k.
Proof. apply outcome_log. Qed.

Lemma outcome_call {A : Type} (r : exn + A) : outcome (call r) = r.
Proof. done. Qed.

Lemma outcome_mret {A : Type} (a : A) : outcome (mret a : M A) = inr a.
Proof. done. Qed.

Lemma outcome_raise {A : Type} (e : exn) : outcome (raise e : M A) = inl e.
Proof. done. Qed.

(** Rewriting an outcome down to the library calls it depends on. *)
Create Rewrite HintDb outcome.
#[global] Hint Rewrite @outcome_log_info @outcome_log_error @outcome_call
  @outcome_mret @outcome_raise : outcome.

Lemma nonempty_Some v s : nonempty v = Some s ↔ v = Some s ∧ s ≠ EmptyString.
Proof.
  destruct v as [s'|]; simpl; [|split; [done|by intros [? _]]].
  case_decide as Hs; split.
  - done.
  - intros [[= ->] ?]. done.
  - intros [= ->]. done.
  - by intros [? _].
Qed.

Lemma nonempty_None v : nonempty v = None ↔ v = None ∨ v = Some EmptyString.
Proof.
  destruct v as [s'|]; simpl; [|split; [by left|done]].
  case_decide as Hs; split.
  - intros _. right. by rewrite Hs.
  - done.
  - done.
  - intros [?|[= ?]]; done.
Qed.

Section stages.
Context `{FileSystem} `{Cryptography} `{Etree} `{Hashlib}.

Lemma canonical_bytes_inr inherited element c :
  canonical_bytes inherited element = inr c ↔
    ∃ standalone,
      fromstring (tostring false inherited element) = inr standalone ∧
      tostring_c14n false false standalone = inr c.
Proof.
  unfold canonical_bytes.
  destruct (fromstring _) as [e|standalone]; split.
  - done.
  - by intros (? & ? & _).
  - eauto.
  - by intros (? & [= <-] & ?).
Qed.

Lemma load_pfx_inr logger pfx_path pfx_password key cert :
  outcome (load_pfx logger pfx_path pfx_password) = inr (key, cert) ↔
    ∃ pfx_data additional_certs,
      open_rb pfx_path = inr pfx_data ∧
      load_key_and_certificates pfx_data (password_bytes pfx_password)
        = inr (Some key, Some cert, additional_certs).
Proof.
  unfold load_pfx. rewrite outcome_log_info. split.
  - intros (pfx_data & Hopen & Hrest)%outcome_bind_inr.
    apply outcome_bind_inr in Hrest as (loaded & Hload & Hrest).
    autorewrite with outcome in Hopen, Hload.
    destruct loaded as [[[k|] [c|]] extra];
      autorewrite with outcome in Hrest; try done.
    injection Hrest as -> ->. eauto.
  - intros (pfx_data & extra & Hopen & Hload).
    apply outcome_bind_inr. exists pfx_data. split; [done|].
    apply outcome_bind_inr. eexists. split; [exact Hload|].
    by autorewrite with outcome.
Qed.

Lemma locate_inr logger tag_to_sign root i target inf_id :
  outcome (locate logger tag_to_sign root) = inr (i, target, inf_id) ↔
    find (clark NS_NFSE tag_to_sign) root = Some (i, target) ∧
    get target "Id" = Some inf_id ∧ inf_id ≠ EmptyString.
Proof.
  unfold locate. rewrite outcome_log_info.
  destruct (find _ root) as [[j t]|];
    [|autorewrite with outcome; split; [done|by intros [? _]]].
  destruct (nonempty (get t "Id")) as [s|] eqn:Hid.
  - apply nonempty_Some in Hid as [Hget Hne]. rewrite outcome_mret.
    split; [intros [= -> -> ->]; done|].
    intros ([= -> ->] & Hget' & _). congruence.
  - autorewrite with outcome. split; [done|].
    intros ([= -> ->] & Hget & Hne).
    apply nonempty_None in Hid as [?|?]; congruence.
Qed.

Lemma sign_target_inr logger key cert_b64 root i target inf_id r :
  outcome (sign_target logger key cert_b64 root i target inf_id) = inr r ↔
    ∃ target_c14n c14n_signed signature_raw,
      canonical_bytes (node_nsmap root) target = inr target_c14n ∧
      canonical_bytes [(None, NS_DS)]
        (SignedInfo inf_id (decode (b64encode (sha1 target_c14n))))
        = inr c14n_signed ∧
      sign key c14n_signed PKCS1v15 SHA1 = inr signature_raw ∧
      r = addnext root i
            (Signature
               (SignedInfo inf_id (decode (b64encode (sha1 target_c14n))))
               (decode (b64encode signature_raw)) cert_b64).
Proof.
  unfold sign_target. rewrite !outcome_log_info. split.
  - intros (tc & Htc & Hrest)%outcome_bind_inr.
    rewrite !outcome_log_info in Hrest.
    apply outcome_bind_inr in Hrest as (cs & Hcs & Hrest).
    apply outcome_bind_inr in Hrest as (raw & Hraw & Hrest).
    rewrite !outcome_log_info, outcome_mret in Hrest.
    autorewrite with outcome in Htc, Hcs, Hraw.
    injection Hrest as <-. by exists tc, cs, raw.
  - intros (tc & cs & raw & Htc & Hcs & Hraw & ->).
    apply outcome_bind_inr. exists tc. split; [done|].
    rewrite !outcome_log_info.
    apply outcome_bind_inr. exists cs. split; [done|].
    apply outcome_bind_inr. exists raw. split; [done|].
    by rewrite !outcome_log_info.
Qed.

End stages.

(** ** Successful calls *)

Section success.
Context `{FileSystem} `{Cryptography} `{Etree} `{Hashlib}.

Lemma assinar_xml_root_inr xml pfx_path pfx_password tag_to_sign logger r :
  outcome (assinar_xml_root xml pfx_path pfx_password tag_to_sign logger)
    = inr r ↔
    ∃ key cert root i target inf_id,
      outcome (load_pfx logger pfx_path pfx_password) = inr (key, cert) ∧
      fromstring (input_bytes xml) = inr root ∧
      outcome (locate logger tag_to_sign root) = inr (i, target, inf_id) ∧
      outcome
        (sign_target logger key
           (decode (b64encode (public_bytes_DER cert))) root i target inf_id)
        = inr r.
Proof.
  unfold assinar_xml_root. rewrite outcome_log_info. split.
  - intros ([key cert] & Hload & Hrest)%outcome_bind_inr.
    apply outcome_bind_inr in Hrest as (root & Hparse & Hrest).
    apply outcome_bind_inr in Hrest as ([[i target] inf_id] & Hloc & Hrest).
    exists key, cert, root, i, target, inf_id. by rewrite <-Hparse.
  - intros (key & cert & root & i & target & inf_id & Hload & Hparse & Hloc & Hs).
    apply outcome_bind_inr. exists (key, cert). split; [done|].
    apply outcome_bind_inr. exists root. split; [done|].
    apply outcome_bind_inr. by exists (i, target, inf_id).
Qed.

Lemma assinar_xml_inr xml pfx_path pfx_password tag_to_sign logger xml_final :
  outcome (assinar_xml xml pfx_path pfx_password tag_to_sign logger)
    = inr xml_final ↔
    ∃ r,
      outcome (assinar_xml_root xml pfx_path pfx_password tag_to_sign logger)
        = inr r ∧
      xml_final = decode (tostring true [] r).
Proof.
  unfold assinar_xml. split.
  - intros (r & Hr & Hrest)%outcome_bind_inr.
    rewrite outcome_log_info, outcome_mret in Hrest.
    injection Hrest as <-. by exists r.
  - intros (r & Hr & ->). apply outcome_bind_inr. exists r.
    by rewrite outcome_log_info.
Qed.

(** Everything a successful call went through, down to the library calls. *)
Lemma assinar_xml_success xml pfx_path pfx_password tag_to_sign logger xml_final :
  outcome (assinar_xml xml pfx_path pfx_password tag_to_sign logger)
    = inr xml_final →
  ∃ pfx_data key cert additional_certs root i target inf_id
    target_c14n c14n_signed signature_raw,
    open_rb pfx_path = inr pfx_data ∧
    load_key_and_certificates pfx_data (password_bytes pfx_password)
      = inr (Some key, Some cert, additional_certs) ∧
    fromstring (input_bytes xml) = inr root ∧
    find (clark NS_NFSE tag_to_sign) root = Some (i, target) ∧
    get target "Id" = Some inf_id ∧ inf_id ≠ EmptyString ∧
    canonical_bytes (node_nsmap root) target = inr target_c14n ∧
    canonical_bytes [(None, NS_DS)]
      (SignedInfo inf_id (decode (b64encode (sha1 target_c14n))))
      = inr c14n_signed ∧
    sign key c14n_signed PKCS1v15 SHA1 = inr signature_raw ∧
    outcome (assinar_xml_root xml pfx_path pfx_password tag_to_sign logger) =
      inr (addnext root i
             (Signature
                (SignedInfo inf_id (decode (b64encode (sha1 target_c14n))))
                (decode (b64encode signature_raw))
                (decode (b64encode (public_bytes_DER cert))))) ∧
    xml_final =
      decode
        (tostring true []
           (addnext root i
              (Signature
                 (SignedInfo inf_id (decode (b64encode (sha1 target_c14n))))
                 (decode (b64encode signature_raw))
                 (decode (b64encode (public_bytes_DER cert)))))).
Proof.
  intros (r & Hr & ->)%assinar_xml_inr. pose proof Hr as Hroot.
  apply assinar_xml_root_inr in Hr
    as (key & cert & root & i & target & inf_id & Hload & Hparse & Hloc & Hs).
  apply load_pfx_inr in Hload as (pfx_data & extra & Hopen & Hload).
  apply locate_inr in Hloc as (Hfind & Hget & Hne).
  apply sign_target_inr in Hs as (tc & cs & raw & Htc & Hcs & Hraw & ->).
  by exists pfx_data, key, cert, extra, root, i, target, inf_id, tc, cs, raw.
Qed.

End success.

Lemma find_Some tag n i c :
  find tag n = Some (i, c) ↔
    node_children n !! i = Some c ∧ node_tag c = Some tag ∧
    ∀ j d, node_children n !! j = Some d → j < i → node_tag d ≠ Some tag.
Proof. unfold find. apply (list_find_Some (λ c, node_tag c = Some tag)). Qed.

Lemma find_None tag n :
  find tag n = None ↔ Forall (λ c, node_tag c ≠ Some tag) (node_children n).
Proof. unfold find. apply (list_find_None (λ c, node_tag c = Some tag)). Qed.

(** ** [addnext] on the children of the parent *)

Lemma addnext_children root i target e :
  node_children root !! i = Some target →
  node_children (addnext root i e) =
    take (S i) (node_children root) ++ e :: drop (S i) (node_children root).
Proof. destruct root; simpl; [done|by rewrite lookup_nil..]. Qed.

Lemma addnext_nsmap root i e : node_nsmap (addnext root i e) = node_nsmap root.
Proof. by destruct root. Qed.

Lemma addnext_lookup_le root i target e j :
  node_children root !! i = Some target → j ≤ i →
  node_children (addnext root i e) !! j = node_children root !! j.
Proof.
  intros Htarget Hj. rewrite (addnext_children _ _ _ _ Htarget).
  apply lookup_lt_Some in Htarget.
  rewrite lookup_app_l by (rewrite length_take; lia).
  apply lookup_take_lt. lia.
Qed.

Lemma addnext_lookup_next root i target e :
  node_children root !! i = Some target →
  node_children (addnext root i e) !! S i = Some e.
Proof.
  intros Htarget. rewrite (addnext_children _ _ _ _ Htarget).
  apply lookup_lt_Some in Htarget.
  rewrite lookup_app_r by (rewrite length_take; lia).
  rewrite length_take.
  by replace (S i - S i `min` length (node_children root)) with 0 by lia.
Qed.

Lemma addnext_lookup_gt root i target e j :
  node_children root !! i = Some target → i < j →
  node_children (addnext root i e) !! S j = node_children root !! j.
Proof.
  intros Htarget Hj. rewrite (addnext_children _ _ _ _ Htarget).
  apply lookup_lt_Some in Htarget.
  rewrite lookup_app_r by (rewrite length_take; lia).
  rewrite length_take.
  replace (S j - S i `min` length (node_children root)) with (S (j - S i)) by lia.
  simpl. rewrite lookup_drop. f_equal. lia.
Qed.

Lemma addnext_length root i target e :
  node_children root !! i = Some target →
  length (node_children (addnext root i e)) = S (length (node_children root)).
Proof.
  intros Htarget. rewrite (addnext_children _ _ _ _ Htarget), length_app. simpl.
  rewrite length_take, length_drop.
  apply lookup_lt_Some in Htarget. lia.
Qed.

(** Looking the target up again in the tree that [addnext] returns finds it
    where it was. *)
Lemma find_addnext tag root i target e :
  find tag root = Some (i, target) →
  find tag (addnext root i e) = Some (i, target).
Proof.
  intros (Htarget & Htag & Hfirst)%find_Some. apply find_Some. split_and!.
  - by rewrite (addnext_lookup_le _ _ _ _ _ Htarget).
  - done.
  - intros j d Hd Hj.
    rewrite (addnext_lookup_le _ _ _ _ _ Htarget) in Hd by lia. eauto.
Qed.

(** ** The signature of a successful call *)

Lemma DigestValue_text_Signature inf_id digest_b64 signature_b64 cert_b64 :
  DigestValue_text (Signature (SignedInfo inf_id digest_b64) signature_b64 cert_b64)
    = Some digest_b64.
Proof. by vm_compute. Qed.

Lemma SignatureValue_text_Signature inf_id digest_b64 signature_b64 cert_b64 :
  SignatureValue_text (Signature (SignedInfo inf_id digest_b64) signature_b64 cert_b64)
    = Some signature_b64.
Proof. by vm_compute. Qed.

Section claims.
Context `{FileSystem} `{Cryptography} `{Etree} `{Hashlib}.

(** C1. For a [tag_to_sign] that is a name: in the document a successful
    call returns, the [DigestValue] of the [Reference] of the added
    [Signature] is the base64 encoding of the SHA-1 hash of the canonical
    form of the signed element: Canonical XML 1.0, inclusive
    ([exclusive=False]), without comments ([with_comments=False]), of the
    element taken as a document of its own (serialised with the namespace
    declarations it inherits and parsed again, lines 95-97). *)
Theorem digest_value_correct xml pfx_path pfx_password tag_to_sign logger xml_final :
  xml_name tag_to_sign = true →
  outcome (assinar_xml xml pfx_path pfx_password tag_to_sign logger)
    = inr xml_final →
  ∃ root i target standalone target_c14n signature,
    fromstring (input_bytes xml) = inr root ∧
    find (clark NS_NFSE tag_to_sign) root = Some (i, target) ∧
    fromstring (tostring false (node_nsmap root) target) = inr standalone ∧
    tostring_c14n false false standalone = inr target_c14n ∧
    outcome (assinar_xml_root xml pfx_path pfx_password tag_to_sign logger)
      = inr (addnext root i signature) ∧
    xml_final = decode (tostring true [] (addnext root i signature)) ∧
    node_tag signature = Some (clark NS_DS "Signature") ∧
    DigestValue_text signature = Some (decode (b64encode (sha1 target_c14n))).
Proof.
  intros _ (pfx_data & key & cert & extra & root & i & target & inf_id & tc & cs
          & raw & _ & _ & Hparse & Hfind & _ & _ & Htc & _ & _ & Hroot & ->)
    %assinar_xml_success.
  apply canonical_bytes_inr in Htc as (standalone & Hre & Hc14n).
  eexists root, i, target, standalone, tc, _.
  split_and!; [done|done|done|done|exact Hroot|done|done|].
  apply DigestValue_text_Signature.
Qed.

(** C2. For a [tag_to_sign] that is a name: the [Signature] a successful
    call adds has exactly the children [SignedInfo], [SignatureValue],
    [KeyInfo], one of each; [KeyInfo] holds one [X509Data] holding one
    [X509Certificate]; [SignedInfo] has one [Reference], whose [URI] is [#]
    followed by the [Id] of the signed element, whatever that non-empty [Id]
    is, and whose [Transforms] are exactly two, enveloped-signature and then
    C14N 1.0. *)
Theorem signature_structure xml pfx_path pfx_password tag_to_sign logger xml_final :
  xml_name tag_to_sign = true →
  outcome (assinar_xml xml pfx_path pfx_password tag_to_sign logger)
    = inr xml_final →
  ∃ root i target inf_id signature signed_info signature_value key_info
    x509_data x509_certificate reference transforms,
    fromstring (input_bytes xml) = inr root ∧
    find (clark NS_NFSE tag_to_sign) root = Some (i, target) ∧
    get target "Id" = Some inf_id ∧
    outcome (assinar_xml_root xml pfx_path pfx_password tag_to_sign logger)
      = inr (addnext root i signature) ∧
    xml_final = decode (tostring true [] (addnext root i signature)) ∧
    node_tag signature = Some (clark NS_DS "Signature") ∧
    node_children signature = [signed_info; signature_value; key_info] ∧
    findall (clark NS_DS "SignedInfo") signature = [signed_info] ∧
    findall (clark NS_DS "SignatureValue") signature = [signature_value] ∧
    findall (clark NS_DS "KeyInfo") signature = [key_info] ∧
    node_children key_info = [x509_data] ∧
    node_tag x509_data = Some (clark NS_DS "X509Data") ∧
    node_children x509_data = [x509_certificate] ∧
    node_tag x509_certificate = Some (clark NS_DS "X509Certificate") ∧
    findall (clark NS_DS "Reference") signed_info = [reference] ∧
    get reference "URI" = Some ("#" +:+ inf_id) ∧
    findall (clark NS_DS "Transforms") reference = [transforms] ∧
    (λ t, (node_tag t, get t "Algorithm")) <$> node_children transforms =
      [ (Some (clark NS_DS "Transform"), Some ALG_ENVELOPED);
        (Some (clark NS_DS "Transform"), Some ALG_C14N) ].
Proof.
  intros _ (pfx_data & key & cert & extra & root & i & target & inf_id & tc & cs
          & raw & _ & _ & Hparse & Hfind & Hget & _ & _ & _ & _ & Hroot & ->)
    %assinar_xml_success.
  eexists root, i, target, inf_id, _, _, _, _, _, _, _, _.
  split_and!; [done|done|done|exact Hroot|reflexivity|..]; by vm_compute.
Qed.

(** C3. For a [tag_to_sign] that is a name, signing leaves the signed
    element as it was: looked up again in the tree that a successful call
    serialises, the target is the same subtree at the same position under
    the same inherited namespace declarations, so canonicalising and hashing
    it again gives the [DigestValue] that the [Signature] next to it
    carries. *)
Theorem signing_preserves_target xml pfx_path pfx_password tag_to_sign logger xml_final :
  xml_name tag_to_sign = true →
  outcome (assinar_xml xml pfx_path pfx_password tag_to_sign logger)
    = inr xml_final →
  ∃ root signed_root i target target_c14n signature,
    fromstring (input_bytes xml) = inr root ∧
    find (clark NS_NFSE tag_to_sign) root = Some (i, target) ∧
    canonical_bytes (node_nsmap root) target = inr target_c14n ∧
    outcome (assinar_xml_root xml pfx_path pfx_password tag_to_sign logger)
      = inr signed_root ∧
    xml_final = decode (tostring true [] signed_root) ∧
    find (clark NS_NFSE tag_to_sign) signed_root = Some (i, target) ∧
    node_nsmap signed_root = node_nsmap root ∧
    canonical_bytes (node_nsmap signed_root) target = inr target_c14n ∧
    node_children signed_root !! S i = Some signature ∧
    DigestValue_text signature = Some (decode (b64encode (sha1 target_c14n))).
Proof.
  intros _ (pfx_data & key & cert & extra & root & i & target & inf_id & tc & cs
          & raw & _ & _ & Hparse & Hfind & _ & _ & Htc & _ & _ & Hroot & ->)
    %assinar_xml_success.
  pose proof Hfind as (Htarget & _)%find_Some.
  eexists root, _, i, target, tc, _.
  split_and!; [done|done|done|exact Hroot|reflexivity|..].
  - by apply find_addnext.
  - apply addnext_nsmap.
  - by rewrite addnext_nsmap.
  - by eapply addnext_lookup_next.
  - apply DigestValue_text_Signature.
Qed.

(** C4. For a [tag_to_sign] that is a name: in the tree that a successful
    call serialises, the [Signature] element is the child of the root that
    directly follows the signed element: the target stays where it was
    found, unchanged, the [Signature] takes the next position, the children
    before the target keep their positions and those after it move up by
    one; one element was added and none removed. *)
Theorem signature_placement xml pfx_path pfx_password tag_to_sign logger xml_final :
  xml_name tag_to_sign = true →
  outcome (assinar_xml xml pfx_path pfx_password tag_to_sign logger)
    = inr xml_final →
  ∃ root signed_root i target signature,
    fromstring (input_bytes xml) = inr root ∧
    find (clark NS_NFSE tag_to_sign) root = Some (i, target) ∧
    outcome (assinar_xml_root xml pfx_path pfx_password tag_to_sign logger)
      = inr signed_root ∧
    xml_final = decode (tostring true [] signed_root) ∧
    node_tag signature = Some (clark NS_DS "Signature") ∧
    node_children signed_root =
      take (S i) (node_children root) ++ signature :: drop (S i) (node_children root) ∧
    node_children signed_root !! i = Some target ∧
    node_children signed_root !! S i = Some signature ∧
    (∀ j, j < i → node_children signed_root !! j = node_children root !! j) ∧
    (∀ j, i < j → node_children signed_root !! S j = node_children root !! j) ∧
    length (node_children signed_root) = S (length (node_children root)).
Proof.
  intros _ (pfx_data & key & cert & extra & root & i & target & inf_id & tc & cs
          & raw & _ & _ & Hparse & Hfind & _ & _ & _ & _ & _ & Hroot & ->)
    %assinar_xml_success.
  pose proof Hfind as (Htarget & _)%find_Some.
  set (signature :=
         Signature (SignedInfo inf_id (decode (b64encode (sha1 tc))))
           (decode (b64encode raw)) (decode (b64encode (public_bytes_DER cert)))).
  exists root, (addnext root i signature), i, target, signature.
  split_and!; [done|done|exact Hroot|reflexivity|by vm_compute|..].
  - by eapply addnext_children.
  - by rewrite (addnext_lookup_le _ _ _ _ _ Htarget).
  - by eapply addnext_lookup_next.
  - intros j Hj. apply (addnext_lookup_le _ _ _ _ _ Htarget). lia.
  - intros j Hj. by apply (addnext_lookup_gt _ _ _ _ _ Htarget).
  - by eapply addnext_length.
Qed.

End claims.

(** ** Outcomes without the log *)

Section outcomes.
Context `{FileSystem} `{Cryptography} `{Etree} `{Hashlib}.

Lemma outcome_load_pfx logger pfx_path pfx_password :
  outcome (load_pfx logger pfx_path pfx_password) =
    match open_rb pfx_path with
    | inl e => inl e
    | inr pfx_data =>
        match load_key_and_certificates pfx_data (password_bytes pfx_password) with
        | inl e => inl e
        | inr (Some key, Some cert, _) => inr (key, cert)
        | inr _ => inl (ValueError msg_pfx_invalido)
        end
    end.
Proof.
  unfold load_pfx. rewrite outcome_log_info, outcome_bind, outcome_call.
  destruct (open_rb pfx_path) as [e|pfx_data]; [done|].
  rewrite outcome_bind, outcome_call.
  destruct (load_key_and_certificates _ _) as [e|[[[key|] [cert|]] extra]];
    by autorewrite with outcome.
Qed.

Lemma outcome_locate logger tag_to_sign root :
  outcome (locate logger tag_to_sign root) =
    match find (clark NS_NFSE tag_to_sign) root with
    | None => inl (ValueError (msg_nao_encontrado tag_to_sign))
    | Some (i, target) =>
        match nonempty (get target "Id") with
        | None => inl (ValueError (msg_id_ausente tag_to_sign))
        | Some inf_id => inr (i, target, inf_id)
        end
    end.
Proof.
  unfold locate. rewrite outcome_log_info.
  destruct (find _ root) as [[i target]|]; [|by autorewrite with outcome].
  destruct (nonempty _); by autorewrite with outcome.
Qed.

Lemma outcome_sign_target logger key cert_b64 root i target inf_id :
  outcome (sign_target logger key cert_b64 root i target inf_id) =
    match canonical_bytes (node_nsmap root) target with
    | inl e => inl e
    | inr target_c14n =>
        let signed_info :=
          SignedInfo inf_id (decode (b64encode (sha1 target_c14n))) in
        match canonical_bytes [(None, NS_DS)] signed_info with
        | inl e => inl e
        | inr c14n_signed =>
            match sign key c14n_signed PKCS1v15 SHA1 with
            | inl e => inl e
            | inr signature_raw =>
                inr (addnext root i
                       (Signature signed_info
                          (decode (b64encode signature_raw)) cert_b64))
            end
        end
    end.
Proof.
  unfold sign_target. rewrite !outcome_log_info, outcome_bind, outcome_call.
  destruct (canonical_bytes (node_nsmap root) target) as [e|tc]; [done|].
  rewrite !outcome_log_info, outcome_bind, outcome_call. cbv zeta.
  destruct (canonical_bytes [(None, NS_DS)] _) as [e|cs]; [done|].
  rewrite outcome_bind, outcome_call.
  destruct (sign key cs PKCS1v15 SHA1) as [e|raw]; [done|].
  by rewrite !outcome_log_info.
Qed.

Lemma outcome_assinar_xml_root xml pfx_path pfx_password tag_to_sign logger :
  outcome (assinar_xml_root xml pfx_path pfx_password tag_to_sign logger) =
    match outcome (load_pfx logger pfx_path pfx_password) with
    | inl e => inl e
    | inr (key, cert) =>
        match fromstring (input_bytes xml) with
        | inl e => inl e
        | inr root =>
            match outcome (locate logger tag_to_sign root) with
            | inl e => inl e
            | inr (i, target, inf_id) =>
                outcome
                  (sign_target logger key
                     (decode (b64encode (public_bytes_DER cert)))
                     root i target inf_id)
            end
        end
    end.
Proof.
  unfold assinar_xml_root. rewrite outcome_log_info, outcome_bind.
  destruct (outcome (load_pfx _ _ _)) as [e|[key cert]]; [done|].
  rewrite outcome_bind, outcome_call.
  destruct (fromstring _) as [e|root]; [done|].
  rewrite outcome_bind.
  by destruct (outcome (locate _ _ _)) as [e|[[i target] inf_id]].
Qed.

Lemma outcome_assinar_xml xml pfx_path pfx_password tag_to_sign logger :
  outcome (assinar_xml xml pfx_path pfx_password tag_to_sign logger) =
    match outcome (assinar_xml_root xml pfx_path pfx_password tag_to_sign logger) with
    | inl e => inl e
    | inr r => inr (decode (tostring true [] r))
    end.
Proof.
  unfold assinar_xml. rewrite outcome_bind.
  destruct (outcome (assinar_xml_root _ _ _ _ _)); [done|].
  by rewrite outcome_log_info.
Qed.

End outcomes.

Lemma msg_nao_encontrado_ne_id_ausente tag tag' :
  msg_nao_encontrado tag ≠ msg_id_ausente tag'.
Proof. unfold msg_nao_encontrado, msg_id_ausente. simpl. discriminate. Qed.

Lemma encode_nil s : encode s = [] → s = EmptyString.
Proof. by destruct s. Qed.

(** ** Determinism *)

(** C5. Two invocations do not find the world in the same state: the random
    source of the cryptography library has moved on, and the file system may
    have changed. They run against two implementations of the two
    interfaces. What the standards fix is the same in both: the PKCS#12
    container is decoded the same way, and RSASSA-PKCS1-v1_5 with SHA-1
    gives the same signature for the same key and data (it uses no salt);
    nothing is assumed of the other paddings, which may sign differently
    from one call to the next. When the PFX file holds the same bytes at
    both invocations, the two calls on one document end the same way and
    return the same tree and the same text, so the same [Signature] with the
    same [DigestValue] and [SignatureValue]: [PKCS1v15] and [SHA1] are what
    line 154 asks for, and nothing else in the call is left to the
    library's random source. *)
Theorem signing_deterministic (files1 files2 : FileSystem)
    (library1 library2 : Cryptography) `{Etree} `{Hashlib}
    xml pfx_path pfx_password tag_to_sign logger :
  xml_name tag_to_sign = true →
  @open_rb files1 pfx_path = @open_rb files2 pfx_path →
  (∀ data password,
     @load_key_and_certificates library1 data password
     = @load_key_and_certificates library2 data password) →
  (∀ key data,
     @rsa_sign library1 key PKCS1v15 SHA1 data
     = @rsa_sign library2 key PKCS1v15 SHA1 data) →
  outcome (@assinar_xml_root files1 library1 _ _ xml pfx_path pfx_password
             tag_to_sign logger)
    = outcome (@assinar_xml_root files2 library2 _ _ xml pfx_path pfx_password
                 tag_to_sign logger) ∧
  outcome (@assinar_xml files1 library1 _ _ xml pfx_path pfx_password
             tag_to_sign logger)
    = outcome (@assinar_xml files2 library2 _ _ xml pfx_path pfx_password
                 tag_to_sign logger) ∧
  ∀ xml_final,
    outcome (@assinar_xml files1 library1 _ _ xml pfx_path pfx_password
               tag_to_sign logger)
      = inr xml_final →
    ∃ root i signature digest_b64 signature_b64,
      outcome (@assinar_xml_root files1 library1 _ _ xml pfx_path pfx_password
                 tag_to_sign logger)
        = inr (addnext root i signature) ∧
      outcome (@assinar_xml_root files2 library2 _ _ xml pfx_path pfx_password
                 tag_to_sign logger)
        = inr (addnext root i signature) ∧
      DigestValue_text signature = Some digest_b64 ∧
      SignatureValue_text signature = Some signature_b64.
Proof.
  intros _ Hpfx Hload Hsign.
  assert (∀ key data,
            @sign library1 key data PKCS1v15 SHA1
            = @sign library2 key data PKCS1v15 SHA1) as Hkey.
  { intros [k| | | |] data; simpl; [apply Hsign|done..]. }
  assert (outcome (@assinar_xml_root files1 library1 _ _ xml pfx_path
                     pfx_password tag_to_sign logger)
          = outcome (@assinar_xml_root files2 library2 _ _ xml pfx_path
                       pfx_password tag_to_sign logger)) as Hroot.
  { rewrite !outcome_assinar_xml_root, !outcome_load_pfx, Hpfx.
    destruct (@open_rb files2 pfx_path) as [e|pfx_data]; [done|].
    rewrite Hload.
    destruct (load_key_and_certificates _ _) as [e|[[[key|] [cert|]] extra]];
      try done.
    destruct (fromstring _) as [e|root]; [done|].
    rewrite !outcome_locate.
    destruct (find _ root) as [[i target]|]; [|done].
    destruct (nonempty _) as [inf_id|]; [|done].
    rewrite !outcome_sign_target.
    destruct (canonical_bytes (node_nsmap root) target) as [e|tc]; [done|].
    cbv zeta.
    destruct (canonical_bytes [(None, NS_DS)] _) as [e|cs]; [done|].
    by rewrite Hkey. }
  split; [exact Hroot|]. split; [by rewrite !outcome_assinar_xml, Hroot|].
  intros xml_final Hrun. rewrite <- Hroot.
  apply assinar_xml_success in Hrun
    as (pfx_data & key & cert & extra & root & i & target & inf_id & tc & cs
        & raw & _ & _ & _ & _ & _ & _ & _ & _ & _ & Hrun & _).
  eexists root, i, _, _, _. split; [exact Hrun|]. split; [exact Hrun|].
  split; [apply DigestValue_text_Signature|apply SignatureValue_text_Signature].
Qed.

(** ** The locator *)

(** C6, as the code has it, for a [tag_to_sign] that is a name. The
    locator looks at the children of the root only, neither at the root nor
    at what lies below the children. What it returns is the first child, in
    document order, whose tag is [{NS_NFSE}tag_to_sign], with its [Id]; what
    it does is decided by that first child alone, also when that one has no
    [Id] and a later one has; it gets past the "not found" error exactly
    when the root has such a child; and when no child has the tag it ends
    with "not found", whatever the children hold. *)
Theorem locator_searches_children tag_to_sign root logger :
  xml_name tag_to_sign = true →
  (∀ i target inf_id,
     outcome (locate logger tag_to_sign root) = inr (i, target, inf_id) →
     node_children root !! i = Some target ∧
     node_tag target = Some (clark NS_NFSE tag_to_sign) ∧
     (∀ j c, node_children root !! j = Some c → j < i →
             node_tag c ≠ Some (clark NS_NFSE tag_to_sign)) ∧
     get target "Id" = Some inf_id ∧ inf_id ≠ EmptyString) ∧
  (∀ i target,
     node_children root !! i = Some target →
     node_tag target = Some (clark NS_NFSE tag_to_sign) →
     (∀ j c, node_children root !! j = Some c → j < i →
             node_tag c ≠ Some (clark NS_NFSE tag_to_sign)) →
     outcome (locate logger tag_to_sign root) =
       match nonempty (get target "Id") with
       | Some inf_id => inr (i, target, inf_id)
       | None => inl (ValueError (msg_id_ausente tag_to_sign))
       end) ∧
  ((∃ c, c ∈ node_children root ∧ node_tag c = Some (clark NS_NFSE tag_to_sign)) ↔
     outcome (locate logger tag_to_sign root)
       ≠ inl (ValueError (msg_nao_encontrado tag_to_sign))) ∧
  ((∀ c, c ∈ node_children root →
         node_tag c ≠ Some (clark NS_NFSE tag_to_sign)) →
   outcome (locate logger tag_to_sign root)
     = inl (ValueError (msg_nao_encontrado tag_to_sign))).
Proof.
  intros _. split_and!.
  - intros i target inf_id (Hfind & Hget & Hne)%locate_inr.
    apply find_Some in Hfind as (Hi & Htag & Hfirst). by split_and!.
  - intros i target Hi Htag Hfirst. rewrite outcome_locate.
    assert (find (clark NS_NFSE tag_to_sign) root = Some (i, target)) as ->
      by by apply find_Some.
    by destruct (nonempty _).
  - rewrite outcome_locate. split.
    + intros (c & Hc & Htag).
      destruct (find _ root) as [[i target]|] eqn:Hfind.
      * destruct (nonempty _); [done|].
        intros Hmsg.
        apply (msg_nao_encontrado_ne_id_ausente tag_to_sign tag_to_sign).
        congruence.
      * apply find_None in Hfind. rewrite Forall_forall in Hfind.
        by destruct (Hfind c Hc).
    + destruct (find _ root) as [[i target]|] eqn:Hfind; [|done].
      intros _. apply find_Some in Hfind as (Hi & Htag & _).
      exists target. split; [|done]. by eapply list_elem_of_lookup_2.
  - intros Hnone. rewrite outcome_locate.
    assert (find (clark NS_NFSE tag_to_sign) root = None) as ->; [|done].
    apply find_None. by apply Forall_forall.
Qed.

Section failures.
Context `{FileSystem} `{Cryptography} `{Etree} `{Hashlib}.

(** C7. For a [tag_to_sign] that is a name, with the credential loaded and
    the document parsed: when no child of the root has the tag
    [{NS_NFSE}tag_to_sign] (in particular when no element of the document
    has it) the call raises
    [ValueError("Elemento <tag> não encontrado.")], and when the element
    found has no [Id] attribute or an empty one it raises
    [ValueError("Atributo Id ausente em <tag>.")]; either way the call
    returns nothing. *)
Theorem locator_errors xml pfx_path pfx_password tag_to_sign logger
    pfx_data key cert additional_certs root :
  xml_name tag_to_sign = true →
  open_rb pfx_path = inr pfx_data →
  load_key_and_certificates pfx_data (password_bytes pfx_password)
    = inr (Some key, Some cert, additional_certs) →
  fromstring (input_bytes xml) = inr root →
  (Forall (λ c, node_tag c ≠ Some (clark NS_NFSE tag_to_sign)) (node_children root) →
   outcome (assinar_xml xml pfx_path pfx_password tag_to_sign logger)
     = inl (ValueError (msg_nao_encontrado tag_to_sign))) ∧
  (∀ i target,
     find (clark NS_NFSE tag_to_sign) root = Some (i, target) →
     get target "Id" = None ∨ get target "Id" = Some EmptyString →
     outcome (assinar_xml xml pfx_path pfx_password tag_to_sign logger)
       = inl (ValueError (msg_id_ausente tag_to_sign))).
Proof.
  intros _ Hopen Hload Hparse.
  rewrite outcome_assinar_xml, outcome_assinar_xml_root, outcome_load_pfx,
    Hopen, Hload, Hparse, outcome_locate.
  split.
  - intros Hnone%find_None. by rewrite Hnone.
  - intros i target -> Hid%nonempty_None. by rewrite Hid.
Qed.

(** C8. For a [tag_to_sign] that is a name: when the PKCS#12 loader raises
    (a container it cannot decode, such as an empty file, or a password that
    does not open it) the call ends with that exception, and when the loader
    returns no private key or no certificate the call raises
    [ValueError("PFX inválido: ...")]. In both cases no credential comes out
    of step 1 and the whole run, log included, is the same for every
    [xml_input]: the call ends before the document is looked at. *)
Theorem invalid_credential pfx_path pfx_password tag_to_sign logger pfx_data :
  xml_name tag_to_sign = true →
  open_rb pfx_path = inr pfx_data →
  (∀ e,
     load_key_and_certificates pfx_data (password_bytes pfx_password) = inl e →
     outcome (load_pfx logger pfx_path pfx_password) = inl e ∧
     ∀ xml,
       assinar_xml xml pfx_path pfx_password tag_to_sign logger =
         Run
           (if logger then
              [ (INFO, "[NFSe Nacional] Iniciando assinatura de XML - Tag: "
                         +:+ tag_to_sign);
                (INFO, "[NFSe Nacional] Carregando certificado PFX: "
                         +:+ pfx_path) ]
            else [])
           (inl e)) ∧
  (∀ key cert additional_certs,
     load_key_and_certificates pfx_data (password_bytes pfx_password)
       = inr (key, cert, additional_certs) →
     key = None ∨ cert = None →
     outcome (load_pfx logger pfx_path pfx_password)
       = inl (ValueError msg_pfx_invalido) ∧
     ∀ xml,
       assinar_xml xml pfx_path pfx_password tag_to_sign logger =
         Run
           (if logger then
              [ (INFO, "[NFSe Nacional] Iniciando assinatura de XML - Tag: "
                         +:+ tag_to_sign);
                (INFO, "[NFSe Nacional] Carregando certificado PFX: "
                         +:+ pfx_path);
                (ERROR, "[NFSe Nacional] " +:+ msg_pfx_invalido) ]
            else [])
           (inl (ValueError msg_pfx_invalido))).
Proof.
  intros _ Hopen. split.
  - intros e Hload. split.
    + by rewrite outcome_load_pfx, Hopen, Hload.
    + intros xml.
      unfold assinar_xml, assinar_xml_root, load_pfx, mbind, M_mbind, M_bind.
      simpl. rewrite Hopen. simpl. rewrite Hload. simpl.
      by destruct logger.
  - intros key cert extra Hload Hnone. split.
    + rewrite outcome_load_pfx, Hopen, Hload.
      by destruct Hnone as [-> | ->]; [|destruct key].
    + intros xml.
      unfold assinar_xml, assinar_xml_root, load_pfx, mbind, M_mbind, M_bind.
      simpl. rewrite Hopen. simpl. rewrite Hload. simpl.
      by destruct Hnone as [-> | ->]; [destruct cert|destruct key];
        destruct logger.
Qed.

(** C9, as the code has it, for a [tag_to_sign] that is a name. The call
    makes no check of the key of its
    own: once the digest is computed and [SignedInfo] canonicalised it
    calls [private_key.sign(c14n_signed, PKCS1v15(), SHA1())], and the
    outcome of the call is decided there: an exception raised by [sign]
    ends the call unchanged, and nothing is returned; for a key that is
    not an RSA key that exception is the [TypeError] of a call with the
    wrong number of arguments. *)
Theorem sign_call_decides xml pfx_path pfx_password tag_to_sign logger
    pfx_data key cert additional_certs root i target inf_id
    target_c14n c14n_signed :
  xml_name tag_to_sign = true →
  open_rb pfx_path = inr pfx_data →
  load_key_and_certificates pfx_data (password_bytes pfx_password)
    = inr (Some key, Some cert, additional_certs) →
  fromstring (input_bytes xml) = inr root →
  find (clark NS_NFSE tag_to_sign) root = Some (i, target) →
  get target "Id" = Some inf_id → inf_id ≠ EmptyString →
  canonical_bytes (node_nsmap root) target = inr target_c14n →
  canonical_bytes [(None, NS_DS)]
    (SignedInfo inf_id (decode (b64encode (sha1 target_c14n))))
    = inr c14n_signed →
  outcome (assinar_xml xml pfx_path pfx_password tag_to_sign logger) =
    match sign key c14n_signed PKCS1v15 SHA1 with
    | inl e => inl e
    | inr signature_raw =>
        inr (decode
               (tostring true []
                  (addnext root i
                     (Signature
                        (SignedInfo inf_id (decode (b64encode (sha1 target_c14n))))
                        (decode (b64encode signature_raw))
                        (decode (b64encode (public_bytes_DER cert)))))))
    end
  ∧ ((∀ k, key ≠ RSAPrivateKey k) →
     ∃ msg,
       sign key c14n_signed PKCS1v15 SHA1 = inl (TypeError msg) ∧
       outcome (assinar_xml xml pfx_path pfx_password tag_to_sign logger)
         = inl (TypeError msg)).
Proof.
  intros _ Hopen Hload Hparse Hfind Hget Hne Htc Hcs.
  assert (nonempty (get target "Id") = Some inf_id) as Hid
    by by apply nonempty_Some.
  assert (outcome (assinar_xml xml pfx_path pfx_password tag_to_sign logger) =
    match sign key c14n_signed PKCS1v15 SHA1 with
    | inl e => inl e
    | inr signature_raw =>
        inr (decode
               (tostring true []
                  (addnext root i
                     (Signature
                        (SignedInfo inf_id (decode (b64encode (sha1 target_c14n))))
                        (decode (b64encode signature_raw))
                        (decode (b64encode (public_bytes_DER cert)))))))
    end) as Hout.
  { rewrite outcome_assinar_xml, outcome_assinar_xml_root, outcome_load_pfx,
      Hopen, Hload, Hparse, outcome_locate, Hfind, Hid, outcome_sign_target,
      Htc. cbv zeta. rewrite Hcs.
    by destruct (sign key c14n_signed PKCS1v15 SHA1). }
  split; [done|]. intros Hkey. rewrite Hout.
  destruct key as [k| | | |]; [by destruct (Hkey k)|..]; by eexists.
Qed.

End failures.

(** ** The password *)

(** C10. For a [tag_to_sign] that is a name, an empty password and no
    password are the same call: both reach the PKCS#12 loader as [None], so
    the two runs agree, log and outcome, and the loader is never given an
    empty password. *)
Theorem empty_password_is_no_password `{FileSystem} `{Cryptography} `{Etree} `{Hashlib}
    xml pfx_path tag_to_sign logger :
  xml_name tag_to_sign = true →
  password_bytes (Some EmptyString) = None ∧
  password_bytes None = None ∧
  (∀ pfx_password, password_bytes pfx_password ≠ Some []) ∧
  assinar_xml xml pfx_path (Some EmptyString) tag_to_sign logger
    = assinar_xml xml pfx_path None tag_to_sign logger.
Proof.
  intros _. split_and!; [done|done| |done].
  intros [s|]; simpl; [|done]. case_decide as Hs; [done|].
  intros [= Hnil%encode_nil]. done.
Qed.

(** ** The theorems at work on the demonstration documents *)

Import Demo.

Lemma digest_value_correct_witness :
  outcome (assinar_xml (Str dps_xml) "rsa.pfx" (Some "segredo") "infDPS" true)
    = inr signed_xml ∧
  ∃ root i target standalone target_c14n signature,
    fromstring (input_bytes (Str dps_xml)) = inr root ∧
    find (clark NS_NFSE "infDPS") root = Some (i, target) ∧
    fromstring (tostring false (node_nsmap root) target) = inr standalone ∧
    tostring_c14n false false standalone = inr target_c14n ∧
    outcome (assinar_xml_root (Str dps_xml) "rsa.pfx" (Some "segredo") "infDPS" true)
      = inr (addnext root i signature) ∧
    signed_xml = decode (tostring true [] (addnext root i signature)) ∧
    node_tag signature = Some (clark NS_DS "Signature") ∧
    DigestValue_text signature = Some (decode (b64encode (sha1 target_c14n))).
Proof.
  assert (outcome (assinar_xml (Str dps_xml) "rsa.pfx" (Some "segredo") "infDPS" true)
            = inr signed_xml) as Hrun by (vm_compute; reflexivity).
  split; [exact Hrun|].
  exact (digest_value_correct (Str dps_xml) "rsa.pfx" (Some "segredo") "infDPS"
           true signed_xml eq_refl Hrun).
Defined.

Lemma signature_structure_witness :
  outcome (assinar_xml (Bytes (encode dps_xml)) "rsa.pfx" (Some "segredo") "infDPS" false)
    = inr signed_xml ∧
  ∃ root i target inf_id signature signed_info signature_value key_info
    x509_data x509_certificate reference transforms,
    fromstring (input_bytes (Bytes (encode dps_xml))) = inr root ∧
    find (clark NS_NFSE "infDPS") root = Some (i, target) ∧
    get target "Id" = Some inf_id ∧
    outcome (assinar_xml_root (Bytes (encode dps_xml)) "rsa.pfx" (Some "segredo") "infDPS" false)
      = inr (addnext root i signature) ∧
    signed_xml = decode (tostring true [] (addnext root i signature)) ∧
    node_tag signature = Some (clark NS_DS "Signature") ∧
    node_children signature = [signed_info; signature_value; key_info] ∧
    findall (clark NS_DS "SignedInfo") signature = [signed_info] ∧
    findall (clark NS_DS "SignatureValue") signature = [signature_value] ∧
    findall (clark NS_DS "KeyInfo") signature = [key_info] ∧
    node_children key_info = [x509_data] ∧
    node_tag x509_data = Some (clark NS_DS "X509Data") ∧
    node_children x509_data = [x509_certificate] ∧
    node_tag x509_certificate = Some (clark NS_DS "X509Certificate") ∧
    findall (clark NS_DS "Reference") signed_info = [reference] ∧
    get reference "URI" = Some ("#" +:+ inf_id) ∧
    findall (clark NS_DS "Transforms") reference = [transforms] ∧
    (λ t, (node_tag t, get t "Algorithm")) <$> node_children transforms =
      [ (Some (clark NS_DS "Transform"), Some ALG_ENVELOPED);
        (Some (clark NS_DS "Transform"), Some ALG_C14N) ].
Proof.
  assert (outcome (assinar_xml (Bytes (encode dps_xml)) "rsa.pfx" (Some "segredo")
                     "infDPS" false)
            = inr signed_xml) as Hrun by (vm_compute; reflexivity).
  split; [exact Hrun|].
  exact (signature_structure (Bytes (encode dps_xml)) "rsa.pfx" (Some "segredo")
           "infDPS" false signed_xml eq_refl Hrun).
Defined.

Lemma signing_preserves_target_witness :
  outcome (assinar_xml (Str dps_xml) "copia.pfx" (Some "segredo") "infDPS" true)
    = inr signed_xml ∧
  ∃ root signed_root i target target_c14n signature,
    fromstring (input_bytes (Str dps_xml)) = inr root ∧
    find (clark NS_NFSE "infDPS") root = Some (i, target) ∧
    canonical_bytes (node_nsmap root) target = inr target_c14n ∧
    outcome (assinar_xml_root (Str dps_xml) "copia.pfx" (Some "segredo") "infDPS" true)
      = inr signed_root ∧
    signed_xml = decode (tostring true [] signed_root) ∧
    find (clark NS_NFSE "infDPS") signed_root = Some (i, target) ∧
    node_nsmap signed_root = node_nsmap root ∧
    canonical_bytes (node_nsmap signed_root) target = inr target_c14n ∧
    node_children signed_root !! S i = Some signature ∧
    DigestValue_text signature = Some (decode (b64encode (sha1 target_c14n))).
Proof.
  assert (outcome (assinar_xml (Str dps_xml) "copia.pfx" (Some "segredo") "infDPS" true)
            = inr signed_xml) as Hrun by (vm_compute; reflexivity).
  split; [exact Hrun|].
  exact (signing_preserves_target (Str dps_xml) "copia.pfx" (Some "segredo")
           "infDPS" true signed_xml eq_refl Hrun).
Defined.

Lemma signature_placement_witness :
  outcome (assinar_xml (Str dps_xml) "rsa.pfx" (Some "segredo") "infDPS" false)
    = inr signed_xml ∧
  ∃ root signed_root i target signature,
    fromstring (input_bytes (Str dps_xml)) = inr root ∧
    find (clark NS_NFSE "infDPS") root = Some (i, target) ∧
    outcome (assinar_xml_root (Str dps_xml) "rsa.pfx" (Some "segredo") "infDPS" false)
      = inr signed_root ∧
    signed_xml = decode (tostring true [] signed_root) ∧
    node_tag signature = Some (clark NS_DS "Signature") ∧
    node_children signed_root =
      take (S i) (node_children root) ++ signature :: drop (S i) (node_children root) ∧
    node_children signed_root !! i = Some target ∧
    node_children signed_root !! S i = Some signature ∧
    (∀ j, j < i → node_children signed_root !! j = node_children root !! j) ∧
    (∀ j, i < j → node_children signed_root !! S j = node_children root !! j) ∧
    length (node_children signed_root) = S (length (node_children root)).
Proof.
  assert (outcome (assinar_xml (Str dps_xml) "rsa.pfx" (Some "segredo") "infDPS" false)
            = inr signed_xml) as Hrun by (vm_compute; reflexivity).
  split; [exact Hrun|].
  exact (signature_placement (Str dps_xml) "rsa.pfx" (Some "segredo") "infDPS"
           false signed_xml eq_refl Hrun).
Defined.

Lemma signing_deterministic_witness :
  @rsa_sign cryptography (encode "rsa key") PSS SHA1 (encode "abc")
    ≠ @rsa_sign cryptography_later (encode "rsa key") PSS SHA1 (encode "abc") ∧
  @open_rb files "rsa.pfx" = @open_rb other_files "rsa.pfx" ∧
  outcome (@assinar_xml files cryptography _ _ (Str dps_xml) "rsa.pfx"
             (Some "segredo") "infDPS" true)
    = inr signed_xml ∧
  outcome (@assinar_xml other_files cryptography_later _ _ (Str dps_xml)
             "rsa.pfx" (Some "segredo") "infDPS" true)
    = inr signed_xml.
Proof.
  assert (outcome (@assinar_xml files cryptography _ _ (Str dps_xml) "rsa.pfx"
                     (Some "segredo") "infDPS" true)
          = inr signed_xml) as Hrun by (vm_compute; reflexivity).
  split; [vm_compute; discriminate|]. split; [reflexivity|].
  split; [exact Hrun|]. rewrite <- Hrun. symmetry.
  apply (signing_deterministic files other_files cryptography cryptography_later
           (Str dps_xml) "rsa.pfx" (Some "segredo") "infDPS" true eq_refl
           eq_refl);
    intros; reflexivity.
Defined.

Lemma locator_searches_children_witness :
  outcome (locate true "infDPS" dps) = inr (1, infDPS, "DPS330455a7Z") ∧
  node_children dps !! 1 = Some infDPS ∧
  outcome (locate true "infDPS" dps_sem_inf)
    = inl (ValueError (msg_nao_encontrado "infDPS")).
Proof.
  assert (outcome (locate true "infDPS" dps) = inr (1, infDPS, "DPS330455a7Z"))
    as Hrun by (vm_compute; reflexivity).
  split; [exact Hrun|]. split.
  - exact (proj1 (proj1 (locator_searches_children "infDPS" dps true eq_refl)
                    1 infDPS "DPS330455a7Z" Hrun)).
  - apply (proj2 (proj2 (proj2
             (locator_searches_children "infDPS" dps_sem_inf true eq_refl)))).
    intros c Hc. apply list_elem_of_singleton in Hc as ->. vm_compute.
    discriminate.
Defined.

Lemma empty_password_is_no_password_witness :
  assinar_xml (Str dps_xml) "rsa.pfx" (Some EmptyString) "infDPS" true
    = assinar_xml (Str dps_xml) "rsa.pfx" None "infDPS" true.
Proof.
  exact (proj2 (proj2 (proj2
           (empty_password_is_no_password (Str dps_xml) "rsa.pfx" "infDPS" true
              eq_refl)))).
Defined.

(** C6 as the specification words it fails on [lote]: the document holds an
    [infDPS] with an [Id], one level below the children of the root; the
    locator does not find it and the call ends with "not found". *)
Lemma locator_misses_descendant :
  fromstring (input_bytes (Str lote_xml)) = inr lote ∧
  (∃ d, d ∈ descendants lote ∧
        node_tag d = Some (clark NS_NFSE "infDPS") ∧
        get d "Id" = Some "DPS1") ∧
  find (clark NS_NFSE "infDPS") lote = None ∧
  outcome (assinar_xml (Str lote_xml) "rsa.pfx" (Some "segredo") "infDPS" true)
    = inl (ValueError "Elemento <infDPS> não encontrado.").
Proof.
  split_and!.
  - vm_compute. reflexivity.
  - exists (Element (nfse "infDPS") [("Id", "DPS1")] [] None [] None).
    split_and!; [|reflexivity..].
    apply list_elem_of_In. right. left. reflexivity.
  - vm_compute. reflexivity.
  - vm_compute. reflexivity.
Qed.

Lemma locator_errors_witness :
  outcome (assinar_xml (Str dps_sem_inf_xml) "rsa.pfx" (Some "segredo") "infDPS" true)
    = inl (ValueError (msg_nao_encontrado "infDPS")) ∧
  outcome (assinar_xml (Str dps_sem_id_xml) "rsa.pfx" (Some "segredo") "infDPS" true)
    = inl (ValueError (msg_id_ausente "infDPS")).
Proof.
  split.
  - refine (proj1 (locator_errors (Str dps_sem_inf_xml) "rsa.pfx" (Some "segredo")
                     "infDPS" true (encode "PFX rsa")
                     (RSAPrivateKey (encode "rsa key")) cert [] dps_sem_inf
                     _ _ _ _) _); [vm_compute; reflexivity..|].
    repeat constructor. vm_compute. discriminate.
  - refine (proj2 (locator_errors (Str dps_sem_id_xml) "rsa.pfx" (Some "segredo")
                     "infDPS" true (encode "PFX rsa")
                     (RSAPrivateKey (encode "rsa key")) cert [] dps_sem_id
                     _ _ _ _)
              0 (Element (nfse "infDPS") [("versao", "1")] [] None [] None) _ _);
      [vm_compute; reflexivity..|].
    left. vm_compute. reflexivity.
Defined.

Lemma invalid_credential_witness :
  open_rb "vazio.pfx" = inr [] ∧
  load_key_and_certificates [] (password_bytes (Some "segredo"))
    = inl (ValueError "Could not deserialize PKCS12 data") ∧
  (∀ xml,
     assinar_xml xml "vazio.pfx" (Some "segredo") "infDPS" false
       = Run [] (inl (ValueError "Could not deserialize PKCS12 data"))) ∧
  load_key_and_certificates (encode "PFX rsa") (password_bytes (Some "errada"))
    = inl (ValueError "Invalid password or PKCS12 data") ∧
  (∀ xml,
     assinar_xml xml "rsa.pfx" (Some "errada") "infDPS" false
       = Run [] (inl (ValueError "Invalid password or PKCS12 data"))) ∧
  load_key_and_certificates (encode "PFX cert only") (password_bytes (Some "segredo"))
    = inr (None, Some cert, []) ∧
  (∀ xml,
     assinar_xml xml "cert.pfx" (Some "segredo") "infDPS" false
       = Run [] (inl (ValueError msg_pfx_invalido))).
Proof.
  split_and!.
  - vm_compute. reflexivity.
  - vm_compute. reflexivity.
  - refine (proj2 (proj1 (invalid_credential "vazio.pfx" (Some "segredo") "infDPS"
                            false [] _ _)
                     (ValueError "Could not deserialize PKCS12 data") _));
      vm_compute; reflexivity.
  - vm_compute. reflexivity.
  - refine (proj2 (proj1 (invalid_credential "rsa.pfx" (Some "errada") "infDPS"
                            false (encode "PFX rsa") _ _)
                     (ValueError "Invalid password or PKCS12 data") _));
      vm_compute; reflexivity.
  - vm_compute. reflexivity.
  - refine (proj2 (proj2 (invalid_credential "cert.pfx" (Some "segredo") "infDPS"
                            false (encode "PFX cert only") _ _)
                     None (Some cert) [] _ _));
      [vm_compute; reflexivity..|].
    left. reflexivity.
Defined.

(** C9 as the specification words it fails on a bundle with an
    elliptic-curve key: the credential is accepted, the digest is computed
    and [SignedInfo] is canonicalised; the call ends in the [sign] call
    itself, with its [TypeError], and no error of the function's own is
    logged. *)
Lemma non_rsa_key_not_checked :
  load_key_and_certificates (encode "PFX ec") (password_bytes (Some "segredo"))
    = inr (Some (EllipticCurvePrivateKey (encode "ec key")), Some cert, []) ∧
  assinar_xml (Str dps_xml) "ec.pfx" (Some "segredo") "infDPS" true =
    Run
      [ (INFO, "[NFSe Nacional] Iniciando assinatura de XML - Tag: infDPS");
        (INFO, "[NFSe Nacional] Carregando certificado PFX: ec.pfx");
        (INFO, "[NFSe Nacional] Certificado carregado com sucesso");
        (INFO, "[NFSe Nacional] Localizando elemento para assinatura: infDPS");
        (INFO, "[NFSe Nacional] Elemento encontrado com ID: DPS330455a7Z");
        (INFO, "[NFSe Nacional] Canonicalizando e calculando digest");
        (INFO, "[NFSe Nacional] Digest calculado: PlNQRGZuaS88PlNQRG4v...");
        (INFO, "[NFSe Nacional] Canonicalizando SignedInfo e gerando assinatura digital") ]
      (inl (TypeError "sign() takes 3 positional arguments but 4 were given")).
Proof. split; vm_compute; reflexivity. Qed.

Lemma sign_call_decides_witness :
  outcome (assinar_xml (Str dps_xml) "rsa.pfx" (Some "segredo") "infDPS" true)
    = inr signed_xml ∧
  ∃ msg,
    outcome (assinar_xml (Str dps_xml) "ec.pfx" (Some "segredo") "infDPS" true)
      = inl (TypeError msg).
Proof.
  split.
  - rewrite (proj1 (@sign_call_decides files cryptography etree hashlib (Str dps_xml) "rsa.pfx" (Some "segredo")
                      "infDPS" true (encode "PFX rsa")
                      (RSAPrivateKey (encode "rsa key")) cert [] dps 1 infDPS
                      "DPS330455a7Z"
                      (canonical (standalone [(None, NS_NFSE)] infDPS))
                      (canonical
                         (standalone [(None, NS_DS)]
                            (SignedInfo "DPS330455a7Z"
                               (digest_b64_of [(None, NS_NFSE)] infDPS))))
                      eq_refl
                      ltac:(vm_compute; reflexivity) ltac:(vm_compute; reflexivity)
                      ltac:(vm_compute; reflexivity) ltac:(vm_compute; reflexivity)
                      ltac:(vm_compute; reflexivity) ltac:(discriminate)
                      ltac:(vm_compute; reflexivity) ltac:(vm_compute; reflexivity))).
    vm_compute. reflexivity.
  - destruct (proj2 (@sign_call_decides files cryptography etree hashlib (Str dps_xml) "ec.pfx" (Some "segredo")
                       "infDPS" true (encode "PFX ec")
                       (EllipticCurvePrivateKey (encode "ec key")) cert [] dps 1
                       infDPS "DPS330455a7Z"
                       (canonical (standalone [(None, NS_NFSE)] infDPS))
                       (canonical
                          (standalone [(None, NS_DS)]
                             (SignedInfo "DPS330455a7Z"
                                (digest_b64_of [(None, NS_NFSE)] infDPS))))
                       eq_refl
                       ltac:(vm_compute; reflexivity) ltac:(vm_compute; reflexivity)
                       ltac:(vm_compute; reflexivity) ltac:(vm_compute; reflexivity)
                       ltac:(vm_compute; reflexivity) ltac:(discriminate)
                       ltac:(vm_compute; reflexivity) ltac:(vm_compute; reflexivity))
                ltac:(discriminate)) as (msg & _ & Hout).
    exists msg. exact Hout.
Defined.

(** ** More about [signer.py] *)

(** *** Base64 texts *)

Lemma list_ind3 {A : Type} (P : list A → Prop) :
  P [] → (∀ a, P [a]) → (∀ a b, P [a; b]) →
  (∀ a b c l, P l → P (a :: b :: c :: l)) →
  ∀ l, P l.
Proof.
  intros H0 H1 H2 H3 l.
  assert (P l ∧ (∀ a, P (a :: l)) ∧ (∀ a b, P (a :: b :: l))) as (? & _ & _);
    [|done].
  induction l as [|c l (IH0 & IH1 & IH2)]; [done|].
  split_and!; [done|done|]. intros a b. by apply H3.
Qed.

Lemma b64_char_symbol n : b64_symbol (b64_char n).
Proof.
  unfold b64_symbol, b64_char.
  destruct (nth_in_or_default (N.to_nat n) b64_alphabet b64_pad) as [Hin| ->];
    [left|by right].
  by apply list_elem_of_In.
Qed.

Lemma b64_pad_symbol : b64_symbol b64_pad.
Proof. by right. Qed.

Lemma b64encode_symbols s : Forall b64_symbol (b64encode s).
Proof.
  induction s as [|a|a b|a b c l IH] using list_ind3; simpl;
    repeat first [apply Forall_nil_2 | apply Forall_cons_2 | apply b64_char_symbol
                 | apply b64_pad_symbol | exact IH].
Qed.

Lemma b64encode_length s :
  length (b64encode s) = 4 * ((length s + 2) `div` 3).
Proof.
  induction s as [|a|a b|a b c l IH] using list_ind3; [done..|].
  cbn [b64encode length]. rewrite IH.
  replace (S (S (S (length l))) + 2) with (length l + 2 + 1 * 3) by lia.
  rewrite Nat.div_add by lia. lia.
Qed.

Lemma encode_decode b : encode (decode b) = b.
Proof. apply String.list_byte_of_string_of_list_byte. Qed.

Lemma decode_encode s : decode (encode s) = s.
Proof. apply String.string_of_list_byte_of_string. Qed.

Lemma b64_symbol_no_markup b : b64_symbol b → xml_markup b = false.
Proof.
  intros [Hb| ->]; [|done].
  revert b Hb. apply Forall_forall.
  apply (bool_decide_unpack (Forall (λ b, xml_markup b = false) b64_alphabet)).
  by vm_compute.
Qed.

Lemma base64_text_b64encode data : base64_text (decode (b64encode data)).
Proof.
  unfold base64_text. rewrite encode_decode. split.
  - apply b64encode_symbols.
  - rewrite b64encode_length. by rewrite Nat.mul_comm, Nat.Div0.mod_mul.
Qed.

(** *** What is logged *)

Lemma trace_bind {A B : Type} (m : M A) (f : A → M B) :
  trace (m ≫= f) =
    trace m ++ match outcome m with inl _ => [] | inr a => trace (f a) end.
Proof.
  unfold mbind, M_mbind, M_bind.
  destruct (outcome m); simpl; by rewrite ?app_nil_r.
Qed.

Lemma X509Certificate_text_Signature inf_id digest_b64 signature_b64 cert_b64 :
  X509Certificate_text (Signature (SignedInfo inf_id digest_b64) signature_b64 cert_b64)
    = Some cert_b64.
Proof. by vm_compute. Qed.

Section signer_more.
Context `{FileSystem} `{Cryptography} `{Etree} `{Hashlib}.

(** X1. For a [tag_to_sign] that is a name, the [SignatureValue] of a
    successful call is the base64 encoding of what the RSA key of the bundle
    returns for [PKCS1v15] and [SHA1] on the canonical form of the very
    [SignedInfo] that the [Signature] carries (serialised under
    [xmlns=NS_DS], parsed again, canonicalised inclusive and without
    comments). *)
Theorem signature_value_correct xml pfx_path pfx_password tag_to_sign logger xml_final :
  xml_name tag_to_sign = true →
  outcome (assinar_xml xml pfx_path pfx_password tag_to_sign logger)
    = inr xml_final →
  ∃ pfx_data rsa_key cert additional_certs root i target signature signed_info
    standalone c14n_signed signature_raw,
    open_rb pfx_path = inr pfx_data ∧
    load_key_and_certificates pfx_data (password_bytes pfx_password)
      = inr (Some (RSAPrivateKey rsa_key), Some cert, additional_certs) ∧
    fromstring (input_bytes xml) = inr root ∧
    find (clark NS_NFSE tag_to_sign) root = Some (i, target) ∧
    outcome (assinar_xml_root xml pfx_path pfx_password tag_to_sign logger)
      = inr (addnext root i signature) ∧
    child (clark NS_DS "SignedInfo") signature = Some signed_info ∧
    fromstring (tostring false [(None, NS_DS)] signed_info) = inr standalone ∧
    tostring_c14n false false standalone = inr c14n_signed ∧
    rsa_sign rsa_key PKCS1v15 SHA1 c14n_signed = inr signature_raw ∧
    SignatureValue_text signature = Some (decode (b64encode signature_raw)).
Proof.
  intros _ (pfx_data & key & cert & extra & root & i & target & inf_id & tc & cs
          & raw & Hopen & Hload & Hparse & Hfind & _ & _ & _ & Hcs & Hraw
          & Hroot & ->)%assinar_xml_success.
  apply canonical_bytes_inr in Hcs as (standalone & Hre & Hc14n).
  destruct key as [k| | | |]; try done. simpl in Hraw.
  eexists pfx_data, k, cert, extra, root, i, target, _, _, standalone, cs, raw.
  split_and!; [done|done|done|done|exact Hroot|reflexivity|done|done|done|].
  apply SignatureValue_text_Signature.
Qed.

(** X2. For a [tag_to_sign] that is a name, the [X509Certificate] of a
    successful call is the base64 encoding of the DER bytes of the
    certificate that the PKCS#12 loader returned, and it is the only thing
    under [KeyInfo]: the additional certificates of the bundle are not
    written. *)
Theorem key_info_certificate xml pfx_path pfx_password tag_to_sign logger xml_final :
  xml_name tag_to_sign = true →
  outcome (assinar_xml xml pfx_path pfx_password tag_to_sign logger)
    = inr xml_final →
  ∃ pfx_data key cert additional_certs root i signature key_info x509_data,
    open_rb pfx_path = inr pfx_data ∧
    load_key_and_certificates pfx_data (password_bytes pfx_password)
      = inr (Some key, Some cert, additional_certs) ∧
    outcome (assinar_xml_root xml pfx_path pfx_password tag_to_sign logger)
      = inr (addnext root i signature) ∧
    X509Certificate_text signature
      = Some (decode (b64encode (public_bytes_DER cert))) ∧
    findall (clark NS_DS "KeyInfo") signature = [key_info] ∧
    node_children key_info = [x509_data] ∧
    length (node_children x509_data) = 1.
Proof.
  intros _ (pfx_data & key & cert & extra & root & i & target & inf_id & tc & cs
          & raw & Hopen & Hload & _ & _ & _ & _ & _ & _ & _
          & Hroot & ->)%assinar_xml_success.
  eexists pfx_data, key, cert, extra, root, i, _, _, _.
  split_and!; [done|done|exact Hroot|..]; by vm_compute.
Qed.

(** X3. For a [tag_to_sign] that is a name, in the [SignedInfo] of a
    successful call the children come in the order [CanonicalizationMethod]
    (C14N 1.0), [SignatureMethod] (RSA-SHA1), [Reference], and in the
    [Reference] in the order [Transforms], [DigestMethod] (SHA-1),
    [DigestValue]. *)
Theorem signed_info_algorithms xml pfx_path pfx_password tag_to_sign logger xml_final :
  xml_name tag_to_sign = true →
  outcome (assinar_xml xml pfx_path pfx_password tag_to_sign logger)
    = inr xml_final →
  ∃ root i signature signed_info reference,
    outcome (assinar_xml_root xml pfx_path pfx_password tag_to_sign logger)
      = inr (addnext root i signature) ∧
    child (clark NS_DS "SignedInfo") signature = Some signed_info ∧
    algorithms signed_info =
      [ (Some (clark NS_DS "CanonicalizationMethod"), Some ALG_C14N);
        (Some (clark NS_DS "SignatureMethod"), Some ALG_RSA_SHA1);
        (Some (clark NS_DS "Reference"), None) ] ∧
    child (clark NS_DS "Reference") signed_info = Some reference ∧
    algorithms reference =
      [ (Some (clark NS_DS "Transforms"), None);
        (Some (clark NS_DS "DigestMethod"), Some ALG_SHA1);
        (Some (clark NS_DS "DigestValue"), None) ].
Proof.
  intros _ (pfx_data & key & cert & extra & root & i & target & inf_id & tc & cs
          & raw & _ & _ & _ & _ & _ & _ & _ & _ & _
          & Hroot & ->)%assinar_xml_success.
  eexists root, i, _, _, _.
  split_and!; [exact Hroot|..]; by vm_compute.
Qed.

(** X4. For a [tag_to_sign] that is a name, the three texts that a
    successful call writes into the signature, [DigestValue],
    [SignatureValue] and [X509Certificate], are made of base64 symbols in
    groups of four, so none of them holds a character that XML would have to
    escape. *)
Theorem embedded_texts_base64 xml pfx_path pfx_password tag_to_sign logger xml_final :
  xml_name tag_to_sign = true →
  outcome (assinar_xml xml pfx_path pfx_password tag_to_sign logger)
    = inr xml_final →
  ∃ root i signature digest_b64 signature_b64 cert_b64,
    outcome (assinar_xml_root xml pfx_path pfx_password tag_to_sign logger)
      = inr (addnext root i signature) ∧
    DigestValue_text signature = Some digest_b64 ∧
    SignatureValue_text signature = Some signature_b64 ∧
    X509Certificate_text signature = Some cert_b64 ∧
    base64_text digest_b64 ∧ base64_text signature_b64 ∧ base64_text cert_b64 ∧
    Forall (λ b, xml_markup b = false)
      (encode digest_b64 ++ encode signature_b64 ++ encode cert_b64).
Proof.
  intros _ (pfx_data & key & cert & extra & root & i & target & inf_id & tc & cs
          & raw & _ & _ & _ & _ & _ & _ & _ & _ & _
          & Hroot & ->)%assinar_xml_success.
  eexists root, i, _, _, _, _.
  split_and!; [exact Hroot|apply DigestValue_text_Signature
              |apply SignatureValue_text_Signature
              |apply X509Certificate_text_Signature
              |apply base64_text_b64encode..|].
  rewrite !Forall_app, !encode_decode.
  split_and!; (eapply Forall_impl; [apply b64encode_symbols|]);
    apply b64_symbol_no_markup.
Qed.

(** X5. For a [tag_to_sign] that is a name, the signature depends on the
    document only through the [Id] of the located element and the bytes of
    its canonical form: if a call succeeds on one document, a call with the
    same credential on any other document whose located element has the
    same [Id] and the same canonical bytes succeeds too, and adds the same
    [Signature]; the siblings of the target, the attributes of the root and
    the way the two documents spell the element (prefixes, quotes, the
    order of attributes) play no part beyond those bytes. *)
Theorem signature_depends_on_canonical_form xml1 xml2 pfx_path pfx_password
    tag_to_sign logger1 logger2 root1 root2 i1 i2 target1 target2 signed_root1 :
  xml_name tag_to_sign = true →
  fromstring (input_bytes xml1) = inr root1 →
  fromstring (input_bytes xml2) = inr root2 →
  find (clark NS_NFSE tag_to_sign) root1 = Some (i1, target1) →
  find (clark NS_NFSE tag_to_sign) root2 = Some (i2, target2) →
  get target1 "Id" = get target2 "Id" →
  canonical_bytes (node_nsmap root1) target1
    = canonical_bytes (node_nsmap root2) target2 →
  outcome (assinar_xml_root xml1 pfx_path pfx_password tag_to_sign logger1)
    = inr signed_root1 →
  ∃ signature,
    signed_root1 = addnext root1 i1 signature ∧
    outcome (assinar_xml_root xml2 pfx_path pfx_password tag_to_sign logger2)
      = inr (addnext root2 i2 signature).
Proof.
  intros _ Hparse1 Hparse2 Hfind1 Hfind2 Hid Hc14n.
  rewrite !outcome_assinar_xml_root, !outcome_load_pfx, Hparse1, Hparse2.
  destruct (open_rb pfx_path) as [e|pfx_data]; [done|].
  destruct (load_key_and_certificates _ _) as [e|[[[key|] [cert|]] extra]];
    try done.
  rewrite !outcome_locate, Hfind1, Hfind2, Hid.
  destruct (nonempty _) as [inf_id|]; [|done].
  rewrite !outcome_sign_target, Hc14n.
  destruct (canonical_bytes (node_nsmap root2) target2) as [e|tc]; [done|].
  cbv zeta.
  destruct (canonical_bytes [(None, NS_DS)] _) as [e|cs]; [done|].
  destruct (sign key cs PKCS1v15 SHA1) as [e|raw]; [done|].
  intros [= <-]. by eexists.
Qed.

End signer_more.
Lemma trace_log_info_true {B : Type} msg (k : M B) :
  trace (log_info true msg ;; k) = (INFO, msg) :: trace k.
Proof. by rewrite trace_bind. Qed.

Lemma trace_log_error_true {B : Type} msg (k : M B) :
  trace (log_error true msg ;; k) = (ERROR, msg) :: trace k.
Proof. by rewrite trace_bind. Qed.

Lemma trace_call_inr {A B : Type} (r : exn + A) (f : A → M B) a :
  r = inr a → trace (call r ≫= f) = trace (f a).
Proof. intros ->. by rewrite trace_bind. Qed.

Lemma trace_call_inl {A B : Type} (r : exn + A) (f : A → M B) e :
  r = inl e → trace (call r ≫= f) = [].
Proof. intros ->. by rewrite trace_bind. Qed.

(** A run announces its errors when its log is made of [INFO] records,
    but for one [ERROR] record at most, which is then the last record and
    carries the message of the [ValueError] that ends the run, one of
    [texts]. *)
Definition announced (texts : list string) {A : Type} (m : M A) : Prop :=
  Forall (λ r, r.1 = INFO) (trace m) ∨
  ∃ infos text,
    trace m = infos ++ [(ERROR, "[NFSe Nacional] " +:+ text)] ∧
    Forall (λ r, r.1 = INFO) infos ∧
    text ∈ texts ∧
    outcome m = inl (ValueError text).

Lemma announced_bind texts {A B : Type} (m : M A) (f : A → M B) :
  announced texts m → (∀ a, announced texts (f a)) →
  announced texts (m ≫= f).
Proof.
  intros Hm Hf. unfold announced. rewrite trace_bind, outcome_bind.
  destruct Hm as [Hm|(infos & text & Hm & Hinfos & Htext & Hout)].
  - destruct (outcome m) as [e|a]; [left; by rewrite app_nil_r|].
    destruct (Hf a) as [Ha|(infos & text & Ha & Hinfos & Htext & Hout)].
    + left. by apply Forall_app.
    + right. exists (trace m ++ infos), text. rewrite Ha, (assoc_L (++)).
      split_and!; [done|by apply Forall_app|done|done].
  - rewrite Hout, app_nil_r. right. by exists infos, text.
Qed.

Lemma announced_log_info texts logger msg : announced texts (log_info logger msg).
Proof. left. destruct logger; by repeat constructor. Qed.

Lemma announced_call texts {A : Type} (r : exn + A) : announced texts (call r).
Proof. by left. Qed.

Lemma announced_mret texts {A : Type} (a : A) : announced texts (mret a : M A).
Proof. by left. Qed.

Lemma announced_error texts {A : Type} logger text :
  text ∈ texts →
  announced texts
    (log_error logger ("[NFSe Nacional] " +:+ text) ;; raise (ValueError text) : M A).
Proof.
  intros Htext. destruct logger; [right|by left].
  by exists [], text.
Qed.

Ltac announced_step :=
  first
    [ apply announced_log_info
    | apply announced_call
    | apply announced_mret
    | apply announced_error; rewrite !elem_of_cons; auto
    | apply announced_bind; [|intros ?]
    | match goal with
      | |- announced _ (match ?x with _ => _ end) => destruct x
      end ].

Section signer_log.
Context `{FileSystem} `{Cryptography} `{Etree} `{Hashlib}.

(** X7. For a [tag_to_sign] that is a name, a call that succeeds with a
    logger logs exactly eleven [INFO] records, in the order of the steps:
    they name the tag, the path of the PFX file, the [Id], the first twenty
    characters of the digest and of the signature value and the length of
    the result, and nothing else; the password, the key and the document do
    not appear. *)
Theorem success_log_exact xml pfx_path pfx_password tag_to_sign xml_final :
  xml_name tag_to_sign = true →
  outcome (assinar_xml xml pfx_path pfx_password tag_to_sign true)
    = inr xml_final →
  ∃ root i target inf_id signature digest_b64 signature_b64,
    fromstring (input_bytes xml) = inr root ∧
    find (clark NS_NFSE tag_to_sign) root = Some (i, target) ∧
    get target "Id" = Some inf_id ∧
    outcome (assinar_xml_root xml pfx_path pfx_password tag_to_sign true)
      = inr (addnext root i signature) ∧
    DigestValue_text signature = Some digest_b64 ∧
    SignatureValue_text signature = Some signature_b64 ∧
    trace (assinar_xml xml pfx_path pfx_password tag_to_sign true)
      = success_log pfx_path tag_to_sign inf_id digest_b64 signature_b64 xml_final.
Proof.
  intros _ (pfx_data & key & cert & extra & root & i & target & inf_id & tc & cs
          & raw & Hopen & Hload & Hparse & Hfind & Hget & Hne & Htc & Hcs & Hraw
          & Hroot & ->)%assinar_xml_success.
  eexists root, i, target, inf_id, _, _, _.
  split_and!; [done|done|done|exact Hroot|apply DigestValue_text_Signature
              |apply SignatureValue_text_Signature|].
  assert (nonempty (get target "Id") = Some inf_id) as Hid
    by by apply nonempty_Some.
  unfold assinar_xml. rewrite trace_bind, Hroot.
  rewrite trace_log_info_true.
  unfold assinar_xml_root. rewrite trace_log_info_true, trace_bind.
  unfold load_pfx at 1. rewrite trace_log_info_true.
  rewrite (trace_call_inr _ _ _ Hopen), (trace_call_inr _ _ _ Hload).
  rewrite trace_log_info_true.
  assert (outcome (load_pfx true pfx_path pfx_password) = inr (key, cert)) as ->
    by (rewrite outcome_load_pfx, Hopen, Hload; done).
  rewrite (trace_call_inr _ _ _ Hparse), trace_bind.
  unfold locate at 1. rewrite trace_log_info_true, Hfind, Hid.
  assert (outcome (locate true tag_to_sign root) = inr (i, target, inf_id)) as ->
    by (rewrite outcome_locate, Hfind, Hid; done).
  unfold sign_target. rewrite !trace_log_info_true.
  rewrite (trace_call_inr _ _ _ Htc), trace_log_info_true, trace_log_info_true.
  rewrite (trace_call_inr _ _ _ Hcs), (trace_call_inr _ _ _ Hraw).
  rewrite !trace_log_info_true.
  reflexivity.
Qed.

(** X8. For a [tag_to_sign] that is a name, a document that does not parse
    ends the call with the parser's exception once the credential is loaded:
    the run stops after the third record of the log, before anything is
    located, digested or signed. *)
Theorem malformed_xml_propagates xml pfx_path pfx_password tag_to_sign logger
    pfx_data key cert additional_certs e :
  xml_name tag_to_sign = true →
  open_rb pfx_path = inr pfx_data →
  load_key_and_certificates pfx_data (password_bytes pfx_password)
    = inr (Some key, Some cert, additional_certs) →
  fromstring (input_bytes xml) = inl e →
  assinar_xml xml pfx_path pfx_password tag_to_sign logger =
    Run
      (if logger then
         [ (INFO, "[NFSe Nacional] Iniciando assinatura de XML - Tag: "
                    +:+ tag_to_sign);
           (INFO, "[NFSe Nacional] Carregando certificado PFX: " +:+ pfx_path);
           (INFO, "[NFSe Nacional] Certificado carregado com sucesso") ]
       else [])
      (inl e).
Proof.
  intros _ Hopen Hload Hparse.
  unfold assinar_xml, assinar_xml_root, load_pfx, mbind, M_mbind, M_bind.
  simpl. rewrite Hopen. simpl. rewrite Hload. simpl. rewrite Hparse. simpl.
  by destruct logger.
Qed.

(** X31. For a [tag_to_sign] that is a name, the log of a call holds at
    most one [ERROR] record. When there is one it is the last record of the
    log, it reads [[NFSe Nacional]] followed by the message of one of the
    three errors of the function's own (the bundle without key or
    certificate, the element not found, the [Id] missing), and the call
    ends with the [ValueError] of that same message. Every other record is
    an [INFO] record. *)
Theorem error_record_announces_error xml pfx_path pfx_password tag_to_sign logger :
  xml_name tag_to_sign = true →
  let run := assinar_xml xml pfx_path pfx_password tag_to_sign logger in
  Forall (λ r, r.1 = INFO) (trace run) ∨
  ∃ infos text,
    trace run = infos ++ [(ERROR, "[NFSe Nacional] " +:+ text)] ∧
    Forall (λ r, r.1 = INFO) infos ∧
    text ∈ [msg_pfx_invalido; msg_nao_encontrado tag_to_sign;
            msg_id_ausente tag_to_sign] ∧
    outcome run = inl (ValueError text).
Proof.
  intros _ run. subst run.
  change (announced [msg_pfx_invalido; msg_nao_encontrado tag_to_sign;
                     msg_id_ausente tag_to_sign]
            (assinar_xml xml pfx_path pfx_password tag_to_sign logger)).
  unfold assinar_xml, assinar_xml_root, load_pfx, locate, sign_target.
  repeat announced_step.
Qed.

End signer_log.
(** ** [utils.py] *)

Section utils_facts.
Context `{Unicode}.

Lemma isdecimal_ascii_true c : (48 ≤ c ≤ 57)%N → digit c.
Proof.
  intros Hc. unfold digit. rewrite isdecimal_ascii by lia.
  by apply bool_decide_eq_true.
Qed.

Lemma isdecimal_ascii_false c : (c < 48 ∨ 57 < c < 128)%N → isdecimal c = false.
Proof.
  intros Hc. rewrite isdecimal_ascii by lia. apply bool_decide_eq_false. lia.
Qed.

Lemma digit_not_ascii_other c : digit c → (c < 48 ∨ 57 < c < 128)%N → False.
Proof. unfold digit. intros Hd Hc%isdecimal_ascii_false. congruence. Qed.

Lemma digit_not_space c : digit c → isspace c = false.
Proof. apply isdecimal_not_space. Qed.

Lemma code_char_not_space c : code_char c → isspace c = false.
Proof.
  intros [Hd| ->]; [by apply digit_not_space|].
  rewrite isspace_ascii by lia. by vm_compute.
Qed.

Lemma code_char_not_32 c : code_char c → c ≠ 32%N.
Proof.
  intros [Hd| ->]; [|done]. intros ->.
  apply (digit_not_ascii_other 32%N Hd). lia.
Qed.

Lemma only_digits_digits s : Forall digit (only_digits s).
Proof.
  apply Forall_forall. intros c Hc.
  by apply list_elem_of_filter in Hc as [? _].
Qed.

Lemma only_digits_id s : Forall digit s → only_digits s = s.
Proof.
  unfold only_digits. induction 1 as [|c s Hc Hs IH]; [done|].
  by rewrite filter_cons_True, IH.
Qed.

Lemma lstrip_id c s : isspace c = false → lstrip (c :: s) = c :: s.
Proof. intros Hc. simpl. by rewrite Hc. Qed.

(** [strip] leaves a text alone when neither end is white space. *)
Lemma strip_id s :
  (∀ c, head s = Some c → isspace c = false) →
  (∀ c, last s = Some c → isspace c = false) →
  strip s = s.
Proof.
  intros Hhead Hlast. unfold strip.
  assert (lstrip s = s) as ->.
  { destruct s as [|c r]; [done|]. apply lstrip_id. by apply Hhead. }
  assert (lstrip (reverse s) = reverse s) as ->; [|apply reverse_involutive].
  destruct (reverse s) as [|c r] eqn:Hrev; [done|].
  apply lstrip_id, Hlast. by rewrite <-head_reverse, Hrev.
Qed.

Lemma strip_id_Forall (P : N → Prop) s :
  (∀ c, P c → isspace c = false) → Forall P s → strip s = s.
Proof.
  intros HP Hs. rewrite Forall_forall in Hs. apply strip_id; intros c Hc.
  - apply HP, Hs. destruct s; simplify_eq/=. apply list_elem_of_here.
  - apply HP, Hs. by eapply last_Some_elem_of.
Qed.

Lemma is_prefix_sep_false c s :
  c ≠ 32%N → is_prefix (ascii_text " - ") (c :: s) = false.
Proof.
  intros Hc. apply bool_decide_eq_false. intros Heq. simpl in Heq.
  by injection Heq.
Qed.

Lemma contains_sep_false s :
  Forall (λ c, c ≠ 32%N) s → contains (ascii_text " - ") s = false.
Proof.
  induction 1 as [|c s Hc Hs IH]; [done|].
  cbn [contains]. by rewrite is_prefix_sep_false, IH.
Qed.

Lemma contains_sep_app s d :
  contains (ascii_text " - ") (s ++ ascii_text " - " ++ d) = true.
Proof.
  induction s as [|c s IH]; [done|].
  cbn [contains app]. rewrite IH. apply orb_true_r.
Qed.

Lemma before_sep_app s d :
  Forall (λ c, c ≠ 32%N) s →
  before (ascii_text " - ") (s ++ ascii_text " - " ++ d) = s.
Proof.
  induction 1 as [|c s Hc Hs IH]; [done|].
  cbn [before app]. by rewrite is_prefix_sep_false, IH.
Qed.

Lemma zfill_group g :
  group g → length (zfill 2 g) = 2 ∧ Forall digit (zfill 2 g).
Proof.
  intros [[Hlen|Hlen] Hg]; unfold zfill.
  - destruct g as [|c [|]]; simplify_eq/=.
    apply Forall_cons in Hg as [Hg _].
    rewrite decide_False.
    + split; [done|]. repeat constructor; [|done].
      apply isdecimal_ascii_true. lia.
    + intros [-> | ->]; apply (digit_not_ascii_other _ Hg); lia.
  - by rewrite decide_True by lia.
Qed.

Lemma digits_1_2_group s p : p ∈ digits_1_2 s → group p.1.
Proof.
  unfold digits_1_2, group.
  destruct s as [|c1 [|c2 r]]; [by intros ?%elem_of_nil|..].
  - destruct (isdecimal c1) eqn:H1; [|by intros ?%elem_of_nil].
    intros ->%list_elem_of_singleton. simpl. split; [by left|].
    by apply Forall_singleton.
  - destruct (isdecimal c1) eqn:H1; [|by intros ?%elem_of_nil].
    destruct (isdecimal c2) eqn:H2; simpl.
    + intros [-> | ->%list_elem_of_singleton]%elem_of_cons; simpl.
      * split; [by right|]. by repeat constructor.
      * split; [by left|]. by repeat constructor.
    + intros ->%list_elem_of_singleton. simpl. split; [by left|].
      by repeat constructor.
Qed.

Lemma match_ctn_groups s a b oc :
  match_ctn s = Some (a, b, oc) →
  group a ∧ group b ∧ ∀ c, oc = Some c → group c.
Proof.
  unfold match_ctn. intros [l Hl]%head_Some.
  assert ((a, b, oc) ∈ (a, b, oc) :: l) as Hin by apply list_elem_of_here.
  rewrite <-Hl in Hin. clear Hl.
  apply list_elem_of_bind in Hin as (p1 & Hin & Hp1%digits_1_2_group).
  apply list_elem_of_bind in Hin as (s2 & Hin & _).
  apply list_elem_of_bind in Hin as (p2 & Hin & Hp2%digits_1_2_group).
  apply elem_of_app in Hin as [Hin|Hin].
  - apply list_elem_of_bind in Hin as (s4 & Hin & _).
    apply list_elem_of_bind in Hin as (p3 & Hin & Hp3%digits_1_2_group).
    destruct (at_end p3.2); [|by apply elem_of_nil in Hin].
    apply list_elem_of_singleton in Hin as [= -> -> ->].
    split_and!; [done..|]. by intros c [= <-].
  - destruct (at_end p2.2); [|by apply elem_of_nil in Hin].
    apply list_elem_of_singleton in Hin as [= -> -> ->].
    by split_and!.
Qed.

(** A text of digits only is not of the dotted form. *)
Lemma match_ctn_digits s : Forall digit s → match_ctn s = None.
Proof.
  intros Hs. unfold match_ctn.
  assert (∀ c r, digit c → dot (c :: r) = []) as Hdot.
  { intros c r Hc. unfold dot. rewrite decide_False; [done|].
    intros ->. apply (digit_not_ascii_other _ Hc). lia. }
  destruct s as [|c1 [|c2 r]]; [done|..].
  - apply Forall_cons in Hs as [Hs _]. unfold digit in Hs. simpl. by rewrite Hs.
  - apply Forall_cons in Hs as [H1 [H2 Hr]%Forall_cons].
    unfold digit in H1, H2. cbn -[dot at_end]. rewrite H1, H2. cbn -[dot at_end].
    rewrite (Hdot c2 r H2). cbn -[dot at_end]. rewrite app_nil_r.
    destruct r as [|c3 r]; [done|].
    apply Forall_cons in Hr as [H3 _]. by rewrite (Hdot c3 r H3).
Qed.

End utils_facts.

Section utils_theorems.
Context `{Unicode}.

Lemma ctn_to_6digits_Some cod r :
  ctn_to_6digits cod = Some r → length r = 6 ∧ Forall digit r.
Proof.
  unfold ctn_to_6digits. destruct cod as [cod|]; [|done].
  case_decide as Hnil; [done|]. cbv zeta.
  match goal with |- context [match_ctn ?t] => generalize t end. intros s.
  destruct (match_ctn s) as [[[a b] oc]|] eqn:Hm.
  - apply match_ctn_groups in Hm as (Ha%zfill_group & Hb%zfill_group & Hc).
    destruct Ha as [Ha1 Ha2], Hb as [Hb1 Hb2].
    assert (length (ascii_text "01") = 2 ∧ Forall digit (ascii_text "01"))
      as [H01 H01'].
    { split; [done|]. change (ascii_text "01") with [48; 49]%N.
      repeat constructor; apply isdecimal_ascii_true; lia. }
    destruct oc as [[|c1 c]|].
    + intros [= <-]. rewrite !length_app, !Forall_app. split; [lia|done].
    + destruct (zfill_group (c1 :: c)) as [Hc1 Hc2]; [by apply Hc|].
      intros [= <-]. rewrite !length_app, !Forall_app. split; [lia|done].
    + intros [= <-]. rewrite !length_app, !Forall_app. split; [lia|done].
  - pose proof (only_digits_digits s) as Hd.
    assert (Forall digit (ascii_text "01") ∧ Forall digit (ascii_text "0"))
      as [H01 Hzero].
    { change (ascii_text "01") with [48; 49]%N.
      change (ascii_text "0") with [48]%N.
      split; repeat constructor; apply isdecimal_ascii_true; lia. }
    repeat case_decide; intros [= <-]; (split; [done|]);
      rewrite ?Forall_app; try done.
    change (Forall digit (ascii_text "0" ++ only_digits s)).
    by rewrite Forall_app.
Qed.

Lemma ctn_to_6digits_digits s :
  Forall digit s → ctn_to_6digits (Some s) = pad_digits s.
Proof.
  intros Hs. unfold ctn_to_6digits, pad_digits.
  case_decide as Hnil; [by subst|]. cbv zeta.
  rewrite (strip_id_Forall digit) by (done || apply digit_not_space).
  rewrite contains_sep_false.
  - rewrite match_ctn_digits, only_digits_id by done.
    repeat case_decide; try done; rewrite ?length_app in *; simpl in *; lia.
  - eapply Forall_impl; [exact Hs|]. intros c Hc ->.
    apply (digit_not_ascii_other _ Hc). lia.
Qed.

(** X9. [sanitize_document] keeps every decimal digit of its argument, in
    their order, and nothing else: the result is the argument with the
    characters that are not decimal digits filtered out, so it is the
    longest text of digits that can be had from the argument by deleting
    characters; it leaves a text of digits as it is, so applying it twice
    changes nothing more; [None] stays [None]. *)
Theorem sanitize_document_keeps_digits (s : codepoints) :
  sanitize_document None = None ∧
  ∃ r,
    sanitize_document (Some s) = Some r ∧
    r = filter (λ c, isdecimal c = true) s ∧
    Forall digit r ∧
    r `sublist_of` s ∧
    (∀ r', r' `sublist_of` s → Forall digit r' → r' `sublist_of` r) ∧
    sanitize_document (Some r) = Some r ∧
    (Forall digit s → r = s).
Proof.
  split; [done|]. exists (only_digits s).
  assert (sanitize_document (Some s) = Some (only_digits s)) as Hs.
  { unfold sanitize_document. by case_decide; subst. }
  split_and!.
  - done.
  - done.
  - apply only_digits_digits.
  - apply sublist_filter.
  - intros r' Hsub Hr'. rewrite <- (only_digits_id r') by done. clear Hs.
    induction Hsub as [|c l1 l2 _ IH|c l1 l2 _ IH].
    + done.
    + apply Forall_cons in Hr' as [Hc Hr']. unfold only_digits.
      rewrite !filter_cons_True by done. constructor. by apply IH.
    + unfold only_digits at 2. rewrite filter_cons.
      case_decide; [constructor|]; by apply IH.
  - unfold sanitize_document. case_decide as Hnil; [by rewrite Hnil|].
    by rewrite only_digits_id by apply only_digits_digits.
  - apply only_digits_id.
Qed.

(** X10. Whatever [ctn_to_6digits] returns is a code of exactly six decimal
    digits. *)
Theorem ctn_to_6digits_six_digits cod r :
  ctn_to_6digits cod = Some r → length r = 6 ∧ Forall digit r.
Proof. apply ctn_to_6digits_Some. Qed.

(** X11. A code that [ctn_to_6digits] returned is returned unchanged when it
    is given back to it. *)
Theorem ctn_to_6digits_idempotent cod r :
  ctn_to_6digits cod = Some r → ctn_to_6digits (Some r) = Some r.
Proof.
  intros [Hlen Hr]%ctn_to_6digits_Some.
  rewrite ctn_to_6digits_digits by done. unfold pad_digits.
  by rewrite !decide_False, decide_True by lia.
Qed.

(** X12. A text of decimal digits only is completed to six digits when it
    has four of them ([01] is appended) or five (a [0] is put in front), is
    returned as it is when it has six, and is refused for every other
    length. *)
Theorem ctn_to_6digits_plain s :
  Forall digit s →
  (length s = 4 → ctn_to_6digits (Some s) = Some (s ++ ascii_text "01")) ∧
  (length s = 5 → ctn_to_6digits (Some s) = Some (ascii_text "0" ++ s)) ∧
  (length s = 6 → ctn_to_6digits (Some s) = Some s) ∧
  (length s ≠ 4 → length s ≠ 5 → length s ≠ 6 →
   ctn_to_6digits (Some s) = None).
Proof.
  intros Hs. rewrite ctn_to_6digits_digits by done. unfold pad_digits.
  split_and!; intros; repeat case_decide; done || lia.
Qed.

Lemma group_cases g :
  group g ↔
    (∃ c1, g = [c1] ∧ digit c1) ∨ (∃ c1 c2, g = [c1; c2] ∧ digit c1 ∧ digit c2).
Proof.
  unfold group. split.
  - intros [[Hlen|Hlen] Hg].
    + destruct g as [|c1 [|]]; simplify_eq/=. left. exists c1.
      by apply Forall_cons in Hg as [? _].
    + destruct g as [|c1 [|c2 [|]]]; simplify_eq/=. right. exists c1, c2.
      by apply Forall_cons in Hg as [? [? _]%Forall_cons].
  - intros [(c1 & -> & ?)|(c1 & c2 & -> & ? & ?)].
    + split; [by left|]. by repeat constructor.
    + split; [by right|]. by repeat constructor.
Qed.

Lemma isdecimal_dot : isdecimal 46%N = false.
Proof. apply isdecimal_ascii_false. lia. Qed.

Lemma group_code_chars g : group g → Forall code_char g.
Proof. intros [_ Hg]. eapply Forall_impl; [exact Hg|]. by left. Qed.

Lemma at_end_nil : at_end [] = true.
Proof. done. Qed.

Ltac match_ctn_compute :=
  unfold match_ctn, digit in *;
  repeat first
    [ progress cbn -[at_end]
    | rewrite decide_True by done
    | rewrite at_end_nil
    | rewrite isdecimal_dot
    | match goal with H : isdecimal _ = true |- _ => rewrite H end ];
  try reflexivity.

Lemma match_ctn_two a b :
  group a → group b → match_ctn (a ++ [46%N] ++ b) = Some (a, b, None).
Proof.
  intros [(a1 & -> & ?)|(a1 & a2 & -> & ? & ?)]%group_cases
         [(b1 & -> & ?)|(b1 & b2 & -> & ? & ?)]%group_cases;
    match_ctn_compute.
Qed.

Lemma match_ctn_three a b c :
  group a → group b → group c →
  match_ctn (a ++ [46%N] ++ b ++ [46%N] ++ c) = Some (a, b, Some c).
Proof.
  intros [(a1 & -> & ?)|(a1 & a2 & -> & ? & ?)]%group_cases
         [(b1 & -> & ?)|(b1 & b2 & -> & ? & ?)]%group_cases
         [(c1 & -> & ?)|(c1 & c2 & -> & ? & ?)]%group_cases;
    match_ctn_compute.
Qed.

(** What [ctn_to_6digits] does with a text of digits and dots: nothing is
    stripped and nothing is cut off. *)
Lemma ctn_to_6digits_code s :
  Forall code_char s → s ≠ [] →
  ctn_to_6digits (Some s) =
    match match_ctn s with
    | Some (a, b, Some (c1 :: c)) =>
        Some (zfill 2 a ++ zfill 2 b ++ zfill 2 (c1 :: c))
    | Some (a, b, _) => Some (zfill 2 a ++ zfill 2 b ++ ascii_text "01")
    | None =>
        let digits := only_digits s in
        let digits :=
          if decide (length digits = 4) then digits ++ ascii_text "01"
          else if decide (length digits = 5) then ascii_text "0" ++ digits
          else digits in
        if decide (length digits = 6) then Some digits else None
    end.
Proof.
  intros Hs Hne. unfold ctn_to_6digits. rewrite decide_False by done. cbv zeta.
  rewrite (strip_id_Forall code_char) by (done || apply code_char_not_space).
  rewrite contains_sep_false; [done|].
  eapply Forall_impl; [exact Hs|]. apply code_char_not_32.
Qed.

(** X13. The dotted forms: for groups [a], [b], [c] of one or two decimal
    digits each, [a.b] gives the groups filled to two digits followed by
    [01], and [a.b.c] gives the three groups filled to two digits. *)
Theorem ctn_to_6digits_dotted a b :
  group a → group b →
  ctn_to_6digits (Some (a ++ [46%N] ++ b))
    = Some (zfill 2 a ++ zfill 2 b ++ ascii_text "01") ∧
  ∀ c, group c →
    ctn_to_6digits (Some (a ++ [46%N] ++ b ++ [46%N] ++ c))
      = Some (zfill 2 a ++ zfill 2 b ++ zfill 2 c).
Proof.
  intros Ha Hb.
  assert (code_char 46%N) as Hdot by by right.
  pose proof (group_code_chars a Ha) as Ha'.
  pose proof (group_code_chars b Hb) as Hb'.
  split.
  - rewrite ctn_to_6digits_code.
    + by rewrite match_ctn_two.
    + rewrite !Forall_app. split_and!; [done| |done]. by repeat constructor.
    + by destruct a.
  - intros c Hc. pose proof (group_code_chars c Hc) as Hc'.
    rewrite ctn_to_6digits_code.
    + rewrite match_ctn_three by done.
      apply group_cases in Hc as [(c1 & -> & _)|(c1 & c2 & -> & _)]; done.
    + rewrite !Forall_app. split_and!; try done; by repeat constructor.
    + by destruct a.
Qed.

(** X14. A description after the code is ignored: for a non-empty text [s]
    of digits and dots, [s - description] is read as [s], provided the
    description is not empty ([x] is its last character) and does not end
    in white space. *)
Theorem ctn_to_6digits_description s d x :
  Forall code_char s → s ≠ [] →
  last d = Some x → isspace x = false →
  ctn_to_6digits (Some (s ++ ascii_text " - " ++ d)) = ctn_to_6digits (Some s).
Proof.
  intros Hs Hne Hlast Hx.
  rewrite (ctn_to_6digits_code s) by done.
  unfold ctn_to_6digits. rewrite decide_False by by destruct s. cbv zeta.
  rewrite (strip_id (s ++ _)).
  - rewrite contains_sep_app, before_sep_app.
    + by rewrite (strip_id_Forall code_char)
        by (done || apply code_char_not_space).
    + eapply Forall_impl; [exact Hs|]. apply code_char_not_32.
  - intros c Hc. destruct s as [|c' s']; [done|]. simplify_eq/=.
    apply code_char_not_space. by apply Forall_cons in Hs as [? _].
  - intros c. rewrite !last_app, Hlast. by intros [= <-].
Qed.

(** X15. [gerar_dpsXmlGZipB64] returns a text of base64 symbols in groups of
    four, four symbols for every three bytes of the compressed document,
    with no character that JSON or XML would have to escape. *)
Theorem gerar_dpsXmlGZipB64_base64 `{Gzip} now xml_string :
  base64_text (gerar_dpsXmlGZipB64 now xml_string) ∧
  length (encode (gerar_dpsXmlGZipB64 now xml_string))
    = 4 * ((length (compress now (encode xml_string)) + 2) `div` 3) ∧
  Forall (λ b, xml_markup b = false ∧ Byte.to_N b ≠ 92%N ∧ (32 ≤ Byte.to_N b < 127)%N)
    (encode (gerar_dpsXmlGZipB64 now xml_string)).
Proof.
  unfold gerar_dpsXmlGZipB64. cbv zeta. split_and!.
  - apply base64_text_b64encode.
  - by rewrite encode_decode, b64encode_length.
  - rewrite encode_decode.
    eapply Forall_impl; [apply b64encode_symbols|].
    intros b Hb. split; [by apply b64_symbol_no_markup|].
    destruct Hb as [Hb| ->]; [|by vm_compute].
    revert b Hb. apply Forall_forall.
    apply (bool_decide_unpack
             (Forall (λ b, Byte.to_N b ≠ 92%N ∧ (32 ≤ Byte.to_N b < 127)%N)
                b64_alphabet)).
    by vm_compute.
Qed.

End utils_theorems.
(** ** Runs of the network layer *)

Lemma requests_app h1 h2 : requests (h1 ++ h2) = requests h1 ++ requests h2.
Proof. apply omap_app. Qed.

Lemma sleeps_app h1 h2 : sleeps (h1 ++ h2) = sleeps h1 ++ sleeps h2.
Proof. apply omap_app. Qed.

Lemma outside_app h1 h2 : outside (h1 ++ h2) = outside h1 ++ outside h2.
Proof. apply filter_app. Qed.

Lemma requests_Logged l : requests (Logged <$> l) = [].
Proof. by induction l. Qed.

Lemma sleeps_Logged l : sleeps (Logged <$> l) = [].
Proof. by induction l. Qed.

Lemma outside_Logged l : outside (Logged <$> l) = [].
Proof. by induction l. Qed.

Lemma outside_app_Logged h l : outside (h ++ (Logged <$> l)) = outside h.
Proof. by rewrite outside_app, outside_Logged, app_nil_r. Qed.

Lemma requests_Sent r h : requests (Sent r :: h) = r :: requests h.
Proof. reflexivity. Qed.

Lemma requests_Slept n h : requests (Slept n :: h) = requests h.
Proof. reflexivity. Qed.

Lemma requests_cons_Logged r h : requests (Logged r :: h) = requests h.
Proof. reflexivity. Qed.

Lemma sleeps_Sent r h : sleeps (Sent r :: h) = sleeps h.
Proof. reflexivity. Qed.

Lemma sleeps_Slept n h : sleeps (Slept n :: h) = n :: sleeps h.
Proof. reflexivity. Qed.

Lemma sleeps_cons_Logged r h : sleeps (Logged r :: h) = sleeps h.
Proof. reflexivity. Qed.

Lemma requests_nil : requests [] = [].
Proof. reflexivity. Qed.

Lemma sleeps_nil : sleeps [] = [].
Proof. reflexivity. Qed.

Lemma requests_if_log (logger : bool) lvl msg :
  requests (if logger then [Logged (lvl, msg)] else []) = [].
Proof. by destruct logger. Qed.

Lemma sleeps_if_log (logger : bool) lvl msg :
  sleeps (if logger then [Logged (lvl, msg)] else []) = [].
Proof. by destruct logger. Qed.

Lemma outside_Sent r h : outside (Sent r :: h) = Sent r :: outside h.
Proof. reflexivity. Qed.

Lemma outside_Slept n h : outside (Slept n :: h) = Slept n :: outside h.
Proof. reflexivity. Qed.

Lemma outside_cons_Logged r h : outside (Logged r :: h) = outside h.
Proof. reflexivity. Qed.

Lemma outside_nil : outside [] = [].
Proof. reflexivity. Qed.

Lemma outside_if_log (logger : bool) lvl msg :
  outside (if logger then [Logged (lvl, msg)] else []) = [].
Proof. by destruct logger. Qed.

Create Rewrite HintDb history.
#[global] Hint Rewrite outside_app outside_Sent outside_Slept
  outside_cons_Logged outside_nil outside_if_log outside_Logged : history.
#[global] Hint Rewrite requests_app sleeps_app requests_Sent requests_Slept
  requests_cons_Logged sleeps_Sent sleeps_Slept sleeps_cons_Logged
  requests_nil sleeps_nil requests_if_log sleeps_if_log requests_Logged
  sleeps_Logged @app_nil_r @app_nil_l : history.

(** The requests and the sleeps of a history are those of its outside
    part. *)
Lemma requests_outside evs : requests (outside evs) = requests evs.
Proof.
  induction evs as [|[r|r|n] evs IH]; [done|..];
    rewrite ?outside_cons_Logged, ?outside_Sent, ?outside_Slept,
      ?requests_cons_Logged, ?requests_Sent, ?requests_Slept; congruence.
Qed.

Lemma sleeps_outside evs : sleeps (outside evs) = sleeps evs.
Proof.
  induction evs as [|[r|r|n] evs IH]; [done|..];
    rewrite ?outside_cons_Logged, ?outside_Sent, ?outside_Slept,
      ?sleeps_cons_Logged, ?sleeps_Sent, ?sleeps_Slept; congruence.
Qed.

Section io_facts.
Context {A B : Type}.
Implicit Types (m : IO A) (f : A → IO B).

Lemma run_bind m f h :
  (m ≫= f) h =
    match returned (m h) with
    | inl e => Ran (events (m h)) (inl e)
    | inr a => prepend (events (m h)) (f a (h ++ events (m h)))
    end.
Proof. reflexivity. Qed.

Lemma run_bind_inl m f h e :
  returned (m h) = inl e → (m ≫= f) h = Ran (events (m h)) (inl e).
Proof. intros Hm. by rewrite run_bind, Hm. Qed.

Lemma run_bind_inr m f h a :
  returned (m h) = inr a →
  (m ≫= f) h = prepend (events (m h)) (f a (h ++ events (m h))).
Proof. intros Hm. by rewrite run_bind, Hm. Qed.

Lemma run_bind_Ran m f h evs r :
  m h = Ran evs r →
  (m ≫= f) h =
    match r with
    | inl e => Ran evs (inl e)
    | inr a => prepend evs (f a (h ++ evs))
    end.
Proof. intros Hm. by rewrite run_bind, Hm. Qed.

Lemma returned_bind_inr m f h b :
  returned ((m ≫= f) h) = inr b →
  ∃ a, returned (m h) = inr a ∧ returned (f a (h ++ events (m h))) = inr b.
Proof.
  rewrite run_bind. destruct (returned (m h)) as [e|a]; [done|]. by exists a.
Qed.

Lemma may_return_bind m f (P : A → Prop) (Q : B → Prop) :
  may_return m P → (∀ a, P a → may_return (f a) Q) → may_return (m ≫= f) Q.
Proof.
  intros Hm Hf h b (a & Ha & Hb)%returned_bind_inr.
  eapply Hf; [by eapply Hm|exact Hb].
Qed.

Lemma returns_bind m f (P : A → Prop) (Q : B → Prop) :
  returns m P → (∀ a, P a → returns (f a) Q) → returns (m ≫= f) Q.
Proof.
  intros Hm Hf h. destruct (Hm h) as (a & Ha & HP).
  destruct (Hf a HP (h ++ events (m h))) as (b & Hb & HQ).
  exists b. by rewrite (run_bind_inr _ _ _ _ Ha).
Qed.

Lemma sends_within_bind l1 l2 m f :
  sends_within l1 m → (∀ a, sends_within l2 (f a)) →
  sends_within (l1 ++ l2) (m ≫= f).
Proof.
  intros Hm Hf h. rewrite run_bind. destruct (returned (m h)) as [e|a]; simpl.
  - apply sublist_inserts_r, Hm.
  - rewrite requests_app, fmap_app. apply sublist_app; [apply Hm|apply Hf].
Qed.

Lemma sleeps_within_bind l1 l2 m f :
  sleeps_within l1 m → (∀ a, sleeps_within l2 (f a)) →
  sleeps_within (l1 ++ l2) (m ≫= f).
Proof.
  intros Hm Hf h. rewrite run_bind. destruct (returned (m h)) as [e|a]; simpl.
  - apply sublist_inserts_r, Hm.
  - rewrite sleeps_app. apply sublist_app; [apply Hm|apply Hf].
Qed.

End io_facts.

Section io_facts_one.
Context {A : Type}.
Implicit Types (m body : IO A) (handler : exception → IO A).

Lemma run_try body handler h :
  try_except body handler h =
    match returned (body h) with
    | inl e => prepend (events (body h)) (handler e (h ++ events (body h)))
    | inr a => body h
    end.
Proof. reflexivity. Qed.

Lemma run_try_catch body handler h :
  try_except body handler h = catch handler h (body h).
Proof. reflexivity. Qed.

Lemma catch_inl handler h evs e :
  catch handler h (Ran evs (inl e)) = prepend evs (handler e (h ++ evs)).
Proof. reflexivity. Qed.

Lemma catch_inr handler h evs (a : A) :
  catch handler h (Ran evs (inr a)) = Ran evs (inr a).
Proof. reflexivity. Qed.

Lemma run_try_Ran body handler h evs r :
  body h = Ran evs r →
  try_except body handler h =
    match r with
    | inl e => prepend evs (handler e (h ++ evs))
    | inr a => Ran evs (inr a)
    end.
Proof. intros Hb. rewrite run_try, Hb. by destruct r. Qed.

Lemma run_ret (a : A) h : mret (M := IO) a h = Ran [] (inr a).
Proof. reflexivity. Qed.

Lemma run_raise e h : io_raise (A := A) e h = Ran [] (inl e).
Proof. reflexivity. Qed.

Lemma prepend_Ran evs evs' (r : exception + A) :
  prepend evs (Ran evs' r) = Ran (evs ++ evs') r.
Proof. reflexivity. Qed.

Lemma prepend_prepend evs evs' (r : ran A) :
  prepend evs (prepend evs' r) = prepend (evs ++ evs') r.
Proof. unfold prepend. simpl. by rewrite app_assoc. Qed.

Lemma events_prepend evs (r : ran A) : events (prepend evs r) = evs ++ events r.
Proof. reflexivity. Qed.

Lemma returned_prepend evs (r : ran A) : returned (prepend evs r) = returned r.
Proof. reflexivity. Qed.

Lemma prepend_nil (r : ran A) : prepend [] r = r.
Proof. by destruct r. Qed.

Lemma may_return_ret (a : A) (Q : A → Prop) : Q a → may_return (mret a) Q.
Proof. intros HQ h a' [= <-]. exact HQ. Qed.

Lemma returns_ret (a : A) (Q : A → Prop) : Q a → returns (mret a) Q.
Proof. intros HQ h. by exists a. Qed.

Lemma may_return_raise e (Q : A → Prop) : may_return (io_raise e) Q.
Proof. by intros h a. Qed.

Lemma may_return_impl m (P Q : A → Prop) :
  may_return m P → (∀ a, P a → Q a) → may_return m Q.
Proof. intros Hm HPQ h a Ha. by eapply HPQ, Hm. Qed.

Lemma returns_may_return m (Q : A → Prop) : returns m Q → may_return m Q.
Proof.
  intros Hm h a Ha. destruct (Hm h) as (a' & Ha' & HQ). congruence.
Qed.

Lemma may_return_try body handler (Q : A → Prop) :
  may_return body Q → (∀ e, may_return (handler e) Q) →
  may_return (try_except body handler) Q.
Proof.
  intros Hb Hh h a. rewrite run_try.
  destruct (returned (body h)) as [e|a'] eqn:Hr; simpl.
  - apply Hh.
  - rewrite Hr. intros [= <-]. by eapply Hb.
Qed.

Lemma returns_try body handler (Q : A → Prop) :
  may_return body Q → (∀ e, returns (handler e) Q) →
  returns (try_except body handler) Q.
Proof.
  intros Hb Hh h. rewrite run_try.
  destruct (returned (body h)) as [e|a] eqn:Hr; simpl.
  - apply Hh.
  - exists a. split; [done|]. by eapply Hb.
Qed.

Lemma sends_within_mono l l' m :
  l `sublist_of` l' → sends_within l m → sends_within l' m.
Proof. intros Hl Hm h. etrans; [apply Hm|exact Hl]. Qed.

Lemma sends_within_ret l (a : A) : sends_within l (mret a).
Proof. intros h. apply sublist_nil_l. Qed.

Lemma sends_within_raise l e : sends_within l (io_raise e : IO A).
Proof. intros h. apply sublist_nil_l. Qed.

Lemma sends_within_lift l (m : M A) : sends_within l (lift m).
Proof. intros h. simpl. rewrite requests_Logged. apply sublist_nil_l. Qed.

Lemma sends_within_try l1 l2 body handler :
  sends_within l1 body → (∀ e, sends_within l2 (handler e)) →
  sends_within (l1 ++ l2) (try_except body handler).
Proof.
  intros Hb Hh h. rewrite run_try.
  destruct (returned (body h)) as [e|a]; simpl.
  - rewrite requests_app, fmap_app. apply sublist_app; [apply Hb|apply Hh].
  - apply sublist_inserts_r, Hb.
Qed.

Lemma sleeps_within_mono l l' m :
  l `sublist_of` l' → sleeps_within l m → sleeps_within l' m.
Proof. intros Hl Hm h. etrans; [apply Hm|exact Hl]. Qed.

Lemma sleeps_within_ret l (a : A) : sleeps_within l (mret a).
Proof. intros h. apply sublist_nil_l. Qed.

Lemma sleeps_within_raise l e : sleeps_within l (io_raise e : IO A).
Proof. intros h. apply sublist_nil_l. Qed.

Lemma sleeps_within_lift l (m : M A) : sleeps_within l (lift m).
Proof. intros h. simpl. rewrite sleeps_Logged. apply sublist_nil_l. Qed.

Lemma sleeps_within_try l1 l2 body handler :
  sleeps_within l1 body → (∀ e, sleeps_within l2 (handler e)) →
  sleeps_within (l1 ++ l2) (try_except body handler).
Proof.
  intros Hb Hh h. rewrite run_try.
  destruct (returned (body h)) as [e|a]; simpl.
  - rewrite sleeps_app. apply sublist_app; [apply Hb|apply Hh].
  - apply sublist_inserts_r, Hb.
Qed.

End io_facts_one.

#[global] Hint Rewrite @events_prepend @returned_prepend @prepend_Ran
  @catch_inl @catch_inr : history.

(** Logging: the record is added when there is a logger, and the run goes
    on; the world does not see it. *)
Lemma run_lift_log {B : Type} logger lvl msg (k : IO B) h :
  (lift (log logger lvl msg) ;; k) h =
    prepend (if logger then [Logged (lvl, msg)] else [])
      (k (h ++ if logger then [Logged (lvl, msg)] else [])).
Proof. by destruct logger. Qed.

Lemma run_io_info {B : Type} logger msg (k : IO B) h :
  (io_info logger msg ;; k) h =
    prepend (if logger then [Logged (INFO, msg)] else [])
      (k (h ++ if logger then [Logged (INFO, msg)] else [])).
Proof. apply run_lift_log. Qed.

Lemma run_io_error {B : Type} logger msg (k : IO B) h :
  (io_error logger msg ;; k) h =
    prepend (if logger then [Logged (ERROR, msg)] else [])
      (k (h ++ if logger then [Logged (ERROR, msg)] else [])).
Proof. apply run_lift_log. Qed.

Lemma outside_log h (logger : bool) lvl msg :
  outside (h ++ if logger then [Logged (lvl, msg)] else []) = outside h.
Proof. destruct logger; [|by rewrite app_nil_r]. by rewrite outside_app, app_nil_r. Qed.

Lemma sends_within_io_info l logger msg : sends_within l (io_info logger msg).
Proof. apply sends_within_lift. Qed.

Lemma sends_within_io_error l logger msg : sends_within l (io_error logger msg).
Proof. apply sends_within_lift. Qed.

Lemma sleeps_within_io_info l logger msg : sleeps_within l (io_info logger msg).
Proof. apply sleeps_within_lift. Qed.

Lemma sleeps_within_io_error l logger msg : sleeps_within l (io_error logger msg).
Proof. apply sleeps_within_lift. Qed.

Lemma may_return_True {A : Type} (m : IO A) : may_return m (λ _, True).
Proof. by intros h a. Qed.

(** A step that sends nothing, before or after one that may. *)
Lemma sends_within_bind_l {A B : Type} l (m : IO A) (f : A → IO B) :
  sends_within [] m → (∀ a, sends_within l (f a)) → sends_within l (m ≫= f).
Proof. intros Hm Hf. by apply (sends_within_bind [] l). Qed.

Lemma sends_within_bind_r {A B : Type} l (m : IO A) (f : A → IO B) :
  sends_within l m → (∀ a, sends_within [] (f a)) → sends_within l (m ≫= f).
Proof.
  intros Hm Hf. rewrite <- (app_nil_r l). by apply sends_within_bind.
Qed.

Lemma sends_within_try_l {A : Type} l (body : IO A) handler :
  sends_within l body → (∀ e, sends_within [] (handler e)) →
  sends_within l (try_except body handler).
Proof.
  intros Hb Hh. rewrite <- (app_nil_r l). by apply sends_within_try.
Qed.

Lemma sleeps_within_nil_bind {A B : Type} (m : IO A) (f : A → IO B) :
  sleeps_within [] m → (∀ a, sleeps_within [] (f a)) →
  sleeps_within [] (m ≫= f).
Proof. intros Hm Hf. by apply (sleeps_within_bind [] []). Qed.

Lemma sleeps_within_nil_try {A : Type} (body : IO A) handler :
  sleeps_within [] body → (∀ e, sleeps_within [] (handler e)) →
  sleeps_within [] (try_except body handler).
Proof. intros Hb Hh. by apply (sleeps_within_try [] []). Qed.

Lemma run_lift_inr {A B : Type} (m : M A) (k : A → IO B) a h :
  outcome m = inr a →
  (lift m ≫= k) h =
    prepend (Logged <$> trace m) (k a (h ++ (Logged <$> trace m))).
Proof. intros Hm. rewrite run_bind. simpl. by rewrite Hm. Qed.

Lemma run_lift_inl {A B : Type} (m : M A) (k : A → IO B) e h :
  outcome m = inl e →
  (lift m ≫= k) h = Ran (Logged <$> trace m) (inl (Raised e)).
Proof. intros Hm. rewrite run_bind. simpl. by rewrite Hm. Qed.

Lemma returns_io_info logger msg : returns (io_info logger msg) (λ _, True).
Proof. intros h. by exists tt. Qed.

Lemma returns_io_error logger msg : returns (io_error logger msg) (λ _, True).
Proof. intros h. by exists tt. Qed.

(** ** [transmitter.py]: the two small calls *)

Section transmitter_facts.
Context `{World} `{Python}.

Lemma run_send {B : Type} (r : request) (k : response → IO B) h :
  (send r ≫= k) h =
    match respond (outside h) r with
    | inl e => Ran [Sent r] (inl e)
    | inr resp => prepend [Sent r] (k resp (h ++ [Sent r]))
    end.
Proof. rewrite run_bind. simpl. by destruct (respond _ _). Qed.

Lemma run_now {B : Type} (k : N → IO B) h :
  (now ≫= k) h = k (time (outside h)) h.
Proof. rewrite run_bind. simpl. by rewrite app_nil_r, prepend_nil. Qed.

Lemma sends_within_send r : sends_within [target_of r] (send r).
Proof. intros h. reflexivity. Qed.

Lemma sleeps_within_send l r : sleeps_within l (send r).
Proof. intros h. apply sublist_nil_l. Qed.

Lemma sends_within_now l : sends_within l now.
Proof. intros h. apply sublist_nil_l. Qed.

Lemma sleeps_within_now l : sleeps_within l now.
Proof. intros h. apply sublist_nil_l. Qed.

(** The run of [baixar_danfse_pdf], by the answer of the portal. *)
Lemma run_baixar_danfse_pdf chave_acesso pfx_path pfx_password logger h :
  let request :=
    Request GET (URL_DANFSE +:+ "/" +:+ chave_acesso) None [] pfx_path
      pfx_password 30 true in
  ∃ evs,
    baixar_danfse_pdf chave_acesso pfx_path pfx_password logger h =
      Ran evs
        (inr match respond (outside h) request with
             | inl e => None
             | inr resp =>
                 if bool_decide (status_code resp = 200%Z)
                    && String.prefix "application/pdf"
                         (default EmptyString (content_type resp))
                 then Some (decode (b64encode (content resp)))
                 else None
             end) ∧
    outside evs = [Sent request].
Proof.
  intros request. unfold baixar_danfse_pdf. cbv zeta. fold request.
  rewrite run_io_info, run_try_catch. unfold pkcs12_get. fold request.
  rewrite run_send, outside_log.
  destruct (respond (outside h) request) as [e|resp].
  - autorewrite with history. rewrite run_io_error, run_ret.
    autorewrite with history.
    eexists. split; [reflexivity|]. autorewrite with history; reflexivity.
  - rewrite run_io_info.
    destruct (bool_decide _ && _);
      rewrite ?run_io_info, ?run_io_error, ?run_ret; autorewrite with history;
      (eexists; split; [reflexivity|]); autorewrite with history; reflexivity.
Qed.

(** X16. [baixar_danfse_pdf] never raises, whatever the portal does: it
    sends exactly one GET, to [URL_DANFSE/chave], never sleeps, and returns
    the base64 of the body when the answer has status 200 and a content
    type that starts with [application/pdf], [None] for every other answer
    and for every exception of the request. *)
Theorem baixar_danfse_pdf_total chave_acesso pfx_path pfx_password logger h :
  let request :=
    Request GET (URL_DANFSE +:+ "/" +:+ chave_acesso) None [] pfx_path
      pfx_password 30 true in
  let run := baixar_danfse_pdf chave_acesso pfx_path pfx_password logger h in
  requests (events run) = [request] ∧
  sleeps (events run) = [] ∧
  ∃ pdf_base64,
    returned run = inr pdf_base64 ∧
    match respond (outside h) request with
    | inl e => pdf_base64 = None
    | inr resp =>
        if bool_decide (status_code resp = 200%Z)
           && String.prefix "application/pdf"
                (default EmptyString (content_type resp))
        then pdf_base64 = Some (decode (b64encode (content resp)))
             ∧ base64_text (decode (b64encode (content resp)))
        else pdf_base64 = None
    end.
Proof.
  intros request run. subst run.
  destruct (run_baixar_danfse_pdf chave_acesso pfx_path pfx_password logger h)
    as (evs & -> & Hout).
  fold request in Hout |- *. cbn [events returned].
  rewrite <- (requests_outside evs), <- (sleeps_outside evs), Hout.
  split_and!; [reflexivity..|].
  eexists. split; [reflexivity|].
  destruct (respond (outside h) request) as [e|resp]; [done|].
  destruct (bool_decide _ && _); [|done].
  split; [done|]. apply base64_text_b64encode.
Qed.

(** What [enviar_cancelamento_pkcs12] adds to the request: nothing. One
    POST is sent, and its answer, response or exception, is the outcome of
    the call. *)
Lemma run_enviar_cancelamento_pkcs12 chave_acesso evento_b64_gzip pfx_path
    pfx_password logger h :
  let request :=
    Request POST (URL_PRODUCAO +:+ "/" +:+ chave_acesso +:+ "/eventos")
      (Some [("pedidoRegistroEventoXmlGZipB64", evento_b64_gzip)])
      json_headers pfx_path pfx_password 30 true in
  ∃ evs,
    enviar_cancelamento_pkcs12 chave_acesso evento_b64_gzip pfx_path
      pfx_password logger h = Ran evs (respond (outside h) request) ∧
    outside evs = [Sent request].
Proof.
  intros request. unfold enviar_cancelamento_pkcs12. cbv zeta.
  fold request. rewrite !run_io_info, run_try_catch. unfold pkcs12_post.
  fold request.
  rewrite run_send, !outside_app, !outside_if_log, !app_nil_r.
  destruct (respond (outside h) request) as [e|resp].
  - autorewrite with history. rewrite run_raise. autorewrite with history.
    eexists. split; [reflexivity|]. autorewrite with history; reflexivity.
  - rewrite run_io_info.
    destruct (bool_decide (text resp = EmptyString)).
    + rewrite run_bind, !run_ret. cbn [events returned].
      autorewrite with history.
      eexists. split; [reflexivity|]. autorewrite with history; reflexivity.
    + rewrite run_io_info, run_ret. autorewrite with history.
      eexists. split; [reflexivity|]. autorewrite with history; reflexivity.
Qed.

End transmitter_facts.

(** ** [client.py]: [cancel] *)

Section cancel_facts.
Context `{FileSystem} `{Cryptography} `{Etree} `{Hashlib}.
Context `{Gzip} `{World} `{Python} `{EtreeStrings} `{Decoders} `{Strings}.

(** The address a cancellation is posted to. *)
Lemma sends_within_enviar_cancelamento_pkcs12 chave_acesso evento_b64_gzip
    pfx_path pfx_password logger :
  sends_within [(POST, URL_PRODUCAO +:+ "/" +:+ chave_acesso +:+ "/eventos")]
    (enviar_cancelamento_pkcs12 chave_acesso evento_b64_gzip pfx_path
       pfx_password logger).
Proof.
  intros h.
  destruct (run_enviar_cancelamento_pkcs12 chave_acesso evento_b64_gzip
              pfx_path pfx_password logger h) as (evs & -> & Hout).
  cbn [events]. by rewrite <- requests_outside, Hout.
Qed.

Lemma sleeps_within_enviar_cancelamento_pkcs12 chave_acesso evento_b64_gzip
    pfx_path pfx_password logger :
  sleeps_within []
    (enviar_cancelamento_pkcs12 chave_acesso evento_b64_gzip pfx_path
       pfx_password logger).
Proof.
  intros h.
  destruct (run_enviar_cancelamento_pkcs12 chave_acesso evento_b64_gzip
              pfx_path pfx_password logger h) as (evs & -> & Hout).
  cbn [events]. by rewrite <- sleeps_outside, Hout.
Qed.

Lemma sends_within_set_text l s : sends_within l (set_text s).
Proof.
  unfold set_text. destruct (xml_compatible s);
    [apply sends_within_ret|apply sends_within_raise].
Qed.

Lemma sleeps_within_set_text l s : sleeps_within l (set_text s).
Proof.
  unfold set_text. destruct (xml_compatible s);
    [apply sleeps_within_ret|apply sleeps_within_raise].
Qed.

(** One turn of the loop appends one entry to one of the two lists, and
    returns. *)
Lemma cancel_item_step_returns pfx_path pfx_password logger item lists :
  returns (cancel_item_step pfx_path pfx_password logger item lists)
    (λ lists',
       (lists'.1 = lists.1 ++ [[("ws.response", dump CancelarNfseResposta_confirmacao)]]
        ∧ lists'.2 = lists.2)
       ∨ (lists'.1 = lists.1 ∧ ∃ msg, lists'.2 = lists.2 ++ [[("error", msg)]])).
Proof.
  unfold cancel_item_step.
  eapply returns_bind; [apply returns_io_info|intros _ _].
  apply returns_try.
  - unfold cancel_item_try. cbv zeta.
    repeat (eapply may_return_bind; [apply may_return_True|intros ? _]).
    case_bool_decide.
    + apply may_return_try; [|intros e]; apply may_return_ret; by left.
    + eapply may_return_bind; [apply may_return_True|intros mensagem _].
      apply may_return_ret. right. split; [done|]. by eexists.
  - intros e. apply returns_ret. right. split; [done|]. by eexists.
Qed.

Lemma cancel_loop_returns pfx_path pfx_password logger batch lists :
  returns (cancel_loop pfx_path pfx_password logger batch lists)
    (λ lists',
       ∃ k msgs,
         lists'.1 = lists.1
           ++ replicate k [("ws.response", dump CancelarNfseResposta_confirmacao)]
         ∧ lists'.2 = lists.2 ++ ((λ msg, [("error", msg)]) <$> msgs)
         ∧ k + length msgs = length batch).
Proof.
  revert lists. induction batch as [|item batch IH]; intros lists.
  - apply returns_ret. exists 0, []. by rewrite !app_nil_r.
  - cbn [cancel_loop].
    eapply returns_bind; [apply cancel_item_step_returns|].
    intros lists1 Hstep h.
    destruct (IH lists1 h) as (lists2 & Hrun & k & msgs & Hres & Herr & Hlen).
    exists lists2. split; [exact Hrun|].
    destruct Hstep as [[E1 E2]|[E1 (msg & E2)]].
    + exists (S k), msgs. rewrite Hres, Herr, E1, E2. cbn [replicate length].
      split_and!; [by rewrite <- app_assoc|done|lia].
    + exists k, (msg :: msgs). rewrite Hres, Herr, E1, E2.
      cbn [fmap list_fmap length].
      split_and!; [done|by rewrite <- app_assoc|lia].
Qed.

Lemma sends_within_cancel_item_step pfx_path pfx_password logger item lists :
  sends_within
    [(POST, URL_PRODUCAO +:+ "/" +:+ cancel_chave_acesso item +:+ "/eventos")]
    (cancel_item_step pfx_path pfx_password logger item lists).
Proof.
  unfold cancel_item_step.
  apply sends_within_bind_l; [apply sends_within_io_info|intros _].
  apply sends_within_try_l; [|intros e; apply sends_within_ret].
  unfold cancel_item_try. cbv zeta.
  apply sends_within_bind_l; [apply sends_within_io_info|intros _].
  apply sends_within_bind_l; [apply sends_within_lift|intros xml_signed].
  apply sends_within_bind_l; [apply sends_within_io_info|intros _].
  apply sends_within_bind_l; [apply sends_within_io_info|intros _].
  apply sends_within_bind_l; [apply sends_within_now|intros instant].
  apply sends_within_bind_l; [apply sends_within_io_info|intros _].
  apply sends_within_bind_r;
    [apply sends_within_enviar_cancelamento_pkcs12|intros response].
  apply sends_within_bind_l; [apply sends_within_io_info|intros _].
  case_bool_decide.
  - apply sends_within_try_l; [|intros e]; apply sends_within_ret.
  - apply sends_within_bind_l; [apply sends_within_set_text|intros mensagem].
    apply sends_within_ret.
Qed.

Lemma sleeps_within_cancel_item_step pfx_path pfx_password logger item lists :
  sleeps_within [] (cancel_item_step pfx_path pfx_password logger item lists).
Proof.
  unfold cancel_item_step.
  apply sleeps_within_nil_bind; [apply sleeps_within_io_info|intros _].
  apply sleeps_within_nil_try; [|intros e; apply sleeps_within_ret].
  unfold cancel_item_try. cbv zeta.
  apply sleeps_within_nil_bind; [apply sleeps_within_io_info|intros _].
  apply sleeps_within_nil_bind; [apply sleeps_within_lift|intros xml_signed].
  apply sleeps_within_nil_bind; [apply sleeps_within_io_info|intros _].
  apply sleeps_within_nil_bind; [apply sleeps_within_io_info|intros _].
  apply sleeps_within_nil_bind; [apply sleeps_within_now|intros instant].
  apply sleeps_within_nil_bind; [apply sleeps_within_io_info|intros _].
  apply sleeps_within_nil_bind;
    [apply sleeps_within_enviar_cancelamento_pkcs12|intros response].
  apply sleeps_within_nil_bind; [apply sleeps_within_io_info|intros _].
  case_bool_decide.
  - apply sleeps_within_nil_try; [|intros e]; apply sleeps_within_ret.
  - apply sleeps_within_nil_bind; [apply sleeps_within_set_text|intros mensagem].
    apply sleeps_within_ret.
Qed.

Lemma sends_within_cancel_loop pfx_path pfx_password logger batch lists :
  sends_within
    ((λ item,
        (POST, URL_PRODUCAO +:+ "/" +:+ cancel_chave_acesso item +:+ "/eventos"))
       <$> batch)
    (cancel_loop pfx_path pfx_password logger batch lists).
Proof.
  revert lists. induction batch as [|item batch IH]; intros lists.
  - apply sends_within_ret.
  - cbn [cancel_loop fmap list_fmap].
    apply (sends_within_bind [_] _);
      [apply sends_within_cancel_item_step|intros lists'; apply IH].
Qed.

Lemma sleeps_within_cancel_loop pfx_path pfx_password logger batch lists :
  sleeps_within [] (cancel_loop pfx_path pfx_password logger batch lists).
Proof.
  revert lists. induction batch as [|item batch IH]; intros lists.
  - apply sleeps_within_ret.
  - cbn [cancel_loop].
    apply sleeps_within_nil_bind;
      [apply sleeps_within_cancel_item_step|intros lists'; apply IH].
Qed.

Lemma run_check_certificate self h :
  check_certificate self h =
    match nonempty (pfx_file self) with
    | None => Ran [] (inl (Raised (ValueError msg_sem_certificado)))
    | Some pfx_path =>
        if os_path_exists pfx_path then
          match nonempty (pfx_passwd self) with
          | None => Ran [] (inl (Raised (ValueError msg_sem_senha)))
          | Some pfx_password => Ran [] (inr (pfx_path, pfx_password))
          end
        else Ran [] (inl (Raised (ValueError msg_sem_certificado)))
    end.
Proof.
  unfold check_certificate. destruct (nonempty (pfx_file self)); [|done].
  destruct (os_path_exists _); [|done]. by destruct (nonempty (pfx_passwd self)).
Qed.

(** [cancel] once the two checks are passed. *)
Lemma run_cancel self pfx_path pfx_password h :
  nonempty (pfx_file self) = Some pfx_path →
  os_path_exists pfx_path = true →
  nonempty (pfx_passwd self) = Some pfx_password →
  cancel_batch self ≠ [] →
  ∃ evs,
    outside evs = [] ∧
    cancel self h =
      prepend evs
        (cancel_loop pfx_path pfx_password (logger self) (cancel_batch self)
           ([], []) (h ++ evs)).
Proof.
  intros Hfile Hex Hpw Hbatch. unfold cancel.
  rewrite (run_bind_Ran _ _ _ [] (inr (pfx_path, pfx_password)))
    by by rewrite run_check_certificate, Hfile, Hex, Hpw.
  rewrite prepend_nil, app_nil_r.
  destruct (cancel_batch self) as [|item batch] eqn:Hb; [done|].
  rewrite run_io_info. eexists. split; [|reflexivity]. apply outside_if_log.
Qed.

(** X17. [cancel] and [send_batch] ask for a certificate file that is
    named and exists, and for a password, before anything else: without them
    they raise [ValueError] with the message of the missing one, and nothing
    is logged, signed or sent, whatever the batches hold. The file is asked
    for first. With both in place and no RPS in the batch, [send_batch]
    returns its error without logging it. *)
Theorem certificate_guards self h :
  (nonempty (pfx_file self) = None
   ∨ (∃ pfx_path, pfx_file self = Some pfx_path ∧ os_path_exists pfx_path = false) →
   cancel self h = Ran [] (inl (Raised (ValueError msg_sem_certificado))) ∧
   send_batch self h = Ran [] (inl (Raised (ValueError msg_sem_certificado)))) ∧
  (∀ pfx_path,
     nonempty (pfx_file self) = Some pfx_path →
     os_path_exists pfx_path = true →
     nonempty (pfx_passwd self) = None →
     cancel self h = Ran [] (inl (Raised (ValueError msg_sem_senha))) ∧
     send_batch self h = Ran [] (inl (Raised (ValueError msg_sem_senha)))) ∧
  (∀ pfx_path pfx_password,
     nonempty (pfx_file self) = Some pfx_path →
     os_path_exists pfx_path = true →
     nonempty (pfx_passwd self) = Some pfx_password →
     rps_batch self = [] →
     send_batch self h = Ran [] (inr ([], [("error", msg_lote_rps_vazio)]))).
Proof.
  split; [|split].
  - intros Hfile. unfold cancel, send_batch.
    rewrite !run_bind, run_check_certificate.
    destruct Hfile as [->|(pfx_path & Hfile & Hex)]; [done|].
    destruct (nonempty (pfx_file self)) as [p|] eqn:Hp; [|done].
    apply nonempty_Some in Hp as [Hp _]. rewrite Hfile in Hp.
    injection Hp as <-. by rewrite Hex.
  - intros pfx_path Hfile Hex Hpw. unfold cancel, send_batch.
    by rewrite !run_bind, run_check_certificate, Hfile, Hex, Hpw.
  - intros pfx_path pfx_password Hfile Hex Hpw Hbatch. unfold send_batch.
    by rewrite run_bind, run_check_certificate, Hfile, Hex, Hpw, Hbatch.
Qed.

(** X18. With the certificate and the password in place and a batch that is
    not empty, [cancel] never raises: every item ends up in exactly one of
    the two lists it returns, so their lengths add up to the length of the
    batch. Every result is the same confirmation document, whatever the
    portal answered, and every error is a dictionary with the one key
    [error]. *)
Theorem cancel_accounting self pfx_path pfx_password h :
  nonempty (pfx_file self) = Some pfx_path →
  os_path_exists pfx_path = true →
  nonempty (pfx_passwd self) = Some pfx_password →
  cancel_batch self ≠ [] →
  ∃ results errors k msgs,
    returned (cancel self h) = inr (results, errors) ∧
    length results + length errors = length (cancel_batch self) ∧
    results = replicate k [("ws.response", dump CancelarNfseResposta_confirmacao)] ∧
    errors = (λ msg, [("error", msg)]) <$> msgs.
Proof.
  intros Hfile Hex Hpw Hbatch.
  destruct (run_cancel self pfx_path pfx_password h Hfile Hex Hpw Hbatch)
    as (evs & _ & ->).
  rewrite returned_prepend.
  destruct (cancel_loop_returns pfx_path pfx_password (logger self)
              (cancel_batch self) ([], []) (h ++ evs))
    as ([results errors] & Hrun & k & msgs & Hres & Herr & Hlen).
  simpl in Hres, Herr. subst results errors.
  eexists _, _, k, msgs. split; [exact Hrun|].
  rewrite length_replicate, length_fmap. by split_and!.
Qed.

(** X19. The requests of [cancel] are POSTs to
    [URL_PRODUCAO/chave/eventos] for items of the batch, in the order of the
    batch and at most one for each item; [cancel] sends no GET and never
    sleeps. *)
Theorem cancel_requests self h :
  target_of <$> requests (events (cancel self h)) `sublist_of`
    ((λ item,
        (POST, URL_PRODUCAO +:+ "/" +:+ cancel_chave_acesso item +:+ "/eventos"))
       <$> cancel_batch self) ∧
  sleeps (events (cancel self h)) = [].
Proof.
  unfold cancel. rewrite run_bind, run_check_certificate.
  destruct (nonempty (pfx_file self)) as [pfx_path|];
    [|split; [apply sublist_nil_l|done]].
  destruct (os_path_exists pfx_path); [|split; [apply sublist_nil_l|done]].
  destruct (nonempty (pfx_passwd self)) as [pfx_password|];
    [|split; [apply sublist_nil_l|done]].
  cbn [events returned]. rewrite prepend_nil.
  destruct (cancel_batch self) as [|item batch] eqn:Hb.
  - rewrite run_io_error, run_ret. autorewrite with history.
    cbn [events]. autorewrite with history. split; [apply sublist_nil_l|done].
  - rewrite run_io_info. autorewrite with history. split.
    + apply sends_within_cancel_loop.
    + apply sublist_nil_r. apply sleeps_within_cancel_loop.
Qed.

(** The [try] block of an item that the signer refuses. *)
Lemma run_cancel_item_try_unsigned pfx_path pfx_password logger item lists e h :
  outcome (assinar_xml (Str (cancel_xml item)) pfx_path (Some pfx_password)
             "infPedReg" logger) = inl e →
  ∃ evs,
    cancel_item_try pfx_path pfx_password logger item lists h
      = Ran evs (inl (Raised e)) ∧
    outside evs = [].
Proof.
  intros Hsign. unfold cancel_item_try. cbv zeta.
  rewrite run_io_info, (run_lift_inl _ _ _ _ Hsign). autorewrite with history.
  eexists. split; [reflexivity|]. autorewrite with history; reflexivity.
Qed.

Lemma run_cancel_item_step_unsigned pfx_path pfx_password logger item lists e h :
  outcome (assinar_xml (Str (cancel_xml item)) pfx_path (Some pfx_password)
             "infPedReg" logger) = inl e →
  ∃ evs,
    cancel_item_step pfx_path pfx_password logger item lists h
      = Ran evs (inr (lists.1, lists.2 ++ [[("error", str_exn e)]])) ∧
    outside evs = [].
Proof.
  intros Hsign. unfold cancel_item_step. rewrite run_io_info.
  match goal with
  | |- context [try_except _ _ ?h'] =>
      destruct (run_cancel_item_try_unsigned pfx_path pfx_password logger item
                  lists e h' Hsign) as (evs & Hrun & Hout)
  end.
  rewrite (run_try_Ran _ _ _ _ _ Hrun), run_ret. autorewrite with history.
  eexists. split; [reflexivity|]. autorewrite with history. by rewrite Hout.
Qed.

(** The [try] block of an item that the signer signs: one POST carries
    the compressed signed document, and the answer decides the list. *)
Lemma run_cancel_item_try_signed pfx_path pfx_password logger item lists
    xml_signed h :
  outcome (assinar_xml (Str (cancel_xml item)) pfx_path (Some pfx_password)
             "infPedReg" logger) = inr xml_signed →
  let request :=
    Request POST
      (URL_PRODUCAO +:+ "/" +:+ cancel_chave_acesso item +:+ "/eventos")
      (Some [("pedidoRegistroEventoXmlGZipB64",
              gerar_dpsXmlGZipB64 (time (outside h)) xml_signed)])
      json_headers pfx_path pfx_password 30 true in
  ∃ evs,
    cancel_item_try pfx_path pfx_password logger item lists h =
      Ran evs
        match respond (outside h) request with
        | inl e => inl e
        | inr response =>
            if bool_decide (status_code response = 200%Z
                            ∨ status_code response = 201%Z)
            then
              inr (lists.1 ++ [[("ws.response", dump CancelarNfseResposta_confirmacao)]],
                   lists.2)
            else
              let mensagem :=
                if bool_decide (text response = EmptyString)
                then "Erro ao cancelar NFSe" else text response in
              if xml_compatible mensagem
              then inr (lists.1,
                        lists.2 ++ [[("error", dump (CancelarNfseResposta_erro mensagem))]])
              else inl (Raised (ValueError msg_xml_compatible))
        end ∧
    outside evs = [Sent request].
Proof.
  intros Hsign request. unfold cancel_item_try. cbv zeta.
  rewrite run_io_info, (run_lift_inr _ _ _ _ Hsign), !run_io_info, run_now.
  rewrite run_io_info.
  rewrite !outside_app, !outside_if_log, outside_Logged, !app_nil_r.
  match goal with
  | |- context [(enviar_cancelamento_pkcs12 ?c ?ev ?p ?pw ?l ≫= _) ?h'] =>
      destruct (run_enviar_cancelamento_pkcs12 c ev p pw l h')
        as (evs & Hrun & Hout);
      assert (outside h' = outside h) as Hout'
        by (rewrite !outside_app, !outside_if_log, outside_Logged;
            by rewrite !app_nil_r);
      rewrite Hout' in Hrun; fold request in Hrun, Hout;
      rewrite (run_bind_Ran _ _ _ _ _ Hrun)
  end.
  destruct (respond (outside h) request) as [e|response].
  - autorewrite with history. eexists. split; [reflexivity|].
    autorewrite with history. by rewrite Hout.
  - rewrite run_io_info. case_bool_decide.
    + rewrite run_try_catch, !run_ret.
      autorewrite with history. eexists. split; [reflexivity|].
      autorewrite with history. by rewrite Hout.
    + rewrite run_bind. unfold set_text. cbv zeta.
      destruct (xml_compatible _); rewrite ?run_ret, ?run_raise;
        cbn [events returned]; rewrite ?run_ret; autorewrite with history;
        (eexists; split; [reflexivity|]); autorewrite with history;
        by rewrite Hout.
Qed.

Lemma run_cancel_item_step_signed pfx_path pfx_password logger item lists
    xml_signed h :
  outcome (assinar_xml (Str (cancel_xml item)) pfx_path (Some pfx_password)
             "infPedReg" logger) = inr xml_signed →
  let request :=
    Request POST
      (URL_PRODUCAO +:+ "/" +:+ cancel_chave_acesso item +:+ "/eventos")
      (Some [("pedidoRegistroEventoXmlGZipB64",
              gerar_dpsXmlGZipB64 (time (outside h)) xml_signed)])
      json_headers pfx_path pfx_password 30 true in
  ∃ evs,
    cancel_item_step pfx_path pfx_password logger item lists h =
      Ran evs
        (inr match respond (outside h) request with
             | inl e => (lists.1, lists.2 ++ [[("error", str_exception e)]])
             | inr response =>
                 if bool_decide (status_code response = 200%Z
                                 ∨ status_code response = 201%Z)
                 then
                   (lists.1 ++ [[("ws.response", dump CancelarNfseResposta_confirmacao)]],
                    lists.2)
                 else
                   let mensagem :=
                     if bool_decide (text response = EmptyString)
                     then "Erro ao cancelar NFSe" else text response in
                   if xml_compatible mensagem
                   then (lists.1,
                         lists.2 ++ [[("error", dump (CancelarNfseResposta_erro mensagem))]])
                   else (lists.1, lists.2 ++ [[("error", msg_xml_compatible)]])
             end) ∧
    outside evs = [Sent request].
Proof.
  intros Hsign request. unfold cancel_item_step. rewrite run_io_info.
  match goal with
  | |- context [try_except _ _ ?h'] =>
      destruct (run_cancel_item_try_signed pfx_path pfx_password logger item
                  lists xml_signed h' Hsign) as (evs & Hrun & Hout);
      rewrite outside_log in Hrun, Hout; fold request in Hrun, Hout;
      rewrite (run_try_Ran _ _ _ _ _ Hrun)
  end.
  destruct (respond (outside h) request) as [e|response].
  - rewrite run_ret. autorewrite with history.
    eexists. split; [reflexivity|]. autorewrite with history. by rewrite Hout.
  - destruct (bool_decide _).
    + autorewrite with history. eexists. split; [reflexivity|].
      autorewrite with history. by rewrite Hout.
    + cbv zeta. destruct (xml_compatible _).
      * autorewrite with history. eexists. split; [reflexivity|].
        autorewrite with history. by rewrite Hout.
      * rewrite run_ret. autorewrite with history.
        eexists. split; [reflexivity|]. autorewrite with history.
        by rewrite Hout.
Qed.

(** X20. When the certificate cannot be loaded (the file cannot be read,
    the container cannot be decoded, the password is wrong, or the key or
    the certificate is missing), [cancel] sends nothing: every item of the
    batch is reported with the loader's message, and no result is
    returned. *)
Theorem cancel_unreadable_certificate self pfx_path pfx_password e h :
  nonempty (pfx_file self) = Some pfx_path →
  os_path_exists pfx_path = true →
  nonempty (pfx_passwd self) = Some pfx_password →
  cancel_batch self ≠ [] →
  outcome (load_pfx (logger self) pfx_path (Some pfx_password)) = inl e →
  requests (events (cancel self h)) = [] ∧
  returned (cancel self h)
    = inr ([], replicate (length (cancel_batch self)) [("error", str_exn e)]).
Proof.
  intros Hfile Hex Hpw Hbatch Hload.
  assert (∀ xml,
            outcome (assinar_xml xml pfx_path (Some pfx_password) "infPedReg"
                       (logger self)) = inl e) as Hsign.
  { intros xml. by rewrite outcome_assinar_xml, outcome_assinar_xml_root, Hload. }
  assert (∀ batch lists h',
            ∃ evs,
              cancel_loop pfx_path pfx_password (logger self) batch lists h'
                = Ran evs
                    (inr (lists.1,
                          lists.2
                            ++ replicate (length batch) [("error", str_exn e)]))
              ∧ outside evs = [])
    as Hloop.
  { induction batch as [|item batch IH]; intros lists h'.
    - cbn [cancel_loop]. rewrite run_ret. cbn [replicate length].
      rewrite app_nil_r. exists []. by destruct lists.
    - cbn [cancel_loop].
      destruct (run_cancel_item_step_unsigned pfx_path pfx_password
                  (logger self) item lists e h' (Hsign _))
        as (evs & Hrun & Hout).
      rewrite (run_bind_Ran _ _ _ _ _ Hrun).
      destruct (IH (lists.1, lists.2 ++ [[("error", str_exn e)]]) (h' ++ evs))
        as (evs' & -> & Hout').
      autorewrite with history. eexists. split.
      + cbn [fst snd length replicate]. by rewrite <- app_assoc.
      + autorewrite with history. by rewrite Hout, Hout'. }
  destruct (run_cancel self pfx_path pfx_password h Hfile Hex Hpw Hbatch)
    as (evs & Hout & ->).
  destruct (Hloop (cancel_batch self) ([], []) (h ++ evs)) as (evs' & -> & Hout').
  autorewrite with history. cbn [events returned].
  rewrite <- requests_outside. autorewrite with history.
  by rewrite Hout, Hout'.
Qed.

(** X21. A batch of one item whose document the signer signs: [cancel]
    sends one POST, to the address of the item's key, whose payload is the
    signed document compressed at the time of the call and encoded in
    base64; an exception of the request is reported by its message, an
    answer with status 200 or 201 is a result, and any other answer is
    reported with its text (with a fixed text when it has none, with the
    message of [lxml] when the text is not fit for XML). *)
Theorem cancel_single self pfx_path pfx_password item xml_signed h :
  nonempty (pfx_file self) = Some pfx_path →
  os_path_exists pfx_path = true →
  nonempty (pfx_passwd self) = Some pfx_password →
  cancel_batch self = [item] →
  outcome (assinar_xml (Str (cancel_xml item)) pfx_path (Some pfx_password)
             "infPedReg" (logger self)) = inr xml_signed →
  let request :=
    Request POST
      (URL_PRODUCAO +:+ "/" +:+ cancel_chave_acesso item +:+ "/eventos")
      (Some [("pedidoRegistroEventoXmlGZipB64",
              gerar_dpsXmlGZipB64 (time (outside h)) xml_signed)])
      json_headers pfx_path pfx_password 30 true in
  requests (events (cancel self h)) = [request] ∧
  returned (cancel self h) =
    inr match respond (outside h) request with
        | inl e => ([], [[("error", str_exception e)]])
        | inr response =>
            if bool_decide (status_code response = 200%Z
                            ∨ status_code response = 201%Z)
            then ([[("ws.response", dump CancelarNfseResposta_confirmacao)]], [])
            else
              let mensagem :=
                if bool_decide (text response = EmptyString)
                then "Erro ao cancelar NFSe" else text response in
              if xml_compatible mensagem
              then ([], [[("error", dump (CancelarNfseResposta_erro mensagem))]])
              else ([], [[("error", msg_xml_compatible)]])
        end.
Proof.
  intros Hfile Hex Hpw Hbatch Hsign request.
  destruct (run_cancel self pfx_path pfx_password h Hfile Hex Hpw)
    as (evs & Hout & ->); [by rewrite Hbatch|].
  rewrite Hbatch. cbn [cancel_loop].
  destruct (run_cancel_item_step_signed pfx_path pfx_password (logger self)
              item ([], []) xml_signed (h ++ evs) Hsign)
    as (evs' & Hrun & Hout').
  rewrite outside_app, Hout, app_nil_r in Hrun, Hout'.
  fold request in Hrun, Hout'.
  rewrite (run_bind_Ran _ _ _ _ _ Hrun), run_ret.
  autorewrite with history. cbn [events returned].
  rewrite <- requests_outside. autorewrite with history.
  rewrite Hout, Hout'. split; [reflexivity|]. f_equal.
Qed.

End cancel_facts.
(** ** Reasoning backwards from what a run must satisfy *)

Section wp_rules.
Context {A B : Type}.
Implicit Types (m : IO A) (f : A → IO B).

Lemma wp_bind m f h (Q : list event → exception + B → Prop) :
  wp m h
    (λ evs1 r1,
       match r1 with
       | inl e => Q evs1 (inl e)
       | inr a =>
           ∀ h', outside h' = outside h ++ evs1 →
                 wp (f a) h' (λ evs2 r2, Q (evs1 ++ evs2) r2)
       end) →
  wp (m ≫= f) h Q.
Proof.
  unfold wp. rewrite run_bind. destruct (returned (m h)) as [e|a]; [done|].
  intros Hf. rewrite events_prepend, returned_prepend, outside_app.
  apply Hf. apply outside_app.
Qed.

Lemma wp_mono m h (Q Q' : list event → exception + A → Prop) :
  wp m h Q → (∀ evs r, Q evs r → Q' evs r) → wp m h Q'.
Proof. unfold wp. auto. Qed.

Lemma wp_outside m h h' (Q : list event → exception + A → Prop) :
  (∀ h1 h2, outside h1 = outside h2 → m h1 = m h2) →
  outside h = outside h' → wp m h' Q → wp m h Q.
Proof. intros Hm Hh. unfold wp. by rewrite (Hm h h' Hh). Qed.

End wp_rules.

Section wp_rules_one.
Context {A : Type}.
Implicit Types (Q : list event → exception + A → Prop).

Lemma wp_ret (a : A) h Q : Q [] (inr a) → wp (mret a) h Q.
Proof. done. Qed.

Lemma wp_raise e h Q : Q [] (inl e) → wp (io_raise e) h Q.
Proof. done. Qed.

Lemma wp_call (r : exception + A) h Q : Q [] r → wp (io_call r) h Q.
Proof. done. Qed.

Lemma wp_lift (m : M A) h Q :
  Q [] (match outcome m with inl e => inl (Raised e) | inr a => inr a end) →
  wp (lift m) h Q.
Proof. unfold wp. simpl. by rewrite outside_Logged. Qed.

Lemma wp_try (body : IO A) handler h Q :
  wp body h
    (λ evs1 r1,
       match r1 with
       | inl e =>
           ∀ h', outside h' = outside h ++ evs1 →
                 wp (handler e) h' (λ evs2 r2, Q (evs1 ++ evs2) r2)
       | inr a => Q evs1 (inr a)
       end) →
  wp (try_except body handler) h Q.
Proof.
  unfold wp. rewrite run_try. destruct (returned (body h)) as [e|a] eqn:Hb.
  - intros Hh. rewrite events_prepend, returned_prepend, outside_app.
    apply Hh. apply outside_app.
  - by rewrite Hb.
Qed.

(** A step that the world does not see, and what follows it. *)
Lemma wp_info_bind logger msg (k : IO A) h Q :
  (∀ h', outside h' = outside h → wp k h' Q) →
  wp (io_info logger msg ;; k) h Q.
Proof.
  intros Hk. unfold wp.
  rewrite run_io_info, events_prepend, returned_prepend, outside_app, outside_if_log.
  apply Hk, outside_log.
Qed.

Lemma wp_error_bind logger msg (k : IO A) h Q :
  (∀ h', outside h' = outside h → wp k h' Q) →
  wp (io_error logger msg ;; k) h Q.
Proof.
  intros Hk. unfold wp.
  rewrite run_io_error, events_prepend, returned_prepend, outside_app, outside_if_log.
  apply Hk, outside_log.
Qed.

Lemma wp_info logger msg h (Q : list event → exception + () → Prop) :
  Q [] (inr tt) → wp (io_info logger msg) h Q.
Proof. intros HQ. unfold wp. simpl. by rewrite outside_Logged. Qed.

Lemma wp_error logger msg h (Q : list event → exception + () → Prop) :
  Q [] (inr tt) → wp (io_error logger msg) h Q.
Proof. intros HQ. unfold wp. simpl. by rewrite outside_Logged. Qed.

Lemma wp_call_bind {B : Type} (r : exception + B) (f : B → IO A) h Q :
  match r with
  | inl e => Q [] (inl e)
  | inr b => ∀ h', outside h' = outside h → wp (f b) h' Q
  end →
  wp (io_call r ≫= f) h Q.
Proof.
  intros Hr. unfold wp. rewrite run_bind. unfold io_call at 1 2 3.
  cbn [events returned]. destruct r as [e|b]; [done|].
  rewrite prepend_nil. apply Hr. by rewrite app_nil_r.
Qed.

Lemma wp_ret_bind {B : Type} (b : B) (f : B → IO A) h Q :
  (∀ h', outside h' = outside h → wp (f b) h' Q) →
  wp (mret b ≫= f) h Q.
Proof.
  intros Hf. unfold wp. rewrite run_bind, run_ret. cbn [events returned].
  rewrite prepend_nil. apply Hf. by rewrite app_nil_r.
Qed.

Lemma wp_sleep_bind n (k : IO A) h Q :
  (∀ h', outside h' = outside h ++ [Slept n] →
         wp k h' (λ evs r, Q (Slept n :: evs) r)) →
  wp (sleep n ;; k) h Q.
Proof.
  intros Hk. unfold wp. rewrite run_bind. simpl.
  apply (Hk (h ++ [Slept n])). by rewrite outside_app.
Qed.

(** A step that neither raises nor is seen by the world. *)
Lemma wp_quiet_bind {B : Type} (m : IO B) (b : B) (f : B → IO A) h Q :
  (∀ h0, wp m h0 (λ evs r, evs = [] ∧ r = inr b)) →
  (∀ h', outside h' = outside h → wp (f b) h' Q) →
  wp (m ≫= f) h Q.
Proof.
  intros Hm Hf. apply wp_bind. eapply wp_mono; [apply Hm|].
  intros evs r [-> ->] h' Hh'. rewrite app_nil_r in Hh'.
  eapply wp_mono; [apply Hf, Hh'|]. done.
Qed.

End wp_rules_one.

(** ** [transmitter.py]: [enviar_nfse_pkcs12] *)

Section enviar_nfse_facts.
Context `{World} `{Python} `{Etree} `{Decoders} `{Strings}.

Lemma wp_send_bind {A : Type} (req : request) (f : response → IO A) h
    (Q : list event → exception + A → Prop) :
  match respond (outside h) req with
  | inl e => Q [Sent req] (inl e)
  | inr resp =>
      ∀ h', outside h' = outside h ++ [Sent req] →
            wp (f resp) h' (λ evs r, Q (Sent req :: evs) r)
  end →
  wp (send req ≫= f) h Q.
Proof.
  intros Hq. unfold wp. rewrite run_send.
  destruct (respond (outside h) req) as [e|resp]; [done|].
  rewrite events_prepend, returned_prepend, outside_app.
  apply Hq. by rewrite outside_app.
Qed.

Lemma wp_baixar_danfse_pdf chave_acesso pfx_path pfx_password logger h
    (Q : list event → exception + option string → Prop) :
  let request :=
    Request GET (URL_DANFSE +:+ "/" +:+ chave_acesso) None [] pfx_path
      pfx_password 30 true in
  Q [Sent request] (inr (danfse_de (respond (outside h) request))) →
  wp (baixar_danfse_pdf chave_acesso pfx_path pfx_password logger) h Q.
Proof.
  intros request HQ. unfold wp.
  destruct (run_baixar_danfse_pdf chave_acesso pfx_path pfx_password logger h)
    as (evs & -> & Hout).
  cbn [events returned]. rewrite Hout. exact HQ.
Qed.

(** The requests and the sleeps of [k] failed attempts. *)
Lemma wp_tentativas turns max_retries chave_acesso pfx_path pfx_password logger
    pdf_base64 h (Q : list event → exception + option string → Prop) :
  let request :=
    Request GET (URL_DANFSE +:+ "/" +:+ chave_acesso) None [] pfx_path
      pfx_password 30 true in
  let failed k := concat (replicate k [Sent request; Slept 2]) in
  let attempt k := danfse_de (respond (outside h ++ failed k) request) in
  nonempty pdf_base64 = None →
  (∀ k, k < length turns →
        (∀ j, j < k → nonempty (attempt j) = None) →
        nonempty (attempt k) ≠ None →
        Q (failed k ++ [Sent request]) (inr (attempt k))) →
  (∀ pdf, nonempty pdf = None →
          (∀ j, j < length turns → nonempty (attempt j) = None) →
          Q (failed (length turns)) (inr pdf)) →
  wp (tentativas turns max_retries chave_acesso pfx_path pfx_password logger
        pdf_base64) h Q.
Proof.
  intros request failed attempt. subst attempt.
  revert pdf_base64 h Q. induction turns as [|i turns IH];
    intros pdf_base64 h Q Hpdf Hgood Hbad.
  - apply wp_ret. apply (Hbad pdf_base64 Hpdf). intros j Hj. inversion Hj.
  - cbn [tentativas]. apply wp_info_bind. intros h1 Hh1.
    apply wp_bind, wp_baixar_danfse_pdf. fold request. rewrite Hh1.
    intros h2 Hh2.
    assert (danfse_de (respond (outside h) request)
            = danfse_de (respond (outside h ++ failed 0) request)) as Hzero
      by (unfold failed; simpl; by rewrite app_nil_r).
    case_bool_decide as Hok.
    + apply wp_info_bind. intros h3 Hh3. apply wp_ret.
      rewrite Hzero. rewrite Hzero in Hok.
      apply (Hgood 0); [simpl; lia|intros j Hj; lia|exact Hok].
    + apply wp_sleep_bind. intros h3 Hh3. rewrite Hh2 in Hh3.
      assert (nonempty (danfse_de (respond (outside h) request)) = None) as Hno.
      { destruct (nonempty _); [|done]. by destruct Hok. }
      assert (∀ k, outside h3 ++ failed k = outside h ++ failed (S k)) as Hs.
      { intros k. by rewrite Hh3, <- !app_assoc. }
      apply (IH _ h3 (λ evs r, Q (failed 1 ++ evs) r)); [exact Hno|..].
      * intros k Hk Hfail Hsucc. rewrite Hs in Hsucc |- *.
        change (failed 1 ++ failed k ++ [Sent request])
          with (failed (S k) ++ [Sent request]).
        apply Hgood; [simpl; lia| |exact Hsucc].
        intros [|j] Hj; [by rewrite <- Hzero|].
        rewrite <- Hs. apply Hfail. lia.
      * intros pdf Hnone Hfail.
        change (failed 1 ++ failed (length turns))
          with (failed (length (i :: turns))).
        apply Hbad; [exact Hnone|].
        intros [|j] Hj; [by rewrite <- Hzero|].
        rewrite <- Hs. apply Hfail. simpl in Hj. lia.
Qed.

(** The first [try] block: the POST, whose exception is logged and raised
    again. *)
Lemma wp_post_try {A : Type} url payload pfx_path pfx_password logger
    (f : response → IO A) h (Q : list event → exception + A → Prop) :
  let post :=
    Request POST url (Some payload) json_headers pfx_path pfx_password 30 true in
  match respond (outside h) post with
  | inl e => Q [Sent post] (inl e)
  | inr resp =>
      ∀ h', outside h' = outside h ++ [Sent post] →
            wp (f resp) h' (λ evs r, Q (Sent post :: evs) r)
  end →
  wp (try_except
        (resp ← pkcs12_post url payload pfx_path pfx_password ;
         io_info logger
           ("[NFSe Nacional] Resposta HTTP recebida - Status: "
              +:+ pretty (status_code resp)) ;;
         mret resp)
        (λ e,
           io_error logger
             ("[NFSe Nacional] Erro na requisição HTTP: " +:+ str_exception e) ;;
           io_raise e)
      ≫= f) h Q.
Proof.
  intros post HQ. apply wp_bind, wp_try. unfold pkcs12_post. fold post.
  apply wp_send_bind.
  destruct (respond (outside h) post) as [e|resp].
  - intros h1 Hh1. apply wp_error_bind. intros h2 Hh2. apply wp_raise.
    by rewrite app_nil_r.
  - intros h1 Hh1. apply wp_info_bind. intros h2 Hh2. apply wp_ret.
    exact HQ.
Qed.

(** The answer is not a JSON object: nothing is sent. *)
Lemma wp_resposta_xml resp pfx_path pfx_password logger h
    (Q : list event → exception + envio → Prop) :
  (∀ xml_nfse pdf_base64,
     Q [] (inr (Envio (status_code resp) (text resp) xml_nfse pdf_base64
                  VNone VNone (Some (VList [])) (Some None)))) →
  wp (resposta_xml resp pfx_path pfx_password logger) h Q.
Proof.
  intros HQ. unfold resposta_xml. cbv zeta.
  assert (∀ e h1 evs,
            evs = [] →
            wp (io_error logger
                  ("[NFSe Nacional] Erro ao parsear resposta XML: "
                     +:+ str_exception e) ;;
                mret ((None, None) : option string * option string)) h1
              (λ evs2 r2,
                 match r2 with
                 | inl e0 => Q (evs ++ evs2) (inl e0)
                 | inr a =>
                     ∀ h', outside h' = outside h ++ evs ++ evs2 →
                           wp (mret (Envio (status_code resp) (text resp) a.1 a.2
                                       VNone VNone (Some (VList [])) (Some None)))
                             h' (λ evs3 r3, Q ((evs ++ evs2) ++ evs3) r3)
                 end)) as Hhandler.
  { intros e h1 evs ->. apply wp_error_bind. intros h2 Hh2. apply wp_ret.
    intros h3 Hh3. apply wp_ret. apply HQ. }
  apply wp_bind, wp_try. apply wp_call_bind.
  destruct (fromstring (encode (text resp))) as [e|root].
  { intros h1 Hh1. by apply Hhandler. }
  intros h1 Hh1. apply wp_call_bind.
  destruct (find_ns root "pdfBase64") as [e|pdf_el].
  { intros h2 Hh2. by apply Hhandler. }
  intros h2 Hh2. apply wp_call_bind.
  destruct (find_ns root "NFSe") as [e|nfse_el].
  { intros h3 Hh3. by apply Hhandler. }
  intros h3 Hh3. cbn [truthy andb]. apply wp_ret_bind. intros h4 Hh4.
  apply wp_ret. intros h5 Hh5. apply wp_ret. apply HQ.
Qed.

(** The block that unpacks the XML of the NFSe. *)
Lemma wp_xml_nfse data logger h :
  let gz_b64 :=
    value_or (dict_get data "nfseXmlGZipB64" VNone)
      (dict_get data "nfseXmlGzipB64" VNone) in
  wp (if truthy gz_b64 then
        try_except
          (xml_nfse ← io_call (descompactar gz_b64) ;
           io_info logger
             ("[NFSe Nacional] XML da NFSe extraído do GZIP (tamanho: "
                +:+ pretty (len xml_nfse) +:+ " caracteres)") ;;
           mret (Some xml_nfse))
          (λ e,
             io_error logger
               ("[NFSe Nacional] Erro ao descompactar XML da NFSe: "
                  +:+ str_exception e) ;;
             mret None)
      else mret None) h
    (λ evs r, evs = [] ∧ r = inr (xml_nfse_de data)).
Proof.
  intros gz_b64. unfold xml_nfse_de. cbv zeta. fold gz_b64.
  destruct (truthy gz_b64); [|by apply wp_ret].
  apply wp_try, wp_call_bind. destruct (descompactar gz_b64) as [e|xml].
  - intros h1 _. apply wp_error_bind. intros h2 _. by apply wp_ret.
  - intros h1 _. apply wp_info_bind. intros h2 _. by apply wp_ret.
Qed.

(** The answer is a JSON object. *)
Lemma wp_resposta_json resp data pfx_path pfx_password logger h
    (Q : list event → exception + envio → Prop) :
  let id_dps :=
    value_or (dict_get data "idDps" VNone) (dict_get data "idDPS" VNone) in
  let chave_acesso := dict_get data "chaveAcesso" VNone in
  let erros := value_or (dict_get data "erros" VNone) (VList []) in
  match mensagem_erro_de erros with
  | inl e => Q [] (inl e)
  | inr mensagem_erro =>
      match nonempty mensagem_erro with
      | Some _ =>
          Q [] (inr (Envio (status_code resp) (text resp) (xml_nfse_de data) None
                       id_dps chave_acesso (Some erros) (Some mensagem_erro)))
      | None =>
          if bool_decide (status_code resp = 200%Z ∨ status_code resp = 201%Z)
             && truthy chave_acesso
          then
            let get :=
              Request GET (URL_DANFSE +:+ "/" +:+ str_value chave_acesso) None []
                pfx_path pfx_password 30 true in
            let failed k := concat (replicate k [Sent get; Slept 2]) in
            let attempt k := danfse_de (respond (outside h ++ failed k) get) in
            (∀ k, k < 3 →
                  (∀ j, j < k → nonempty (attempt j) = None) →
                  nonempty (attempt k) ≠ None →
                  Q (failed k ++ [Sent get])
                    (inr (Envio (status_code resp) (text resp) (xml_nfse_de data)
                            (attempt k) id_dps chave_acesso None None))) ∧
            (∀ pdf, nonempty pdf = None →
                    (∀ j, j < 3 → nonempty (attempt j) = None) →
                    Q (failed 3)
                      (inr (Envio (status_code resp) (text resp) (xml_nfse_de data)
                              pdf id_dps chave_acesso None None)))
          else
            Q [] (inr (Envio (status_code resp) (text resp) (xml_nfse_de data) None
                         id_dps chave_acesso None None))
      end
  end →
  wp (resposta_json resp data pfx_path pfx_password logger) h Q.
Proof.
  intros id_dps chave_acesso erros HQ. unfold resposta_json. cbv zeta.
  fold id_dps chave_acesso erros.
  apply wp_call_bind.
  destruct (mensagem_erro_de erros) as [e|mensagem_erro]; [exact HQ|].
  intros h1 Hh1.
  apply (wp_quiet_bind _ tt).
  { intros h0. destruct mensagem_erro; [by apply wp_error|by apply wp_ret]. }
  intros h2 Hh2. apply (wp_quiet_bind _ tt).
  { intros h0. destruct (truthy id_dps); [by apply wp_info|by apply wp_ret]. }
  intros h3 Hh3. apply (wp_quiet_bind _ tt).
  { intros h0. destruct (truthy chave_acesso); [by apply wp_info|by apply wp_ret]. }
  intros h4 Hh4. apply (wp_quiet_bind _ (xml_nfse_de data)).
  { intros h0. apply wp_xml_nfse. }
  intros h5 Hh5.
  assert (outside h5 = outside h) as Hh by congruence.
  destruct (nonempty mensagem_erro) as [m|] eqn:Hm.
  { apply wp_ret. exact HQ. }
  destruct (bool_decide (status_code resp = 200%Z ∨ status_code resp = 201%Z)
            && truthy chave_acesso).
  - destruct HQ as [Hgood Hbad]. apply wp_bind.
    apply wp_info_bind. intros h6 Hh6.
    apply wp_tentativas; [done|..]; rewrite Hh6, Hh.
    + intros k Hk Hfail Hsucc h7 Hh7. apply wp_ret. rewrite app_nil_r.
      by apply Hgood.
    + intros pdf Hpdf Hfail h7 Hh7. apply wp_ret. rewrite app_nil_r.
      by apply Hbad.
  - apply wp_ret_bind. intros h6 Hh6. apply wp_ret. exact HQ.
Qed.

(** [enviar_nfse_pkcs12], path by path. *)
Lemma wp_enviar_nfse_pkcs12 dps_b64 pfx_path pfx_password logger h
    (Q : list event → exception + envio → Prop) :
  let post :=
    Request POST URL_PRODUCAO (Some [("dpsXmlGZipB64", dps_b64)]) json_headers
      pfx_path pfx_password 30 true in
  match respond (outside h) post with
  | inl e => Q [Sent post] (inl e)
  | inr resp =>
      match json_result resp with
      | inr (VDict data) =>
          let id_dps :=
            value_or (dict_get data "idDps" VNone) (dict_get data "idDPS" VNone) in
          let chave_acesso := dict_get data "chaveAcesso" VNone in
          let erros := value_or (dict_get data "erros" VNone) (VList []) in
          match mensagem_erro_de erros with
          | inl e => Q [Sent post] (inl e)
          | inr mensagem_erro =>
              match nonempty mensagem_erro with
              | Some _ =>
                  Q [Sent post]
                    (inr (Envio (status_code resp) (text resp)
                            (xml_nfse_de data) None id_dps chave_acesso
                            (Some erros) (Some mensagem_erro)))
              | None =>
                  if bool_decide (status_code resp = 200%Z
                                  ∨ status_code resp = 201%Z)
                     && truthy chave_acesso
                  then
                    let get :=
                      Request GET
                        (URL_DANFSE +:+ "/" +:+ str_value chave_acesso) None []
                        pfx_path pfx_password 30 true in
                    let failed k := concat (replicate k [Sent get; Slept 2]) in
                    let attempt k :=
                      danfse_de
                        (respond ((outside h ++ [Sent post]) ++ failed k) get) in
                    (∀ k, k < 3 →
                          (∀ j, j < k → nonempty (attempt j) = None) →
                          nonempty (attempt k) ≠ None →
                          Q (Sent post :: failed k ++ [Sent get])
                            (inr (Envio (status_code resp) (text resp)
                                    (xml_nfse_de data) (attempt k) id_dps
                                    chave_acesso None None))) ∧
                    (∀ pdf, nonempty pdf = None →
                            (∀ j, j < 3 → nonempty (attempt j) = None) →
                            Q (Sent post :: failed 3)
                              (inr (Envio (status_code resp) (text resp)
                                      (xml_nfse_de data) pdf id_dps
                                      chave_acesso None None)))
                  else
                    Q [Sent post]
                      (inr (Envio (status_code resp) (text resp)
                              (xml_nfse_de data) None id_dps chave_acesso
                              None None))
              end
          end
      | _ =>
          ∀ xml_nfse pdf_base64,
            Q [Sent post]
              (inr (Envio (status_code resp) (text resp) xml_nfse pdf_base64
                      VNone VNone (Some (VList [])) (Some None)))
      end
  end →
  wp (enviar_nfse_pkcs12 dps_b64 pfx_path pfx_password logger) h Q.
Proof.
  intros post HQ. unfold enviar_nfse_pkcs12. cbv zeta.
  apply wp_info_bind. intros h1 Hh1. apply wp_info_bind. intros h2 Hh2.
  apply wp_post_try. fold post. rewrite Hh2, Hh1.
  destruct (respond (outside h) post) as [e|resp]; [exact HQ|].
  intros h3 Hh3. apply wp_bind, wp_try. apply wp_call_bind.
  destruct (json_result resp) as [e|data].
  { intros h4 Hh4. apply wp_info_bind. intros h5 Hh5. apply wp_ret.
    intros h6 Hh6. apply wp_resposta_xml. intros xml_nfse pdf_base64. apply HQ. }
  intros h4 Hh4. apply wp_info_bind. intros h5 Hh5. apply wp_ret.
  intros h6 Hh6. rewrite !app_nil_r in Hh6.
  assert (outside h6 = outside h ++ [Sent post]) as Hh by congruence.
  destruct data as [| | | | | |data];
    try (apply wp_resposta_xml; intros xml_nfse pdf_base64; apply HQ).
  apply wp_resposta_json. rewrite Hh. cbv zeta in HQ |- *.
  exact HQ.
Qed.

Lemma mensagem_erro_de_inl (v : value) e :
  mensagem_erro_de (value_or v (VList [])) = inl e
  ↔ truthy v = true ∧ iterate v = inl e.
Proof.
  unfold value_or, mensagem_erro_de. destruct (truthy v) eqn:Hv.
  - rewrite Hv. destruct (iterate v) as [e'|entries]; split.
    + intros [= ->]. done.
    + intros [_ [= ->]]. done.
    + discriminate.
    + intros [_ ?]. discriminate.
  - simpl. split; [discriminate|]. intros [? _]. discriminate.
Qed.


(** X23: [enviar_nfse_pkcs12] raises in two cases only: the POST itself
    raises, and that exception is passed on; or the answer is a JSON object
    whose [erros] is true but cannot be iterated (a number, [true]), and then
    the [TypeError] of the [for] leaves the function. Either way the POST is
    the only request sent. *)
Theorem enviar_nfse_raises dps_b64 pfx_path pfx_password logger h e :
  let post := post_dps dps_b64 pfx_path pfx_password in
  let run := enviar_nfse_pkcs12 dps_b64 pfx_path pfx_password logger h in
  (returned run = inl e ↔
     respond (outside h) post = inl e ∨
     ∃ resp data,
       respond (outside h) post = inr resp ∧
       json_result resp = inr (VDict data) ∧
       truthy (dict_get data "erros" VNone) = true ∧
       iterate (dict_get data "erros" VNone) = inl e) ∧
  (returned run = inl e → outside (events run) = [Sent post]).
Proof.
  intros post run. subst run. unfold post_dps in post.
  pose proof (wp_enviar_nfse_pkcs12 dps_b64 pfx_path pfx_password logger h
    (λ evs r,
       (r = inl e ↔
          respond (outside h) post = inl e ∨
          ∃ resp data,
            respond (outside h) post = inr resp ∧
            json_result resp = inr (VDict data) ∧
            truthy (dict_get data "erros" VNone) = true ∧
            iterate (dict_get data "erros" VNone) = inl e) ∧
       (r = inl e → evs = [Sent post]))) as Hwp.
  unfold wp in Hwp. apply Hwp. clear Hwp. cbv zeta. fold post.
  destruct (respond (outside h) post) as [e'|resp] eqn:Hresp.
  { split; [|done]. split.
    - intros [= ->]. by left.
    - intros [[= ->]|(resp & data & ? & _)]; [done|discriminate]. }
  assert (∀ (a : envio) evs,
            (∀ data, json_result resp = inr (VDict data) →
                     mensagem_erro_de
                       (value_or (dict_get data "erros" VNone) (VList []))
                     ≠ inl e) →
            ((inr a : exception + envio) = inl e ↔
               (inr resp : exception + response) = inl e ∨
               ∃ resp0 data,
                 (inr resp : exception + response) = inr resp0 ∧
                 json_result resp0 = inr (VDict data) ∧
                 truthy (dict_get data "erros" VNone) = true ∧
                 iterate (dict_get data "erros" VNone) = inl e) ∧
            ((inr a : exception + envio) = inl e → evs = [Sent post])) as Hreturns.
  { intros a evs Hno. split; [|discriminate]. split; [discriminate|].
    intros [?|(resp0 & data & [= <-] & Hjson & Herr)]; [discriminate|].
    destruct (Hno data Hjson). by apply mensagem_erro_de_inl. }
  destruct (json_result resp) as [e'|data] eqn:Hjson.
  { intros xml_nfse pdf_base64. apply Hreturns. intros data. discriminate. }
  destruct data as [| | | | | |data];
    try (intros xml_nfse pdf_base64; apply Hreturns; intros data'; discriminate).
  destruct (mensagem_erro_de _) as [e'|mensagem] eqn:Hmsg.
  { split; [|done]. split.
    - intros [= ->]. right. exists resp, data. split; [done|]. split; [done|].
      by apply mensagem_erro_de_inl.
    - intros [?|(resp0 & data0 & [= <-] & Hjson0 & Herr)]; [discriminate|].
      rewrite Hjson in Hjson0. injection Hjson0 as <-.
      apply mensagem_erro_de_inl in Herr. congruence. }
  assert (∀ data0, (inr (VDict data) : exception + value) = inr (VDict data0) →
                   mensagem_erro_de
                     (value_or (dict_get data0 "erros" VNone) (VList []))
                   ≠ inl e) as Hno.
  { intros data0 [= <-]. rewrite Hmsg. discriminate. }
  destruct (nonempty mensagem); [by apply Hreturns|].
  destruct (_ && _); [|by apply Hreturns].
  split; intros; by apply Hreturns.
Qed.

(** X24: when the answer to the POST is not a JSON object (its body is not
    JSON, or is JSON of another kind), no second request is sent, whatever
    the status and the body: the download of the XML branch never runs. The
    dictionary returned has [id_dps] and [chave_acesso] [None], [erros]
    empty and [mensagem_erro] [None], for an answer of any status. *)
Theorem enviar_nfse_not_json dps_b64 pfx_path pfx_password logger h resp :
  let post := post_dps dps_b64 pfx_path pfx_password in
  let run := enviar_nfse_pkcs12 dps_b64 pfx_path pfx_password logger h in
  respond (outside h) post = inr resp →
  (∀ data, json_result resp ≠ inr (VDict data)) →
  outside (events run) = [Sent post] ∧
  ∃ xml_nfse pdf_base64,
    returned run
      = inr (Envio (status_code resp) (text resp) xml_nfse pdf_base64 VNone VNone
               (Some (VList [])) (Some None)).
Proof.
  intros post run Hresp Hjson. subst run. unfold post_dps in post.
  pose proof (wp_enviar_nfse_pkcs12 dps_b64 pfx_path pfx_password logger h
    (λ evs r,
       evs = [Sent post] ∧
       ∃ xml_nfse pdf_base64,
         r = inr (Envio (status_code resp) (text resp) xml_nfse pdf_base64 VNone
                    VNone (Some (VList [])) (Some None)))) as Hwp.
  unfold wp in Hwp. apply Hwp. clear Hwp. cbv zeta. fold post. rewrite Hresp.
  destruct (json_result resp) as [e|[| | | | | |data]]; try by eauto.
  by destruct (Hjson data).
Qed.

(** X25: when the answer is a JSON object whose [erros] give a message, the
    function returns the dictionary with [erros] and [mensagem_erro] and
    without a document, and sends nothing after the POST: also when the
    status is 200 or 201 and the answer carries a [chaveAcesso]. *)
Theorem enviar_nfse_errors dps_b64 pfx_path pfx_password logger h resp data
    mensagem :
  let post := post_dps dps_b64 pfx_path pfx_password in
  let run := enviar_nfse_pkcs12 dps_b64 pfx_path pfx_password logger h in
  let erros := value_or (dict_get data "erros" VNone) (VList []) in
  respond (outside h) post = inr resp →
  json_result resp = inr (VDict data) →
  mensagem_erro_de erros = inr (Some mensagem) →
  mensagem ≠ EmptyString →
  outside (events run) = [Sent post] ∧
  returned run
    = inr (Envio (status_code resp) (text resp) (xml_nfse_de data) None
             (value_or (dict_get data "idDps" VNone) (dict_get data "idDPS" VNone))
             (dict_get data "chaveAcesso" VNone) (Some erros)
             (Some (Some mensagem))).
Proof.
  intros post run erros Hresp Hjson Hmsg Hne. subst run.
  unfold post_dps in post.
  pose proof (wp_enviar_nfse_pkcs12 dps_b64 pfx_path pfx_password logger h
    (λ evs r,
       evs = [Sent post] ∧
       r = inr (Envio (status_code resp) (text resp) (xml_nfse_de data) None
                  (value_or (dict_get data "idDps" VNone)
                     (dict_get data "idDPS" VNone))
                  (dict_get data "chaveAcesso" VNone) (Some erros)
                  (Some (Some mensagem))))) as Hwp.
  unfold wp in Hwp. apply Hwp. clear Hwp. cbv zeta. fold post.
  rewrite Hresp. cbv beta iota. rewrite Hjson. cbv beta iota. fold erros.
  rewrite Hmsg. simpl. by rewrite decide_False.
Qed.

(** X26: when the answer is a JSON object without a message of error, and
    its status is neither 200 nor 201 or it has no [chaveAcesso], nothing is
    downloaded: the POST is the only request, and the dictionary returned has
    no document and no key [erros] or [mensagem_erro]. Entries of [erros]
    that give no message (a dictionary without code or description, a
    number) do not make the answer an error. *)
Theorem enviar_nfse_no_download dps_b64 pfx_path pfx_password logger h resp data
    mensagem :
  let post := post_dps dps_b64 pfx_path pfx_password in
  let run := enviar_nfse_pkcs12 dps_b64 pfx_path pfx_password logger h in
  let chave_acesso := dict_get data "chaveAcesso" VNone in
  respond (outside h) post = inr resp →
  json_result resp = inr (VDict data) →
  mensagem_erro_de (value_or (dict_get data "erros" VNone) (VList []))
    = inr mensagem →
  nonempty mensagem = None →
  (status_code resp ≠ 200%Z ∧ status_code resp ≠ 201%Z)
  ∨ truthy chave_acesso = false →
  outside (events run) = [Sent post] ∧
  returned run
    = inr (Envio (status_code resp) (text resp) (xml_nfse_de data) None
             (value_or (dict_get data "idDps" VNone) (dict_get data "idDPS" VNone))
             chave_acesso None None).
Proof.
  intros post run chave_acesso Hresp Hjson Hmsg Hne Hcond. subst run.
  unfold post_dps in post.
  pose proof (wp_enviar_nfse_pkcs12 dps_b64 pfx_path pfx_password logger h
    (λ evs r,
       evs = [Sent post] ∧
       r = inr (Envio (status_code resp) (text resp) (xml_nfse_de data) None
                  (value_or (dict_get data "idDps" VNone)
                     (dict_get data "idDPS" VNone))
                  chave_acesso None None))) as Hwp.
  unfold wp in Hwp. apply Hwp. clear Hwp. cbv zeta. fold post.
  rewrite Hresp. cbv beta iota. rewrite Hjson. cbv beta iota. rewrite Hmsg.
  cbv beta iota. rewrite Hne. fold chave_acesso.
  destruct (_ && _) eqn:Hboth; [|done].
  apply andb_true_iff in Hboth as [Hstatus%bool_decide_eq_true Hchave].
  destruct Hcond as [[H200 H201]|Hfalse]; [|congruence].
  by destruct Hstatus.
Qed.

(** X27: an accepted DPS (a JSON object without a message of error, status
    200 or 201, a [chaveAcesso]) whose document comes at the attempt [k+1],
    [k < 3]: after the POST the function sends [k+1] GETs for
    [URL_DANFSE/<chaveAcesso>], pauses two seconds after each of the first
    [k], and returns the document of the last one without pausing again. *)
Theorem enviar_nfse_download dps_b64 pfx_path pfx_password logger h resp data
    mensagem k :
  let post := post_dps dps_b64 pfx_path pfx_password in
  let run := enviar_nfse_pkcs12 dps_b64 pfx_path pfx_password logger h in
  let chave_acesso := dict_get data "chaveAcesso" VNone in
  let get := get_danfse (str_value chave_acesso) pfx_path pfx_password in
  let attempt j :=
    danfse_de (respond ((outside h ++ [Sent post]) ++ failed_attempts get j) get) in
  respond (outside h) post = inr resp →
  json_result resp = inr (VDict data) →
  mensagem_erro_de (value_or (dict_get data "erros" VNone) (VList []))
    = inr mensagem →
  nonempty mensagem = None →
  status_code resp = 200%Z ∨ status_code resp = 201%Z →
  truthy chave_acesso = true →
  k < 3 →
  (∀ j, j < k → nonempty (attempt j) = None) →
  nonempty (attempt k) ≠ None →
  outside (events run) = Sent post :: failed_attempts get k ++ [Sent get] ∧
  returned run
    = inr (Envio (status_code resp) (text resp) (xml_nfse_de data) (attempt k)
             (value_or (dict_get data "idDps" VNone) (dict_get data "idDPS" VNone))
             chave_acesso None None).
Proof.
  intros post run chave_acesso get attempt Hresp Hjson Hmsg Hne Hstatus Hchave
    Hk Hfail Hsucc. subst run. unfold post_dps in post. unfold get_danfse in get.
  pose proof (wp_enviar_nfse_pkcs12 dps_b64 pfx_path pfx_password logger h
    (λ evs r,
       evs = Sent post :: failed_attempts get k ++ [Sent get] ∧
       r = inr (Envio (status_code resp) (text resp) (xml_nfse_de data)
                  (attempt k)
                  (value_or (dict_get data "idDps" VNone)
                     (dict_get data "idDPS" VNone))
                  chave_acesso None None))) as Hwp.
  unfold wp in Hwp. apply Hwp. clear Hwp. cbv zeta. fold post.
  rewrite Hresp. cbv beta iota. rewrite Hjson. cbv beta iota. rewrite Hmsg.
  cbv beta iota. rewrite Hne. fold chave_acesso.
  rewrite Hchave, bool_decide_true by done.
  cbn [andb]. fold get. fold (failed_attempts get). split.
  - intros k' Hk' Hfail' Hsucc'.
    destruct (Nat.lt_trichotomy k' k) as [Hlt|[->|Hgt]]; [|done|].
    + destruct Hsucc'. apply Hfail, Hlt.
    + destruct Hsucc. apply Hfail', Hgt.
  - intros pdf _ Hfail'. destruct Hsucc. apply Hfail', Hk.
Qed.

(** X28: an accepted DPS whose document does not come in three attempts:
    after the POST the function sends three GETs and pauses two seconds
    after each, the last one too, so it returns six seconds later at the
    earliest, with the same dictionary but an empty [pdf_base64]. A
    document of status 200 with an empty body counts as no document. *)
Theorem enviar_nfse_gives_up dps_b64 pfx_path pfx_password logger h resp data
    mensagem :
  let post := post_dps dps_b64 pfx_path pfx_password in
  let run := enviar_nfse_pkcs12 dps_b64 pfx_path pfx_password logger h in
  let chave_acesso := dict_get data "chaveAcesso" VNone in
  let get := get_danfse (str_value chave_acesso) pfx_path pfx_password in
  let attempt j :=
    danfse_de (respond ((outside h ++ [Sent post]) ++ failed_attempts get j) get) in
  respond (outside h) post = inr resp →
  json_result resp = inr (VDict data) →
  mensagem_erro_de (value_or (dict_get data "erros" VNone) (VList []))
    = inr mensagem →
  nonempty mensagem = None →
  status_code resp = 200%Z ∨ status_code resp = 201%Z →
  truthy chave_acesso = true →
  (∀ j, j < 3 → nonempty (attempt j) = None) →
  outside (events run) = Sent post :: failed_attempts get 3 ∧
  sleeps (events run) = [2; 2; 2]%N ∧
  ∃ pdf,
    nonempty pdf = None ∧
    returned run
      = inr (Envio (status_code resp) (text resp) (xml_nfse_de data) pdf
               (value_or (dict_get data "idDps" VNone)
                  (dict_get data "idDPS" VNone))
               chave_acesso None None).
Proof.
  intros post run chave_acesso get attempt Hresp Hjson Hmsg Hne Hstatus Hchave
    Hfail. subst run. unfold post_dps in post. unfold get_danfse in get.
  pose proof (wp_enviar_nfse_pkcs12 dps_b64 pfx_path pfx_password logger h
    (λ evs r,
       evs = Sent post :: failed_attempts get 3 ∧
       ∃ pdf,
         nonempty pdf = None ∧
         r = inr (Envio (status_code resp) (text resp) (xml_nfse_de data) pdf
                    (value_or (dict_get data "idDps" VNone)
                       (dict_get data "idDPS" VNone))
                    chave_acesso None None))) as Hwp.
  unfold wp in Hwp.
  assert (∀ (evs : list event) (P : Prop),
            outside evs = Sent post :: failed_attempts get 3 ∧ P →
            outside evs = Sent post :: failed_attempts get 3 ∧
            sleeps evs = [2; 2; 2]%N ∧ P) as Hsleeps.
  { intros evs P [Hout HP]. split; [done|]. split; [|done].
    by rewrite <- sleeps_outside, Hout. }
  apply Hsleeps, Hwp. clear Hwp Hsleeps. cbv zeta. fold post.
  rewrite Hresp. cbv beta iota. rewrite Hjson. cbv beta iota. rewrite Hmsg.
  cbv beta iota. rewrite Hne. fold chave_acesso.
  rewrite Hchave, bool_decide_true by done.
  cbn [andb]. fold get. fold (failed_attempts get). split.
  - intros k Hk _ Hsucc. destruct Hsucc. apply Hfail, Hk.
  - intros pdf Hpdf _. split; [done|]. by exists pdf.
Qed.

End enviar_nfse_facts.
(** ** More steps *)

Section wp_steps.
Context {A : Type}.
Implicit Types (Q : list event → exception + A → Prop).

Lemma wp_lift_bind {B : Type} (m : M B) (f : B → IO A) h Q :
  match outcome m with
  | inl e => Q [] (inl (Raised e))
  | inr b => ∀ h', outside h' = outside h → wp (f b) h' Q
  end →
  wp (lift m ≫= f) h Q.
Proof.
  intros Hm. apply wp_bind, wp_lift. destruct (outcome m) as [e|b]; [exact Hm|].
  intros h' Hh'. rewrite app_nil_r in Hh'. exact (Hm h' Hh').
Qed.

Lemma wp_now_bind `{World} (f : N → IO A) h Q :
  (∀ h', outside h' = outside h → wp (f (time (outside h))) h' Q) →
  wp (now ≫= f) h Q.
Proof. intros Hf. unfold wp. rewrite run_now. by apply Hf. Qed.

Lemma wp_raise_bind {B : Type} e (f : B → IO A) h Q :
  Q [] (inl e) → wp (io_raise e ≫= f) h Q.
Proof. intros HQ. apply wp_bind, wp_raise. exact HQ. Qed.

Lemma wp_set_text_bind `{EtreeStrings} s (f : string → IO A) h Q :
  (if xml_compatible s
   then ∀ h', outside h' = outside h → wp (f s) h' Q
   else Q [] (inl (Raised (ValueError msg_xml_compatible)))) →
  wp (set_text s ≫= f) h Q.
Proof.
  unfold set_text. destruct (xml_compatible s); intros Hs;
    [by apply wp_ret_bind|by apply wp_raise_bind].
Qed.

Lemma wp_silent_bind {B : Type} (m : IO B) (f : B → IO A) h Q :
  (∀ h0, wp m h0 (λ evs r, evs = [] ∧ ∃ b, r = inr b)) →
  (∀ b h', outside h' = outside h → wp (f b) h' Q) →
  wp (m ≫= f) h Q.
Proof.
  intros Hm Hf. apply wp_bind. eapply wp_mono; [apply Hm|].
  intros evs r [-> [b ->]] h' Hh'. rewrite app_nil_r in Hh'. exact (Hf b h' Hh').
Qed.

End wp_steps.

Lemma requests_failed_attempts get k :
  requests (failed_attempts get k) = replicate k get.
Proof.
  unfold failed_attempts. induction k as [|k IH]; [done|].
  cbn -[requests]. rewrite requests_Sent, requests_Slept. by f_equal.
Qed.

Lemma sleeps_failed_attempts get k :
  sleeps (failed_attempts get k) = replicate k 2%N.
Proof.
  unfold failed_attempts. induction k as [|k IH]; [done|].
  cbn -[sleeps]. rewrite sleeps_Sent, sleeps_Slept. by f_equal.
Qed.

(** ** [transmitter.py]: [consultar_nfse] *)

Section consultar_facts.
Context `{World} `{Python} `{Etree}.

Lemma wp_consultar_nfse chave_acesso pfx_path pfx_password logger h
    (Q : list event → exception + value → Prop) :
  let get :=
    Request GET (URL_PRODUCAO +:+ "/" +:+ chave_acesso) None [] pfx_path
      pfx_password 30 true in
  Q [Sent get] (inr (consulta_de (respond (outside h) get))) →
  wp (consultar_nfse chave_acesso pfx_path pfx_password logger) h Q.
Proof.
  intros get HQ. unfold consultar_nfse. cbv zeta. apply wp_info_bind.
  intros h1 Hh1. apply wp_try. unfold pkcs12_get. fold get. apply wp_send_bind.
  rewrite Hh1. unfold consulta_de in HQ.
  destruct (respond (outside h) get) as [e|resp].
  - intros h2 Hh2. apply wp_error_bind. intros h3 Hh3. apply wp_ret. exact HQ.
  - intros h2 Hh2. apply wp_info_bind. intros h3 Hh3.
    destruct (bool_decide (status_code resp = 200%Z)).
    + apply wp_try, wp_call_bind. destruct (json_result resp) as [e|data].
      * intros h4 Hh4. apply wp_try, wp_call_bind.
        destruct (fromstring (content resp)) as [e'|root].
        -- intros h5 Hh5. apply wp_error_bind. intros h6 Hh6. apply wp_ret.
           exact HQ.
        -- intros h5 Hh5. apply wp_info_bind. intros h6 Hh6. apply wp_ret.
           exact HQ.
      * intros h4 Hh4. apply wp_info_bind. intros h5 Hh5. apply wp_ret.
        exact HQ.
    + apply wp_error_bind. intros h4 Hh4. apply wp_ret. exact HQ.
Qed.

End consultar_facts.

(** ** [transmitter.py]: the requests of [enviar_nfse_pkcs12] *)

Section enviar_nfse_requests.
Context `{World} `{Python} `{Etree} `{Decoders} `{Strings}.

Lemma wp_enviar_nfse_any dps_b64 pfx_path pfx_password logger h
    (Q : list event → exception + envio → Prop) :
  (∀ evs r,
     (∃ chave_acesso n,
        n ≤ 3 ∧
        requests evs
          = post_dps dps_b64 pfx_path pfx_password
            :: replicate n (get_danfse chave_acesso pfx_path pfx_password)) →
     Q evs r) →
  wp (enviar_nfse_pkcs12 dps_b64 pfx_path pfx_password logger) h Q.
Proof.
  intros HQ. apply wp_enviar_nfse_pkcs12. cbv zeta.
  assert (∀ r, Q [Sent (post_dps dps_b64 pfx_path pfx_password)] r) as Hpost.
  { intros r. apply HQ. exists EmptyString, 0. split; [lia|done]. }
  destruct (respond _ _) as [e|resp]; [apply Hpost|].
  destruct (json_result resp) as [e|[| | | | | |data]];
    try (intros; apply Hpost).
  destruct (mensagem_erro_de _) as [e|mensagem]; [apply Hpost|].
  destruct (nonempty mensagem); [apply Hpost|].
  destruct (_ && _); [|apply Hpost].
  split.
  - intros k Hk _ _. apply HQ. eexists _, (S k). split; [lia|].
    rewrite requests_Sent, requests_app.
    fold (get_danfse (str_value (dict_get data "chaveAcesso" VNone)) pfx_path
            pfx_password).
    fold (failed_attempts
            (get_danfse (str_value (dict_get data "chaveAcesso" VNone)) pfx_path
               pfx_password) k).
    rewrite requests_failed_attempts, requests_Sent, requests_nil.
    by rewrite <- replicate_cons_app.
  - intros pdf _ _. apply HQ. eexists _, 3. split; [lia|].
    rewrite requests_Sent.
    fold (get_danfse (str_value (dict_get data "chaveAcesso" VNone)) pfx_path
            pfx_password).
    fold (failed_attempts
            (get_danfse (str_value (dict_get data "chaveAcesso" VNone)) pfx_path
               pfx_password) 3).
    by rewrite requests_failed_attempts.
Qed.

End enviar_nfse_requests.

(** ** [client.py]: [get_batch_status] and [send_batch] *)

(** One step of a run, by the rule that fits it. *)
Ltac wp_step :=
  lazymatch goal with
  | |- wp (io_info _ _ ;; _) _ _ => apply wp_info_bind; intros ? ?
  | |- wp (io_error _ _ ;; _) _ _ => apply wp_error_bind; intros ? ?
  | |- wp (mret _ ≫= _) _ _ => apply wp_ret_bind; intros ? ?
  | |- wp (io_call _ ≫= _) _ _ => apply wp_call_bind
  | |- wp (io_raise _ ≫= _) _ _ => apply wp_raise_bind
  | |- wp (try_except _ _) _ _ => apply wp_try
  | |- wp (mret _) _ _ => apply wp_ret
  | |- wp (io_raise _) _ _ => apply wp_raise
  | |- wp (io_info _ _) _ _ => apply wp_info
  | |- wp (io_error _ _) _ _ => apply wp_error
  | |- wp (io_call _) _ _ => apply wp_call
  | |- wp (_ ≫= _) _ _ => apply wp_bind
  end.

(** What is known of the histories, put to use. *)
Ltac history :=
  rewrite ?app_nil_r in *;
  repeat match goal with
         | Heq : outside _ = _ |- _ => progress rewrite Heq in *
         end.

(** Steps, as far as they go. *)
Ltac wp_run := repeat first [wp_step | intro].

Section sending_facts.
Context `{FileSystem} `{Cryptography} `{Etree} `{Hashlib}.
Context `{Gzip} `{World} `{Python} `{EtreeStrings} `{Decoders} `{Strings}.

(** The shape of what [get_batch_status] returns, and when there is no
    error. *)
Lemma get_batch_status_answer self params h :
  let run := get_batch_status self params h in
  let chave_acesso :=
    dict_get params "chave_acesso"
      (dict_get params "lote.protocolo" (VStr EmptyString)) in
  let get pfx_path pfx_password :=
    Request GET (URL_PRODUCAO +:+ "/" +:+ str_value chave_acesso) None []
      pfx_path pfx_password 30 true in
  sleeps (events run) = [] ∧
  (requests (events run) = [] ∨
   ∃ pfx_path pfx_password,
     nonempty (pfx_file self) = Some pfx_path ∧
     nonempty (pfx_passwd self) = Some pfx_password ∧
     requests (events run) = [get pfx_path pfx_password]) ∧
  ∃ result error,
    returned run = inr (result, error) ∧
    (result = [("ws.response", dump ConsultarSituacaoLoteRpsResposta)] ∧ error = []
     ∨ result = [] ∧ ∃ msg, error = [("error", msg)]) ∧
    (error = [] ↔
       truthy chave_acesso = true ∧
       ∃ pfx_path pfx_password fields,
         nonempty (pfx_file self) = Some pfx_path ∧
         nonempty (pfx_passwd self) = Some pfx_password ∧
         consulta_de (respond (outside h) (get pfx_path pfx_password))
           = VDict fields ∧
         let xml_resp :=
           dict_get fields "xml" (dict_get fields "body" (VStr EmptyString)) in
         truthy xml_resp = true ∧
         (logger self = true → ∃ size, len_value xml_resp = inr size)).
Proof.
  intros run chave_acesso get. subst run.
  rewrite <- (sleeps_outside (events _)), <- (requests_outside (events _)).
  pattern (outside (events (get_batch_status self params h))),
    (returned (get_batch_status self params h)).
  match goal with
  | |- ?Q _ _ => change (wp (get_batch_status self params) h Q)
  end.
  unfold get_batch_status. cbv zeta. fold chave_acesso.
  wp_step.
  destruct (truthy chave_acesso) eqn:Hchave; cbn [negb].
  2: { wp_step. wp_step. split; [done|]. split; [by left|].
       eexists _, _. split; [reflexivity|]. split; [right; by eauto|].
       split; [discriminate|]. by intros [? _]. }
  wp_step.
  assert (∀ msg : string,
            (nonempty (pfx_file self) = None ∨ nonempty (pfx_passwd self) = None) →
            wp (io_error (logger self) "[NFSe Nacional] Certificado não configurado" ;;
                mret (([] : list (string * string)), [("error", msg)])) h'0
              (λ evs r,
                 sleeps evs = [] ∧
                 (requests evs = [] ∨
                  ∃ pfx_path pfx_password,
                    nonempty (pfx_file self) = Some pfx_path ∧
                    nonempty (pfx_passwd self) = Some pfx_password ∧
                    requests evs = [get pfx_path pfx_password]) ∧
                 ∃ result error,
                   r = inr (result, error) ∧
                   (result = [("ws.response", dump ConsultarSituacaoLoteRpsResposta)]
                    ∧ error = []
                    ∨ result = [] ∧ ∃ msg, error = [("error", msg)]) ∧
                   (error = [] ↔
                      true = true ∧
                      ∃ pfx_path pfx_password fields,
                        nonempty (pfx_file self) = Some pfx_path ∧
                        nonempty (pfx_passwd self) = Some pfx_password ∧
                        consulta_de (respond (outside h) (get pfx_path pfx_password))
                          = VDict fields ∧
                        let xml_resp :=
                          dict_get fields "xml"
                            (dict_get fields "body" (VStr EmptyString)) in
                        truthy xml_resp = true ∧
                        (logger self = true →
                         ∃ size, len_value xml_resp = inr size)))) as Hnone.
  { intros msg Hno. wp_step. wp_step. split; [done|]. split; [by left|].
    eexists _, _. split; [reflexivity|]. split; [right; by eauto|].
    split; [discriminate|].
    intros (_ & p & w & fields & Hp & Hw & _). destruct Hno; congruence. }
  destruct (nonempty (pfx_file self)) as [p|] eqn:Hp; [|apply Hnone; by left].
  destruct (nonempty (pfx_passwd self)) as [w|] eqn:Hw; [|apply Hnone; by right].
  clear Hnone.
  remember (consulta_de (respond (outside h) (get p w))) as response
    eqn:Hresponse.
  pose (consulted :=
          ∃ fields,
            response = VDict fields ∧
            truthy (dict_get fields "xml"
                      (dict_get fields "body" (VStr EmptyString))) = true ∧
            (logger self = true →
             ∃ size,
               len_value (dict_get fields "xml"
                            (dict_get fields "body" (VStr EmptyString)))
               = inr size)).
  match goal with
  | |- wp _ _ ?Q0 => set (Q := Q0)
  end.
  assert (∀ msg, ¬ consulted →
                 Q [Sent (get p w)] (inr ([], [("error", msg)]))) as Hfail.
  { intros msg Hcond. subst Q. cbv beta. split; [done|].
    split; [right; by exists p, w|]. eexists _, _. split; [reflexivity|].
    split; [right; by eauto|]. split; [discriminate|].
    intros (_ & p' & w' & fields & [= <-] & [= <-] & Hc & Hx & Hl).
    destruct Hcond. exists fields. by rewrite Hresponse. }
  assert (consulted →
          Q [Sent (get p w)]
            (inr ([("ws.response", dump ConsultarSituacaoLoteRpsResposta)], [])))
    as Hok.
  { intros (fields & Hf & Hx & Hl). subst Q. cbv beta. split; [done|].
    split; [right; by exists p, w|]. eexists _, _. split; [reflexivity|].
    split; [by left|]. split; [|done]. intros _. split; [done|].
    exists p, w, fields. by rewrite <- Hresponse. }
  clearbody Q. subst consulted.
  wp_step. wp_step. apply wp_consultar_nfse.
  rewrite H10, H9. fold (get p w). rewrite <- Hresponse. intros h3 Hh3.
  destruct (truthy response) eqn:Htruthy.
  2: { wp_run. apply Hfail. intros (fields & -> & Hx & _).
       destruct fields; simpl in *; discriminate. }
  destruct (get_of response) as [e|fields] eqn:Hget.
  { destruct (logger self); wp_run; apply Hfail;
      intros (fields & -> & _); discriminate. }
  assert (response = VDict fields) as Hdict.
  { destruct response; try discriminate. by injection Hget as ->. }
  destruct (logger self) eqn:Hlog; wp_run;
    (destruct (truthy (dict_get fields "xml"
                         (dict_get fields "body" (VStr EmptyString))))
       eqn:Hxml; wp_run;
     [|apply Hfail; intros (fields' & Hf & Hx & _); rewrite Hdict in Hf;
       injection Hf as <-; congruence]).
  - destruct (len_value (dict_get fields "xml"
                           (dict_get fields "body" (VStr EmptyString))))
      as [e|size] eqn:Hlen.
    + wp_run. apply Hfail. intros (fields' & Hf & _ & Hl).
      rewrite Hdict in Hf. injection Hf as <-.
      destruct (Hl eq_refl) as [size Hs]. congruence.
    + wp_run. apply Hok. exists fields. split; [done|]. split; [done|].
      intros _. by exists size.
  - apply Hok. exists fields. split; [done|]. split; [done|]. discriminate.
Qed.

(** What [get_batch_status] sends and returns, case by case. *)
Lemma get_batch_status_run self params h :
  let run := get_batch_status self params h in
  let chave_acesso :=
    dict_get params "chave_acesso"
      (dict_get params "lote.protocolo" (VStr EmptyString)) in
  let get pfx_path pfx_password :=
    Request GET (URL_PRODUCAO +:+ "/" +:+ str_value chave_acesso) None []
      pfx_path pfx_password 30 true in
  let failed (msg : string)
      : exception + list (string * string) * list (string * string) :=
    inr ([], [("error", msg)]) in
  (truthy chave_acesso = false →
   requests (events run) = [] ∧ returned run = failed msg_sem_chave) ∧
  (truthy chave_acesso = true →
   nonempty (pfx_file self) = None ∨ nonempty (pfx_passwd self) = None →
   requests (events run) = [] ∧
   returned run = failed "Certificado não configurado") ∧
  (∀ pfx_path pfx_password,
     truthy chave_acesso = true →
     nonempty (pfx_file self) = Some pfx_path →
     nonempty (pfx_passwd self) = Some pfx_password →
     requests (events run) = [get pfx_path pfx_password] ∧
     returned run =
       let response :=
         consulta_de (respond (outside h) (get pfx_path pfx_password)) in
       if truthy response then
         match get_of response with
         | inl e =>
             failed ("Erro ao consultar Portal Nacional: " +:+ str_exception e)
         | inr fields =>
             let xml_resp :=
               dict_get fields "xml"
                 (dict_get fields "body" (VStr EmptyString)) in
             if truthy xml_resp then
               match len_value xml_resp with
               | inl e =>
                   if logger self then
                     failed ("Erro ao consultar Portal Nacional: "
                               +:+ str_exception e)
                   else
                     inr ([("ws.response",
                            dump ConsultarSituacaoLoteRpsResposta)], [])
               | inr _ =>
                   inr ([("ws.response",
                          dump ConsultarSituacaoLoteRpsResposta)], [])
               end
             else failed "Resposta vazia do Portal Nacional"
         end
       else failed "NFSe não encontrada no Portal Nacional").
Proof.
  intros run chave_acesso get failed. subst run.
  rewrite <- !(requests_outside (events _)).
  pattern (outside (events (get_batch_status self params h))),
    (returned (get_batch_status self params h)).
  match goal with
  | |- ?Q _ _ => change (wp (get_batch_status self params) h Q)
  end.
  unfold get_batch_status. cbv zeta. fold chave_acesso.
  wp_step.
  destruct (truthy chave_acesso) eqn:Hchave; cbn [negb].
  2: { wp_step. wp_step. split_and!; [done| |]; intros; discriminate. }
  wp_step.
  destruct (nonempty (pfx_file self)) as [p|] eqn:Hp.
  2: { wp_step. wp_step. split_and!; [discriminate|done|].
       intros; discriminate. }
  destruct (nonempty (pfx_passwd self)) as [w|] eqn:Hw.
  2: { wp_step. wp_step. split_and!; [discriminate|done|].
       intros; discriminate. }
  remember (consulta_de (respond (outside h) (get p w))) as response
    eqn:Hresponse.
  match goal with
  | |- wp _ _ ?Q0 => set (Q := Q0)
  end.
  assert (∀ r,
            r = (if truthy response then
                   match get_of response with
                   | inl e =>
                       failed ("Erro ao consultar Portal Nacional: "
                                 +:+ str_exception e)
                   | inr fields =>
                       if truthy (dict_get fields "xml"
                                    (dict_get fields "body" (VStr EmptyString)))
                       then
                         match len_value
                                 (dict_get fields "xml"
                                    (dict_get fields "body" (VStr EmptyString)))
                         with
                         | inl e =>
                             if logger self then
                               failed ("Erro ao consultar Portal Nacional: "
                                         +:+ str_exception e)
                             else
                               inr ([("ws.response",
                                      dump ConsultarSituacaoLoteRpsResposta)],
                                    [])
                         | inr _ =>
                             inr ([("ws.response",
                                    dump ConsultarSituacaoLoteRpsResposta)], [])
                         end
                       else failed "Resposta vazia do Portal Nacional"
                   end
                 else failed "NFSe não encontrada no Portal Nacional") →
            Q [Sent (get p w)] r) as Hleaf.
  { intros r ->. subst Q. cbv beta. split_and!; [discriminate| |].
    - intros _ [?|?]; discriminate.
    - intros p' w' _ [= <-] [= <-]. split; [done|]. cbv zeta.
      by rewrite <- Hresponse. }
  clearbody Q.
  wp_step. wp_step. apply wp_consultar_nfse.
  rewrite H10, H9. fold (get p w). rewrite <- Hresponse. intros h3 Hh3.
  destruct (truthy response) eqn:Htruthy.
  2: { wp_run. by apply Hleaf. }
  destruct (get_of response) as [e|fields] eqn:Hget.
  { destruct (logger self); wp_run; by apply Hleaf. }
  destruct (logger self) eqn:Hlog; wp_run;
    (destruct (truthy (dict_get fields "xml"
                         (dict_get fields "body" (VStr EmptyString))))
       eqn:Hxml; wp_run; [|by apply Hleaf]).
  - destruct (len_value (dict_get fields "xml"
                           (dict_get fields "body" (VStr EmptyString))))
      as [e|size] eqn:Hlen; wp_run; by apply Hleaf.
  - apply Hleaf. by destruct (len_value _).
Qed.

(** X30: [get_batch_status] never raises and never sleeps. Without a key
    in [params] (neither [chave_acesso] nor [lote.protocolo], or an empty
    one) it sends nothing and returns the error "Chave de acesso não
    fornecida ..."; with a key but without the certificate or its password
    it sends nothing and returns "Certificado não configurado". Otherwise it
    sends exactly one request, the GET of [consultar_nfse] for the key, and
    returns: "NFSe não encontrada no Portal Nacional" when the consult gave
    nothing; "Erro ao consultar Portal Nacional: " and the text of the
    [AttributeError] when the answer is JSON that is not an object, which
    has no [get]; "Resposta vazia do Portal Nacional" when the object has
    neither a true [xml] nor a true [body]; the same prefix and the text of
    the [TypeError] when there is a logger and that value has no length;
    and in the remaining case the one fixed document, which says
    [Situacao] 4 whatever the portal answered, with no error. So it returns
    either that document and no error, or no result and one error, and
    there is no error exactly when the consult gave a dictionary whose
    [xml], or else [body], is true (and, with a logger, has a length). *)
Theorem get_batch_status_total self params h :
  let run := get_batch_status self params h in
  let chave_acesso :=
    dict_get params "chave_acesso"
      (dict_get params "lote.protocolo" (VStr EmptyString)) in
  let get pfx_path pfx_password :=
    Request GET (URL_PRODUCAO +:+ "/" +:+ str_value chave_acesso) None []
      pfx_path pfx_password 30 true in
  let failed (msg : string)
      : exception + list (string * string) * list (string * string) :=
    inr ([], [("error", msg)]) in
  sleeps (events run) = [] ∧
  (requests (events run) = [] ∨
   ∃ pfx_path pfx_password,
     nonempty (pfx_file self) = Some pfx_path ∧
     nonempty (pfx_passwd self) = Some pfx_password ∧
     requests (events run) = [get pfx_path pfx_password]) ∧
  (truthy chave_acesso = false →
   requests (events run) = [] ∧ returned run = failed msg_sem_chave) ∧
  (truthy chave_acesso = true →
   nonempty (pfx_file self) = None ∨ nonempty (pfx_passwd self) = None →
   requests (events run) = [] ∧
   returned run = failed "Certificado não configurado") ∧
  (∀ pfx_path pfx_password,
     truthy chave_acesso = true →
     nonempty (pfx_file self) = Some pfx_path →
     nonempty (pfx_passwd self) = Some pfx_password →
     requests (events run) = [get pfx_path pfx_password] ∧
     returned run =
       let response :=
         consulta_de (respond (outside h) (get pfx_path pfx_password)) in
       if truthy response then
         match get_of response with
         | inl e =>
             failed ("Erro ao consultar Portal Nacional: " +:+ str_exception e)
         | inr fields =>
             let xml_resp :=
               dict_get fields "xml"
                 (dict_get fields "body" (VStr EmptyString)) in
             if truthy xml_resp then
               match len_value xml_resp with
               | inl e =>
                   if logger self then
                     failed ("Erro ao consultar Portal Nacional: "
                               +:+ str_exception e)
                   else
                     inr ([("ws.response",
                            dump ConsultarSituacaoLoteRpsResposta)], [])
               | inr _ =>
                   inr ([("ws.response",
                          dump ConsultarSituacaoLoteRpsResposta)], [])
               end
             else failed "Resposta vazia do Portal Nacional"
         end
       else failed "NFSe não encontrada no Portal Nacional") ∧
  ∃ result error,
    returned run = inr (result, error) ∧
    (result = [("ws.response", dump ConsultarSituacaoLoteRpsResposta)] ∧ error = []
     ∨ result = [] ∧ ∃ msg, error = [("error", msg)]) ∧
    (error = [] ↔
       truthy chave_acesso = true ∧
       ∃ pfx_path pfx_password fields,
         nonempty (pfx_file self) = Some pfx_path ∧
         nonempty (pfx_passwd self) = Some pfx_password ∧
         consulta_de (respond (outside h) (get pfx_path pfx_password))
           = VDict fields ∧
         let xml_resp :=
           dict_get fields "xml" (dict_get fields "body" (VStr EmptyString)) in
         truthy xml_resp = true ∧
         (logger self = true → ∃ size, len_value xml_resp = inr size)).
Proof.
  intros run chave_acesso get failed.
  destruct (get_batch_status_answer self params h) as (Hsleeps & Hsent & Hshape).
  destruct (get_batch_status_run self params h) as (Hkey & Hcert & Hcall).
  split_and!; [exact Hsleeps|exact Hsent|exact Hkey|exact Hcert|exact Hcall
              |exact Hshape].
Qed.

Lemma wp_numero_nfse xml_nfse h :
  wp (numero_nfse xml_nfse) h (λ evs r, evs = [] ∧ ∃ numero, r = inr numero).
Proof.
  unfold numero_nfse. destruct (nonempty xml_nfse) as [xml|]; [|wp_run; by eauto].
  wp_step. wp_step. destruct (fromstring (encode xml)) as [e|nfse_root].
  { wp_run. by eauto. }
  intros h1 Hh1. cbv zeta.
  destruct (match find_below [] (clark NS_NFSE "nNFSe") nfse_root with
            | Some found => Some found
            | None => find_below [] "nNFSe" nfse_root
            end) as [found|]; [|wp_run; by eauto].
  destruct (nonempty (node_text found.2)) as [numero_text|]; [|wp_run; by eauto].
  wp_step. apply wp_set_text_bind.
  destruct (xml_compatible numero_text); wp_run; by eauto.
Qed.

(** What [send_batch] can make of an answer: the keys of [result], and the
    XML that was sent under [xml_enviado] when there is no error. *)
Lemma wp_send_batch_answer logger xml_signed response h
    (Q : list event
         → exception + list (string * value) * list (string * string) → Prop) :
  (∀ e, Q [] (inl e)) →
  (∀ result errors,
     errors = [] ∧
     result.*1 = ["chave_acesso"; "id_dps"; "xml_nfse"; "xml_enviado"; "ws.response"] ∧
     dict_get result "xml_enviado" VNone = VStr xml_signed
     ∨ (∃ msg, errors = [("error", msg)]) ∧
       (result.*1 = ["ws.response"; "erros"; "mensagem_erro"]
        ∨ result.*1 = ["chave_acesso"; "id_dps"; "xml_nfse"; "xml_enviado"]) →
     Q [] (inr (result, errors))) →
  wp (send_batch_answer logger xml_signed response) h Q.
Proof.
  intros Hraise Hshape. unfold send_batch_answer. cbv zeta. wp_step.
  assert (∀ h0 error_msg,
            wp (io_error logger
                  ("[NFSe Nacional] Erro ao enviar DPS - Status HTTP: "
                     +:+ pretty (status response)) ;;
                io_error logger
                  ("[NFSe Nacional] Mensagem de erro: " +:+ str_take 500 error_msg) ;;
                mensagem ← set_text (str_take 500 error_msg) ;
                mret ([("ws.response",
                        VStr (dump (EnviarLoteRpsResposta_erro mensagem)));
                       ("erros", default (VList []) (erros response));
                       ("mensagem_erro",
                        str_or_none (default None (mensagem_erro response)))],
                      [("error", error_msg)])) h0 Q) as Herror.
  { intros h0 error_msg. wp_step. wp_step. apply wp_set_text_bind.
    destruct (xml_compatible _); [|apply Hraise].
    intros h1 Hh1. wp_step. apply Hshape. right. split; [by eauto|by left]. }
  destruct (bool_decide (nonempty (default None (mensagem_erro response)) ≠ None));
    [apply Herror|].
  destruct (bool_decide (status response = 200%Z ∨ status response = 201%Z));
    [|apply Herror].
  cbn [orb negb]. clear Herror. wp_step.
  apply (wp_quiet_bind _ tt).
  { intros h0. destruct (truthy _); [by apply wp_info|by apply wp_ret]. }
  intros h1 Hh1. apply (wp_quiet_bind _ tt).
  { intros h0. destruct (truthy _); [by apply wp_info|by apply wp_ret]. }
  intros h2 Hh2. apply (wp_quiet_bind _ tt).
  { intros h0. destruct (nonempty _); [by apply wp_info|by apply wp_ret]. }
  intros h3 Hh3. wp_step. apply wp_set_text_bind.
  destruct (xml_compatible _).
  - intros h4 Hh4. apply wp_silent_bind; [intros h0; apply wp_numero_nfse|].
    intros numero h5 Hh5. wp_step. apply Hshape. left. by repeat split.
  - wp_run. apply Hshape. right. split; [by eauto|by right].
Qed.

(** X29: with the certificate and the password in place and a batch that is
    not empty, [send_batch] never raises: it returns [result] and [errors],
    and [errors] is empty or has the one key [error]. It signs the first
    entry of the batch and looks at no other. When the signature fails, or
    the signed text lacks [<DPS] or the namespace, nothing is sent and the
    message is the error. Otherwise one POST carries the signed XML,
    compressed at the time of the clock, and at most three GETs for one
    document follow it. [result] has its five keys exactly when there is no
    error, and then [xml_enviado] is the signed XML; the document that was
    downloaded is never part of it. *)
Theorem send_batch_total self pfx_path pfx_password item rest h :
  nonempty (pfx_file self) = Some pfx_path →
  os_path_exists pfx_path = true →
  nonempty (pfx_passwd self) = Some pfx_password →
  rps_batch self = item :: rest →
  let run := send_batch self h in
  ∃ result errors,
    returned run = inr (result, errors) ∧
    (errors = [] ∧
     result.*1 = ["chave_acesso"; "id_dps"; "xml_nfse"; "xml_enviado"; "ws.response"]
     ∨ (∃ msg, errors = [("error", msg)]) ∧
       (result = []
        ∨ result.*1 = ["ws.response"; "erros"; "mensagem_erro"]
        ∨ result.*1 = ["chave_acesso"; "id_dps"; "xml_nfse"; "xml_enviado"])) ∧
    match
      outcome (assinar_xml (Str (rps_xml item)) pfx_path (Some pfx_password)
                 "infDPS" (logger self))
    with
    | inl e =>
        requests (events run) = [] ∧ result = [] ∧
        errors = [("error", str_exn e)]
    | inr xml_signed =>
        if str_contains "<DPS" xml_signed && str_contains NS_NFSE xml_signed
        then
          (∃ chave_acesso n,
             n ≤ 3 ∧
             requests (events run)
               = post_dps (gerar_dpsXmlGZipB64 (time (outside h)) xml_signed)
                   pfx_path pfx_password
                 :: replicate n (get_danfse chave_acesso pfx_path pfx_password)) ∧
          (errors = [] → dict_get result "xml_enviado" VNone = VStr xml_signed)
        else
          requests (events run) = [] ∧ result = [] ∧
          errors = [("error", msg_nao_nacional)]
    end.
Proof.
  intros Hp Hexists Hw Hbatch run. subst run.
  cut (wp (send_batch self) h
         (λ evs r,
            ∃ result errors,
              r = inr (result, errors) ∧
              (errors = [] ∧
               result.*1
                 = ["chave_acesso"; "id_dps"; "xml_nfse"; "xml_enviado";
                    "ws.response"]
               ∨ (∃ msg, errors = [("error", msg)]) ∧
                 (result = []
                  ∨ result.*1 = ["ws.response"; "erros"; "mensagem_erro"]
                  ∨ result.*1
                    = ["chave_acesso"; "id_dps"; "xml_nfse"; "xml_enviado"])) ∧
              match
                outcome (assinar_xml (Str (rps_xml item)) pfx_path
                           (Some pfx_password) "infDPS" (logger self))
              with
              | inl e =>
                  requests evs = [] ∧ result = [] ∧
                  errors = [("error", str_exn e)]
              | inr xml_signed =>
                  if str_contains "<DPS" xml_signed
                     && str_contains NS_NFSE xml_signed
                  then
                    (∃ chave_acesso n,
                       n ≤ 3 ∧
                       requests evs
                         = post_dps
                             (gerar_dpsXmlGZipB64 (time (outside h)) xml_signed)
                             pfx_path pfx_password
                           :: replicate n
                                (get_danfse chave_acesso pfx_path pfx_password)) ∧
                    (errors = [] →
                     dict_get result "xml_enviado" VNone = VStr xml_signed)
                  else
                    requests evs = [] ∧ result = [] ∧
                    errors = [("error", msg_nao_nacional)]
              end)).
  { unfold wp. rewrite requests_outside. done. }
  unfold send_batch. wp_step. unfold check_certificate.
  rewrite Hp, Hexists, Hw. wp_step. intros h1 Hh1. rewrite Hbatch.
  cbn [fst snd]. wp_step. unfold send_batch_try. wp_step. wp_step.
  apply wp_lift_bind.
  destruct (outcome (assinar_xml _ _ _ _ _)) as [e|xml_signed].
  { wp_run. eexists _, _. split; [reflexivity|].
    split; [right; split; [by eauto|by left]|done]. }
  intros h2 Hh2. wp_step.
  destruct (str_contains "<DPS" xml_signed); cbn [negb orb andb];
    [destruct (str_contains NS_NFSE xml_signed); cbn [negb orb andb]|].
  2,3: wp_run; eexists _, _; (split; [reflexivity|]);
       (split; [right; split; [by eauto|by left]|done]).
  wp_step. apply wp_now_bind. intros h3 Hh3. history. cbv zeta.
  wp_step. wp_step. wp_step. apply wp_enviar_nfse_any. intros evs r Hrequests.
  assert (∀ evs', requests ([] ++ evs ++ evs') = requests evs ++ requests evs')
    as Happ by (intros evs'; by rewrite app_nil_l, requests_app).
  destruct r as [e|response].
  - wp_run. eexists _, _. split; [reflexivity|].
    split; [right; split; [by eauto|by left]|]. split; [|discriminate].
    by rewrite Happ, app_nil_r.
  - intros h4 Hh4. apply wp_send_batch_answer.
    + intros e. wp_run. eexists _, _. split; [reflexivity|].
      split; [right; split; [by eauto|by left]|]. split; [|discriminate].
      rewrite app_nil_r. by rewrite Happ, app_nil_r.
    + intros result errors Hshape. eexists _, _. split; [reflexivity|]. split.
      * destruct Hshape as [(-> & Hkeys & _)|(Hmsg & [Hkeys|Hkeys])];
          [by left|right; by eauto..].
      * split; [by rewrite Happ, app_nil_r|]. intros ->.
        by destruct Hshape as [(_ & _ & Hx)|([msg Hmsg] & _)].
Qed.

End sending_facts.
(** ** The further theorems at work *)

Import Demo2.

Lemma signature_value_correct_witness :
  outcome (assinar_xml (Str dps_xml) "rsa.pfx" (Some "segredo") "infDPS" false)
    = inr signed_xml ∧
  ∃ pfx_data rsa_key cert additional_certs root i target signature signed_info
    standalone c14n_signed signature_raw,
    open_rb "rsa.pfx" = inr pfx_data ∧
    load_key_and_certificates pfx_data (password_bytes (Some "segredo"))
      = inr (Some (RSAPrivateKey rsa_key), Some cert, additional_certs) ∧
    fromstring (input_bytes (Str dps_xml)) = inr root ∧
    find (clark NS_NFSE "infDPS") root = Some (i, target) ∧
    outcome (assinar_xml_root (Str dps_xml) "rsa.pfx" (Some "segredo") "infDPS" false)
      = inr (addnext root i signature) ∧
    child (clark NS_DS "SignedInfo") signature = Some signed_info ∧
    fromstring (tostring false [(None, NS_DS)] signed_info) = inr standalone ∧
    tostring_c14n false false standalone = inr c14n_signed ∧
    rsa_sign rsa_key PKCS1v15 SHA1 c14n_signed = inr signature_raw ∧
    SignatureValue_text signature = Some (decode (b64encode signature_raw)).
Proof.
  assert (outcome (assinar_xml (Str dps_xml) "rsa.pfx" (Some "segredo") "infDPS" false)
            = inr signed_xml) as Hrun by (vm_compute; reflexivity).
  split; [exact Hrun|].
  exact (signature_value_correct (Str dps_xml) "rsa.pfx" (Some "segredo") "infDPS"
           false signed_xml eq_refl Hrun).
Defined.

Lemma key_info_certificate_witness :
  outcome (assinar_xml (Str dps_xml) "copia.pfx" (Some "segredo") "infDPS" false)
    = inr signed_xml ∧
  ∃ pfx_data key cert additional_certs root i signature key_info x509_data,
    open_rb "copia.pfx" = inr pfx_data ∧
    load_key_and_certificates pfx_data (password_bytes (Some "segredo"))
      = inr (Some key, Some cert, additional_certs) ∧
    outcome (assinar_xml_root (Str dps_xml) "copia.pfx" (Some "segredo") "infDPS" false)
      = inr (addnext root i signature) ∧
    X509Certificate_text signature
      = Some (decode (b64encode (public_bytes_DER cert))) ∧
    findall (clark NS_DS "KeyInfo") signature = [key_info] ∧
    node_children key_info = [x509_data] ∧
    length (node_children x509_data) = 1.
Proof.
  assert (outcome (assinar_xml (Str dps_xml) "copia.pfx" (Some "segredo") "infDPS" false)
            = inr signed_xml) as Hrun by (vm_compute; reflexivity).
  split; [exact Hrun|].
  exact (key_info_certificate (Str dps_xml) "copia.pfx" (Some "segredo") "infDPS"
           false signed_xml eq_refl Hrun).
Defined.

Lemma signed_info_algorithms_witness :
  outcome (assinar_xml (Bytes (encode dps_xml)) "rsa.pfx" (Some "segredo") "infDPS" true)
    = inr signed_xml ∧
  ∃ root i signature signed_info reference,
    outcome (assinar_xml_root (Bytes (encode dps_xml)) "rsa.pfx" (Some "segredo")
               "infDPS" true)
      = inr (addnext root i signature) ∧
    child (clark NS_DS "SignedInfo") signature = Some signed_info ∧
    algorithms signed_info =
      [ (Some (clark NS_DS "CanonicalizationMethod"), Some ALG_C14N);
        (Some (clark NS_DS "SignatureMethod"), Some ALG_RSA_SHA1);
        (Some (clark NS_DS "Reference"), None) ] ∧
    child (clark NS_DS "Reference") signed_info = Some reference ∧
    algorithms reference =
      [ (Some (clark NS_DS "Transforms"), None);
        (Some (clark NS_DS "DigestMethod"), Some ALG_SHA1);
        (Some (clark NS_DS "DigestValue"), None) ].
Proof.
  assert (outcome (assinar_xml (Bytes (encode dps_xml)) "rsa.pfx" (Some "segredo")
                     "infDPS" true)
            = inr signed_xml) as Hrun by (vm_compute; reflexivity).
  split; [exact Hrun|].
  exact (signed_info_algorithms (Bytes (encode dps_xml)) "rsa.pfx" (Some "segredo")
           "infDPS" true signed_xml eq_refl Hrun).
Defined.

Lemma embedded_texts_base64_witness :
  outcome (assinar_xml (Bytes (encode dps_xml)) "copia.pfx" (Some "segredo") "infDPS" true)
    = inr signed_xml ∧
  ∃ root i signature digest_b64 signature_b64 cert_b64,
    outcome (assinar_xml_root (Bytes (encode dps_xml)) "copia.pfx" (Some "segredo")
               "infDPS" true)
      = inr (addnext root i signature) ∧
    DigestValue_text signature = Some digest_b64 ∧
    SignatureValue_text signature = Some signature_b64 ∧
    X509Certificate_text signature = Some cert_b64 ∧
    base64_text digest_b64 ∧ base64_text signature_b64 ∧ base64_text cert_b64 ∧
    Forall (λ b, xml_markup b = false)
      (encode digest_b64 ++ encode signature_b64 ++ encode cert_b64).
Proof.
  assert (outcome (assinar_xml (Bytes (encode dps_xml)) "copia.pfx" (Some "segredo")
                     "infDPS" true)
            = inr signed_xml) as Hrun by (vm_compute; reflexivity).
  split; [exact Hrun|].
  exact (embedded_texts_base64 (Bytes (encode dps_xml)) "copia.pfx" (Some "segredo")
           "infDPS" true signed_xml eq_refl Hrun).
Defined.

Lemma signature_depends_on_canonical_form_witness :
  @fromstring etree_more (input_bytes (Str dps_xml)) = inr dps ∧
  @fromstring etree_more (input_bytes (Str dps_sozinho_xml)) = inr dps_sozinho ∧
  find (clark NS_NFSE "infDPS") dps = Some (1, infDPS) ∧
  find (clark NS_NFSE "infDPS") dps_sozinho = Some (0, infDPS) ∧
  @canonical_bytes etree_more (node_nsmap dps) infDPS
    = @canonical_bytes etree_more (node_nsmap dps_sozinho) infDPS ∧
  ∃ signature,
    outcome (@assinar_xml_root files cryptography etree_more hashlib
               (Str dps_xml) "rsa.pfx" (Some "segredo") "infDPS" true)
      = inr (addnext dps 1 signature) ∧
    outcome (@assinar_xml_root files cryptography etree_more hashlib
               (Str dps_sozinho_xml) "rsa.pfx" (Some "segredo") "infDPS" false)
      = inr (addnext dps_sozinho 0 signature).
Proof.
  assert (@fromstring etree_more (input_bytes (Str dps_xml)) = inr dps)
    as H1 by (vm_compute; reflexivity).
  assert (@fromstring etree_more (input_bytes (Str dps_sozinho_xml))
            = inr dps_sozinho)
    as H2 by (vm_compute; reflexivity).
  assert (find (clark NS_NFSE "infDPS") dps = Some (1, infDPS))
    as H3 by (vm_compute; reflexivity).
  assert (find (clark NS_NFSE "infDPS") dps_sozinho = Some (0, infDPS))
    as H4 by (vm_compute; reflexivity).
  assert (@canonical_bytes etree_more (node_nsmap dps) infDPS
          = @canonical_bytes etree_more (node_nsmap dps_sozinho) infDPS)
    as H5 by (vm_compute; reflexivity).
  split_and!; [exact H1|exact H2|exact H3|exact H4|exact H5|].
  destruct (@signature_depends_on_canonical_form files cryptography etree_more
              hashlib (Str dps_xml) (Str dps_sozinho_xml) "rsa.pfx"
              (Some "segredo") "infDPS" true false dps dps_sozinho 1 0 infDPS
              infDPS
              (addnext dps 1
                 (Signature
                    (SignedInfo "DPS330455a7Z"
                       (digest_b64_of [(None, NS_NFSE)] infDPS))
                    (decode
                       (b64encode
                          (checksum
                             (encode "rsa key"
                                ++ canonical
                                     (standalone [(None, NS_DS)]
                                        (SignedInfo "DPS330455a7Z"
                                           (digest_b64_of [(None, NS_NFSE)]
                                              infDPS)))))))
                    (decode (b64encode (public_bytes_DER cert)))))
              eq_refl H1 H2 H3 H4 eq_refl H5)
    as (signature & Heq & Hout); [vm_compute; reflexivity|].
  exists signature. split; [|exact Hout].
  rewrite <- Heq. vm_compute. reflexivity.
Defined.

Lemma success_log_exact_witness :
  outcome (assinar_xml (Str dps_xml) "rsa.pfx" (Some "segredo") "infDPS" true)
    = inr signed_xml ∧
  ∃ root i target inf_id signature digest_b64 signature_b64,
    fromstring (input_bytes (Str dps_xml)) = inr root ∧
    find (clark NS_NFSE "infDPS") root = Some (i, target) ∧
    get target "Id" = Some inf_id ∧
    outcome (assinar_xml_root (Str dps_xml) "rsa.pfx" (Some "segredo") "infDPS" true)
      = inr (addnext root i signature) ∧
    DigestValue_text signature = Some digest_b64 ∧
    SignatureValue_text signature = Some signature_b64 ∧
    trace (assinar_xml (Str dps_xml) "rsa.pfx" (Some "segredo") "infDPS" true)
      = success_log "rsa.pfx" "infDPS" inf_id digest_b64 signature_b64 signed_xml.
Proof.
  assert (outcome (assinar_xml (Str dps_xml) "rsa.pfx" (Some "segredo") "infDPS" true)
            = inr signed_xml) as Hrun by (vm_compute; reflexivity).
  split; [exact Hrun|].
  exact (success_log_exact (Str dps_xml) "rsa.pfx" (Some "segredo") "infDPS"
           signed_xml eq_refl Hrun).
Defined.

Lemma error_record_announces_error_witness :
  trace (assinar_xml (Str dps_sem_id_xml) "rsa.pfx" (Some "segredo") "infDPS" true)
    = [ (INFO, "[NFSe Nacional] Iniciando assinatura de XML - Tag: infDPS");
        (INFO, "[NFSe Nacional] Carregando certificado PFX: rsa.pfx");
        (INFO, "[NFSe Nacional] Certificado carregado com sucesso");
        (INFO, "[NFSe Nacional] Localizando elemento para assinatura: infDPS");
        (ERROR, "[NFSe Nacional] " +:+ msg_id_ausente "infDPS") ] ∧
  outcome (assinar_xml (Str dps_sem_id_xml) "rsa.pfx" (Some "segredo") "infDPS" true)
    = inl (ValueError (msg_id_ausente "infDPS")).
Proof.
  assert (trace (assinar_xml (Str dps_sem_id_xml) "rsa.pfx" (Some "segredo")
                   "infDPS" true)
          = [ (INFO, "[NFSe Nacional] Iniciando assinatura de XML - Tag: infDPS");
              (INFO, "[NFSe Nacional] Carregando certificado PFX: rsa.pfx");
              (INFO, "[NFSe Nacional] Certificado carregado com sucesso");
              (INFO, "[NFSe Nacional] Localizando elemento para assinatura: infDPS");
              (ERROR, "[NFSe Nacional] " +:+ msg_id_ausente "infDPS") ])
    as Hlog by (vm_compute; reflexivity).
  split; [exact Hlog|].
  destruct (error_record_announces_error (Str dps_sem_id_xml) "rsa.pfx"
              (Some "segredo") "infDPS" true eq_refl)
    as [Hinfo|(infos & text & Htrace & _ & _ & Hout)].
  - rewrite Hlog in Hinfo.
    apply Forall_lookup_1
      with (i := 4) (x := (ERROR, "[NFSe Nacional] " +:+ msg_id_ausente "infDPS"))
      in Hinfo; [discriminate Hinfo|reflexivity].
  - rewrite Hout. rewrite Hlog in Htrace.
    change [(INFO, "[NFSe Nacional] Iniciando assinatura de XML - Tag: infDPS");
            (INFO, "[NFSe Nacional] Carregando certificado PFX: rsa.pfx");
            (INFO, "[NFSe Nacional] Certificado carregado com sucesso");
            (INFO, "[NFSe Nacional] Localizando elemento para assinatura: infDPS");
            (ERROR, "[NFSe Nacional] " +:+ msg_id_ausente "infDPS")]
      with ([(INFO, "[NFSe Nacional] Iniciando assinatura de XML - Tag: infDPS");
             (INFO, "[NFSe Nacional] Carregando certificado PFX: rsa.pfx");
             (INFO, "[NFSe Nacional] Certificado carregado com sucesso");
             (INFO, "[NFSe Nacional] Localizando elemento para assinatura: infDPS")]
              ++ [(ERROR, "[NFSe Nacional] " +:+ msg_id_ausente "infDPS")])
      in Htrace.
    apply app_inj_tail in Htrace as [_ Hrec].
    injection Hrec as Htext. apply (inj (String.append _)) in Htext.
    by rewrite <- Htext.
Defined.

Lemma malformed_xml_propagates_witness :
  open_rb "rsa.pfx" = inr (encode "PFX rsa") ∧
  load_key_and_certificates (encode "PFX rsa") (password_bytes (Some "segredo"))
    = inr (Some (RSAPrivateKey (encode "rsa key")), Some cert, []) ∧
  fromstring (input_bytes (Str "<DPS"))
    = inl (XMLSyntaxError "Document is empty or not known") ∧
  assinar_xml (Str "<DPS") "rsa.pfx" (Some "segredo") "infDPS" true =
    Run
      [ (INFO, "[NFSe Nacional] Iniciando assinatura de XML - Tag: " +:+ "infDPS");
        (INFO, "[NFSe Nacional] Carregando certificado PFX: " +:+ "rsa.pfx");
        (INFO, "[NFSe Nacional] Certificado carregado com sucesso") ]
      (inl (XMLSyntaxError "Document is empty or not known")).
Proof.
  assert (open_rb "rsa.pfx" = inr (encode "PFX rsa"))
    as H1 by (vm_compute; reflexivity).
  assert (load_key_and_certificates (encode "PFX rsa")
            (password_bytes (Some "segredo"))
          = inr (Some (RSAPrivateKey (encode "rsa key")), Some cert, []))
    as H2 by (vm_compute; reflexivity).
  assert (fromstring (input_bytes (Str "<DPS"))
          = inl (XMLSyntaxError "Document is empty or not known"))
    as H3 by (vm_compute; reflexivity).
  split_and!; [exact H1|exact H2|exact H3|].
  exact (malformed_xml_propagates (Str "<DPS") "rsa.pfx" (Some "segredo") "infDPS"
           true (encode "PFX rsa") (RSAPrivateKey (encode "rsa key")) cert []
           (XMLSyntaxError "Document is empty or not known") eq_refl H1 H2 H3).
Defined.

Lemma ctn_to_6digits_six_digits_witness :
  ctn_to_6digits (Some (ascii_text "  1.5 - Analise de sistemas "))
    = Some (ascii_text "010501") ∧
  length (ascii_text "010501") = 6 ∧ Forall digit (ascii_text "010501").
Proof.
  assert (ctn_to_6digits (Some (ascii_text "  1.5 - Analise de sistemas "))
          = Some (ascii_text "010501")) as Hrun by (vm_compute; reflexivity).
  split; [exact Hrun|].
  exact (ctn_to_6digits_six_digits _ _ Hrun).
Defined.

Lemma ctn_to_6digits_idempotent_witness :
  ctn_to_6digits (Some (ascii_text "7.2.3")) = Some (ascii_text "070203") ∧
  ctn_to_6digits (Some (ascii_text "070203")) = Some (ascii_text "070203").
Proof.
  assert (ctn_to_6digits (Some (ascii_text "7.2.3")) = Some (ascii_text "070203"))
    as Hrun by (vm_compute; reflexivity).
  split; [exact Hrun|].
  exact (ctn_to_6digits_idempotent _ _ Hrun).
Defined.

Lemma ctn_to_6digits_plain_witness :
  Forall digit (ascii_text "0105") ∧
  ctn_to_6digits (Some (ascii_text "0105")) = Some (ascii_text "0105" ++ ascii_text "01").
Proof.
  assert (Forall digit (ascii_text "0105")) as Hs by (repeat constructor).
  split; [exact Hs|].
  exact (proj1 (ctn_to_6digits_plain (ascii_text "0105") Hs) eq_refl).
Defined.

Lemma ctn_to_6digits_dotted_witness :
  group (ascii_text "1") ∧ group (ascii_text "05") ∧
  ctn_to_6digits (Some (ascii_text "1" ++ [46%N] ++ ascii_text "05"))
    = Some (zfill 2 (ascii_text "1") ++ zfill 2 (ascii_text "05") ++ ascii_text "01").
Proof.
  assert (group (ascii_text "1")) as Ha
    by (split; [by left|repeat constructor]).
  assert (group (ascii_text "05")) as Hb
    by (split; [by right|repeat constructor]).
  split_and!; [exact Ha|exact Hb|].
  exact (proj1 (ctn_to_6digits_dotted (ascii_text "1") (ascii_text "05") Ha Hb)).
Defined.

Lemma ctn_to_6digits_description_witness :
  Forall code_char (ascii_text "1.05") ∧
  ctn_to_6digits (Some (ascii_text "1.05" ++ ascii_text " - " ++ ascii_text "Analise"))
    = ctn_to_6digits (Some (ascii_text "1.05")).
Proof.
  assert (Forall code_char (ascii_text "1.05")) as Hs.
  { repeat constructor; (by left) || by right. }
  split; [exact Hs|].
  exact (ctn_to_6digits_description (ascii_text "1.05") (ascii_text "Analise")
           101%N Hs ltac:(discriminate) eq_refl eq_refl).
Defined.

(** ** The theorems of the network layer at work *)

Lemma certificate_guards_witness :
  @os_path_exists Demo3.world "nada.pfx" = false ∧
  @cancel files cryptography Demo3.etree hashlib gzip Demo3.world Demo3.python
    Demo3.etree_strings
    (Demo3.nfse (Some "nada.pfx") (Some "segredo") Demo3.lote) []
    = Ran [] (inl (Raised (ValueError msg_sem_certificado))) ∧
  @send_batch files cryptography Demo3.etree hashlib gzip Demo3.world
    Demo3.python Demo3.etree_strings Demo4.decoders Demo4.strings
    (Demo3.nfse (Some "rsa.pfx") None Demo3.lote) []
    = Ran [] (inl (Raised (ValueError msg_sem_senha))) ∧
  @send_batch files cryptography Demo3.etree hashlib gzip Demo3.world
    Demo3.python Demo3.etree_strings Demo4.decoders Demo4.strings
    (Demo3.nfse (Some "rsa.pfx") (Some "segredo") Demo3.lote) []
    = Ran [] (inr ([], [("error", msg_lote_rps_vazio)])).
Proof.
  split; [reflexivity|]. split; [|split].
  - apply (proj1 (@certificate_guards files cryptography Demo3.etree hashlib gzip
                    Demo3.world Demo3.python Demo3.etree_strings Demo4.decoders
                    Demo4.strings
                    (Demo3.nfse (Some "nada.pfx") (Some "segredo") Demo3.lote) [])).
    right. exists "nada.pfx". split; reflexivity.
  - apply (proj1 (proj2 (@certificate_guards files cryptography Demo3.etree
                           hashlib gzip Demo3.world Demo3.python
                           Demo3.etree_strings Demo4.decoders Demo4.strings
                           (Demo3.nfse (Some "rsa.pfx") None Demo3.lote) []))
             "rsa.pfx"); reflexivity.
  - apply (proj2 (proj2 (@certificate_guards files cryptography Demo3.etree
                           hashlib gzip Demo3.world Demo3.python
                           Demo3.etree_strings Demo4.decoders Demo4.strings
                           (Demo3.nfse (Some "rsa.pfx") (Some "segredo")
                              Demo3.lote) []))
             "rsa.pfx" "segredo"); reflexivity.
Defined.

Lemma cancel_accounting_witness :
  ∃ results errors k msgs,
    returned
      (@cancel files cryptography Demo3.etree hashlib gzip Demo3.world
         Demo3.python Demo3.etree_strings
         (Demo3.nfse (Some "rsa.pfx") (Some "segredo") Demo3.lote) [])
      = inr (results, errors) ∧
    length results + length errors = 3 ∧
    results
      = replicate k
          [("ws.response", @dump Demo3.etree CancelarNfseResposta_confirmacao)] ∧
    errors = (λ msg, [("error", msg)]) <$> msgs.
Proof.
  apply (@cancel_accounting files cryptography Demo3.etree hashlib gzip
           Demo3.world Demo3.python Demo3.etree_strings
           (Demo3.nfse (Some "rsa.pfx") (Some "segredo") Demo3.lote)
           "rsa.pfx" "segredo" []); [reflexivity..|discriminate].
Defined.

Lemma cancel_unreadable_certificate_witness :
  outcome (@load_pfx files cryptography true "vazio.pfx" (Some "segredo"))
    = inl (ValueError "Could not deserialize PKCS12 data") ∧
  requests
    (events
       (@cancel files cryptography Demo3.etree hashlib gzip Demo3.world
          Demo3.python Demo3.etree_strings
          (Demo3.nfse (Some "vazio.pfx") (Some "segredo") Demo3.lote) []))
    = [] ∧
  returned
    (@cancel files cryptography Demo3.etree hashlib gzip Demo3.world
       Demo3.python Demo3.etree_strings
       (Demo3.nfse (Some "vazio.pfx") (Some "segredo") Demo3.lote) [])
    = inr ([], replicate 3 [("error", "Could not deserialize PKCS12 data")]).
Proof.
  assert (outcome (@load_pfx files cryptography true "vazio.pfx" (Some "segredo"))
          = inl (ValueError "Could not deserialize PKCS12 data")) as Hload
    by (vm_compute; reflexivity).
  split; [exact Hload|].
  apply (@cancel_unreadable_certificate files cryptography Demo3.etree hashlib
           gzip Demo3.world Demo3.python Demo3.etree_strings
           (Demo3.nfse (Some "vazio.pfx") (Some "segredo") Demo3.lote)
           "vazio.pfx" "segredo" (ValueError "Could not deserialize PKCS12 data")
           []); [reflexivity|reflexivity|reflexivity|discriminate|exact Hload].
Defined.

Lemma cancel_single_witness :
  outcome
    (@assinar_xml files cryptography Demo3.etree hashlib
       (Str Demo3.pedRegEvento_xml) "rsa.pfx" (Some "segredo") "infPedReg" true)
    = inr Demo3.signed_xml ∧
  requests
    (events
       (@cancel files cryptography Demo3.etree hashlib gzip Demo3.world
          Demo3.python Demo3.etree_strings
          (Demo3.nfse (Some "rsa.pfx") (Some "segredo") [Demo3.item "CHAVE2"])
          []))
    = [ Request POST (Demo3.evento "CHAVE2")
          (Some [("pedidoRegistroEventoXmlGZipB64",
                  gerar_dpsXmlGZipB64 1762000000 Demo3.signed_xml)])
          json_headers "rsa.pfx" "segredo" 30 true ] ∧
  returned
    (@cancel files cryptography Demo3.etree hashlib gzip Demo3.world
       Demo3.python Demo3.etree_strings
       (Demo3.nfse (Some "rsa.pfx") (Some "segredo") [Demo3.item "CHAVE2"])
       [])
    = inr ([], [[("error",
                  @dump Demo3.etree (CancelarNfseResposta_erro "E0840"))]]).
Proof.
  assert (outcome
            (@assinar_xml files cryptography Demo3.etree hashlib
               (Str Demo3.pedRegEvento_xml) "rsa.pfx" (Some "segredo")
               "infPedReg" true)
          = inr Demo3.signed_xml) as Hsign by (vm_compute; reflexivity).
  split; [exact Hsign|].
  apply (@cancel_single files cryptography Demo3.etree hashlib gzip Demo3.world
           Demo3.python Demo3.etree_strings
           (Demo3.nfse (Some "rsa.pfx") (Some "segredo") [Demo3.item "CHAVE2"])
           "rsa.pfx" "segredo" (Demo3.item "CHAVE2") Demo3.signed_xml []
           eq_refl eq_refl eq_refl eq_refl Hsign).
Defined.

(** ** [enviar_nfse_pkcs12] at work *)

Lemma enviar_nfse_raises_witness :
  returned (Demo4.enviar "torta")
    = inl (Raised (TypeError "'int' object is not iterable")) ∧
  outside (events (Demo4.enviar "torta"))
    = [Sent (post_dps "torta" "rsa.pfx" "segredo")] ∧
  returned (Demo4.enviar "nada")
    = inl (Foreign "ConnectionError" "Connection refused").
Proof.
  destruct (@enviar_nfse_raises Demo4.portal Demo3.python Demo3.etree
              Demo4.decoders Demo4.strings "torta" "rsa.pfx" "segredo" true []
              (Raised (TypeError "'int' object is not iterable")))
    as [Hiff Hsent].
  assert (returned (Demo4.enviar "torta")
          = inl (Raised (TypeError "'int' object is not iterable"))) as Hraised.
  { apply Hiff. right. exists Demo4.torta, [("erros", VInt 7)].
    repeat split; reflexivity. }
  split; [exact Hraised|]. split; [exact (Hsent Hraised)|].
  apply (proj1 (@enviar_nfse_raises Demo4.portal Demo3.python Demo3.etree
                  Demo4.decoders Demo4.strings "nada" "rsa.pfx" "segredo" true []
                  (Foreign "ConnectionError" "Connection refused"))).
  left. reflexivity.
Defined.

Lemma enviar_nfse_not_json_witness :
  outside (events (Demo4.enviar "pagina"))
    = [Sent (post_dps "pagina" "rsa.pfx" "segredo")] ∧
  ∃ xml_nfse pdf_base64,
    returned (Demo4.enviar "pagina")
      = inr (Envio 502 "<html>Bad Gateway</html>" xml_nfse pdf_base64 VNone VNone
               (Some (VList [])) (Some None)).
Proof.
  apply (@enviar_nfse_not_json Demo4.portal Demo3.python Demo3.etree
           Demo4.decoders Demo4.strings "pagina" "rsa.pfx" "segredo" true []
           Demo4.pagina); [reflexivity|].
  intros data. discriminate.
Defined.

Lemma enviar_nfse_errors_witness :
  outside (events (Demo4.enviar "recusada"))
    = [Sent (post_dps "recusada" "rsa.pfx" "segredo")] ∧
  returned (Demo4.enviar "recusada")
    = inr (Envio 400 (text Demo4.recusada) None None VNone VNone
             (Some (VList [VDict [("Codigo", VStr "E0014");
                                  ("Descricao", VStr "DPS duplicada")]]))
             (Some (Some "E0014: DPS duplicada"))).
Proof.
  apply (@enviar_nfse_errors Demo4.portal Demo3.python Demo3.etree
           Demo4.decoders Demo4.strings "recusada" "rsa.pfx" "segredo" true []
           Demo4.recusada
           [("erros",
             VList [VDict [("Codigo", VStr "E0014");
                           ("Descricao", VStr "DPS duplicada")]])]
           "E0014: DPS duplicada");
    [reflexivity|reflexivity|reflexivity|discriminate].
Defined.

Lemma enviar_nfse_no_download_witness :
  outside (events (Demo4.enviar "pendente"))
    = [Sent (post_dps "pendente" "rsa.pfx" "segredo")] ∧
  returned (Demo4.enviar "pendente")
    = inr (Envio 202 (text Demo4.pendente) None None (VStr "DPS2") VNone None None).
Proof.
  apply (@enviar_nfse_no_download Demo4.portal Demo3.python Demo3.etree
           Demo4.decoders Demo4.strings "pendente" "rsa.pfx" "segredo" true []
           Demo4.pendente [("idDps", VStr "DPS2")] None);
    [reflexivity|reflexivity|reflexivity|reflexivity|].
  left. split; discriminate.
Defined.

Lemma enviar_nfse_download_witness :
  outside (events (Demo4.enviar "aceita"))
    = [ Sent (post_dps "aceita" "rsa.pfx" "segredo");
        Sent (get_danfse "CHAVE1" "rsa.pfx" "segredo"); Slept 2;
        Sent (get_danfse "CHAVE1" "rsa.pfx" "segredo") ] ∧
  returned (Demo4.enviar "aceita")
    = inr (Envio 201 (text Demo4.aceita) (Some Demo4.nfse_xml)
             (Some "JVBERi0xLjQ=") (VStr "DPS1") (VStr "CHAVE1") None None).
Proof.
  apply (@enviar_nfse_download Demo4.portal Demo3.python Demo3.etree
           Demo4.decoders Demo4.strings "aceita" "rsa.pfx" "segredo" true []
           Demo4.aceita
           [("idDps", VStr "DPS1"); ("chaveAcesso", VStr "CHAVE1");
            ("nfseXmlGZipB64", VStr Demo4.nfse_gz_b64)]
           None 1);
    [reflexivity|reflexivity|reflexivity|reflexivity|by right|reflexivity|lia| |].
  - intros [|j] Hj; [reflexivity|lia].
  - discriminate.
Defined.

Lemma enviar_nfse_gives_up_witness :
  outside (events (Demo4.enviar "demorada"))
    = Sent (post_dps "demorada" "rsa.pfx" "segredo")
      :: failed_attempts (get_danfse "CHAVE2" "rsa.pfx" "segredo") 3 ∧
  sleeps (events (Demo4.enviar "demorada")) = [2; 2; 2]%N ∧
  ∃ pdf,
    nonempty pdf = None ∧
    returned (Demo4.enviar "demorada")
      = inr (Envio 201 (text Demo4.demorada) None pdf VNone (VStr "CHAVE2")
               None None).
Proof.
  apply (@enviar_nfse_gives_up Demo4.portal Demo3.python Demo3.etree
           Demo4.decoders Demo4.strings "demorada" "rsa.pfx" "segredo" true []
           Demo4.demorada [("chaveAcesso", VStr "CHAVE2")] None);
    [reflexivity|reflexivity|reflexivity|reflexivity|by right|reflexivity|].
  intros [|[|[|j]]] Hj; [reflexivity..|lia].
Defined.

(** ** [send_batch] and [get_batch_status] at work *)

Lemma send_batch_total_witness :
  ∃ result errors,
    returned
      (@send_batch files cryptography Demo3.etree hashlib gzip Demo4.portal
         Demo3.python Demo3.etree_strings Demo4.decoders Demo4.strings
         Demo4.emissor [])
      = inr (result, errors) ∧
    (errors = [] ∧
     result.*1 = ["chave_acesso"; "id_dps"; "xml_nfse"; "xml_enviado"; "ws.response"]
     ∨ (∃ msg, errors = [("error", msg)]) ∧
       (result = []
        ∨ result.*1 = ["ws.response"; "erros"; "mensagem_erro"]
        ∨ result.*1 = ["chave_acesso"; "id_dps"; "xml_nfse"; "xml_enviado"])).
Proof.
  destruct (@send_batch_total files cryptography Demo3.etree hashlib gzip
              Demo4.portal Demo3.python Demo3.etree_strings Demo4.decoders
              Demo4.strings Demo4.emissor "rsa.pfx" "segredo"
              (RpsItem Demo.dps_xml) [] [] eq_refl eq_refl eq_refl eq_refl)
    as (result & errors & Hreturned & Hshape & _).
  exists result, errors. split; [exact Hreturned|exact Hshape].
Defined.

Lemma get_batch_status_total_witness :
  requests
    (events
       (@get_batch_status Demo3.etree Demo4.portal Demo3.python Demo4.emissor
          [("chave_acesso", VStr EmptyString); ("lote.protocolo", VStr "CHAVE1")]
          []))
    = [] ∧
  returned
    (@get_batch_status Demo3.etree Demo4.portal Demo3.python Demo4.emissor
       [("chave_acesso", VStr EmptyString); ("lote.protocolo", VStr "CHAVE1")] [])
    = inr ([], [("error", msg_sem_chave)]) ∧
  requests
    (events
       (@get_batch_status Demo3.etree Demo4.portal Demo3.python Demo4.emissor
          [("lote.protocolo", VStr "CHAVE1")] []))
    = [Request GET (URL_PRODUCAO +:+ "/CHAVE1") None [] "rsa.pfx" "segredo" 30
         true] ∧
  returned
    (@get_batch_status Demo3.etree Demo4.portal Demo3.python Demo4.emissor
       [("lote.protocolo", VStr "CHAVE1")] [])
    = inr ([], [("error", "NFSe não encontrada no Portal Nacional")]).
Proof.
  destruct (@get_batch_status_total Demo3.etree Demo4.portal Demo3.python
              Demo4.emissor
              [("chave_acesso", VStr EmptyString);
               ("lote.protocolo", VStr "CHAVE1")] [])
    as (_ & _ & Hkey & _).
  destruct (Hkey eq_refl) as [Hnone Hmsg].
  destruct (@get_batch_status_total Demo3.etree Demo4.portal Demo3.python
              Demo4.emissor [("lote.protocolo", VStr "CHAVE1")] [])
    as (_ & _ & _ & _ & Hcall & _).
  destruct (Hcall "rsa.pfx" "segredo" eq_refl eq_refl eq_refl)
    as [Hsent Hreturned].
  split_and!; [exact Hnone|exact Hmsg|exact Hsent|].
  rewrite Hreturned. vm_compute. reflexivity.
Defined.
(** ** Checks of the Python helpers *)

Example b64encode_Man : decode (b64encode (encode "Man")) = "TWFu".
Proof. reflexivity. Qed.
Example b64encode_Ma : decode (b64encode (encode "Ma")) = "TWE=".
Proof. reflexivity. Qed.
Example b64encode_M : decode (b64encode (encode "M")) = "TQ==".
Proof. reflexivity. Qed.
Example b64encode_hello : decode (b64encode (encode "hello world")) = "aGVsbG8gd29ybGQ=".
Proof. reflexivity. Qed.
Example len_ascii : len "abc" = 3.
Proof. reflexivity. Qed.
Example len_accent : len "não" = 3.
Proof. reflexivity. Qed.
Example pretty_len : pretty (len "inválido") = "8".
Proof. reflexivity. Qed.

